(** * SLP metadata maker: a shallow embedding of [src/lib/util.ts]

    The library builds the OP_RETURN scripts of the three SLP token
    messages (GENESIS, MINT, SEND).  Buffers are lists of bytes, the
    JavaScript numbers [decimals] and [mintBatonVout] are values of the type
    [Number], a thrown [Error] is the [Throw] branch of a small result
    monad, and the arbitrary precision numbers of bignumber.js are the
    values of the type [BN]. *)

From Stdlib Require Import ZArith NArith List String Ascii Lia Bool.
From Stdlib Require Import Strings.Byte.
Import ListNotations.

Open Scope Z_scope.

(** ** Bytes and buffers *)

Definition Buffer := list byte.

(** [Buffer.from([n])] stores a number in one byte, keeping its low eight
    bits. *)
Definition byte_of_Z (z : Z) : byte :=
  match Byte.of_N (Z.to_N (z mod 256)) with
  | Some b => b
  | None => x00
  end.

Definition Z_of_byte (b : byte) : Z := Z.of_N (Byte.to_N b).

(** [buf.length] *)
Definition blength (buf : Buffer) : Z := Z.of_nat (List.length buf).

(** [tmp.writeUInt16LE(v, 0)] on a fresh two byte buffer. *)
Definition writeUInt16LE (v : Z) : Buffer :=
  [byte_of_Z (Z.land v 0xFF); byte_of_Z (Z.land (Z.shiftr v 8) 0xFF)].

(** [tmp.writeUInt32LE(v, 0)] on a fresh four byte buffer. *)
Definition writeUInt32LE (v : Z) : Buffer :=
  [byte_of_Z (Z.land v 0xFF);
   byte_of_Z (Z.land (Z.shiftr v 8) 0xFF);
   byte_of_Z (Z.land (Z.shiftr v 16) 0xFF);
   byte_of_Z (Z.land (Z.shiftr v 24) 0xFF)].

(** The number a buffer denotes when read least significant byte first. *)
Fixpoint le_value (bs : Buffer) : Z :=
  match bs with
  | [] => 0
  | b :: rest => Z_of_byte b + 256 * le_value rest
  end.

(** The number a buffer denotes when read most significant byte first. *)
Definition be_value (bs : Buffer) : Z :=
  fold_left (fun acc b => acc * 256 + Z_of_byte b) bs 0.

(** ** Errors

    Every [throw new Error(msg)] of the source is one constructor; [message]
    gives the text that is thrown. *)

Inductive Error : Set :=
| UnsupportedLength
| NotInteger
| NotPositive
| OutOfRange
| UnknownVersionType
| DocumentHashLength
| DocumentHashNotHex
| DecimalsOutOfRange
| MintBatonVoutOutOfRange
| ChildQuantityNotOne
| ChildDecimalsNotZero
| ChildMintBatonPresent
| TokenIdRegex
| TokenIdLength
| TooFewAmounts
| TooManyAmounts.

Definition message (e : Error) : string :=
  match e with
  | UnsupportedLength => "does not support bigger pushes yet"
  | NotInteger => "bn not an integer"
  | NotPositive => "bn not positive integer"
  | OutOfRange => "bn outside of range"
  | UnknownVersionType => "unknown versionType"
  | DocumentHashLength => "documentHash must be either 0 or 32 hex bytes"
  | DocumentHashNotHex => "documentHash must be hex"
  | DecimalsOutOfRange => "decimals out of range"
  | MintBatonVoutOutOfRange => "mintBatonVout out of range (0x02 < > 0xFF)"
  | ChildQuantityNotOne => "quantity must be 1 for NFT1 child genesis"
  | ChildDecimalsNotZero => "decimals must be 0 for NFT1 child genesis"
  | ChildMintBatonPresent => "mintBatonVout must be null for NFT1 child genesis"
  | TokenIdRegex => "tokenIdHex does not pass regex"
  | TokenIdLength => "tokenIdHex must be 32 bytes"
  | TooFewAmounts => "send requires at least one amount"
  | TooManyAmounts => "too many slp amounts"
  end%string.

(** The three messages of the child genesis rule form one failure kind. *)
Definition InvalidChildGenesisParams (e : Error) : Prop :=
  e = ChildQuantityNotOne \/ e = ChildDecimalsNotZero \/ e = ChildMintBatonPresent.

(** ** The result monad: a returned value or a thrown error *)

Inductive result (A : Type) : Type :=
| Ok (a : A)
| Throw (e : Error).

Arguments Ok {A} a.
Arguments Throw {A} e.

Definition bind {A B : Type} (m : result A) (k : A -> result B) : result B :=
  match m with
  | Ok a => k a
  | Throw e => Throw e
  end.

Notation "x <- m ;; k" := (bind m (fun x => k))
  (at level 61, m at next level, right associativity).

(** A guard: [if (c) { throw new Error(e) }]. *)
Definition throw_if (c : bool) (e : Error) : result unit :=
  if c then Throw e else Ok tt.

(** Left to right evaluation of an array of fallible elements. *)
Fixpoint mapM {A B : Type} (f : A -> result B) (l : list A) : result (list B) :=
  match l with
  | [] => Ok []
  | a :: rest =>
      b <- f a ;;
      bs <- mapM f rest ;;
      Ok (b :: bs)
  end.

Definition succeeds {A : Type} (m : result A) : Prop := exists a, m = Ok a.
Definition fails {A : Type} (m : result A) : Prop := exists e, m = Throw e.

(** ** pushdata *)

Definition pushdata (buf : Buffer) : result Buffer :=
  if blength buf =? 0 then
    Ok [x4c; x00]
  else if blength buf <? 0x4E then
    Ok (byte_of_Z (blength buf) :: buf)
  else if blength buf <? 0xFF then
    Ok (x4c :: byte_of_Z (blength buf) :: buf)
  else if blength buf <? 0xFFFF then
    Ok (x4d :: writeUInt16LE (blength buf) ++ buf)
  else if blength buf <? 0xFFFFFFFF then
    Ok (x4e :: writeUInt32LE (blength buf) ++ buf)
  else
    Throw UnsupportedLength.

(** ** Text

    [Buffer.from] and the string methods are those of Node.js and of
    JavaScript, modelled after their documentation.  A JavaScript string is modelled by a [string] whose characters are its
    code units; the type covers the code units below 256. *)

(** [Buffer.from(s)]: the UTF-8 encoding.  A code unit below 128 is one
    byte, a code unit from 128 to 255 is two bytes. *)
Definition utf8_unit (c : ascii) : Buffer :=
  let n := Z.of_N (N_of_ascii c) in
  if n <? 0x80 then [byte_of_Z n]
  else [byte_of_Z (Z.lor 0xC0 (Z.shiftr n 6)); byte_of_Z (Z.lor 0x80 (Z.land n 0x3F))].

Fixpoint Buffer_from_string (s : string) : Buffer :=
  match s with
  | EmptyString => []
  | String c rest => utf8_unit c ++ Buffer_from_string rest
  end.

(** An argument of type [string|Buffer]; [typeof(x) === 'string'] is the
    test for the first constructor. *)
Inductive StringOrBuffer : Type :=
| Str (s : string)
| Buf (b : Buffer).

(** [Buffer.from(x)] for such an argument; a buffer is copied. *)
Definition Buffer_from (x : StringOrBuffer) : Buffer :=
  match x with
  | Str s => Buffer_from_string s
  | Buf b => b
  end.

(** The value of a hexadecimal digit, [None] for any other character. *)
Definition hex_val (c : ascii) : option Z :=
  let n := Z.of_N (N_of_ascii c) in
  if (0x30 <=? n) && (n <=? 0x39) then Some (n - 0x30)
  else if (0x61 <=? n) && (n <=? 0x66) then Some (n - 0x61 + 10)
  else if (0x41 <=? n) && (n <=? 0x46) then Some (n - 0x41 + 10)
  else None.

(** The lower case digit that bignumber.js prints for a value below 16. *)
Definition hex_char (d : Z) : ascii :=
  if d <? 10 then ascii_of_N (Z.to_N (0x30 + d))
  else ascii_of_N (Z.to_N (0x61 + (d - 10))).

(** [Buffer.from(s, 'hex')]: pairs of digits are decoded from the left;
    decoding stops at the first pair that is not two hex digits, and a
    last single character is dropped. *)
Fixpoint Buffer_from_hex (s : string) : Buffer :=
  match s with
  | String c1 (String c2 rest) =>
      match hex_val c1, hex_val c2 with
      | Some hi, Some lo => byte_of_Z (16 * hi + lo) :: Buffer_from_hex rest
      | _, _ => []
      end
  | _ => []
  end.

(** [s.match(/^[0-9a-fA-F]{64}$/)] is not null: the string is exactly 64
    hex digits. *)
Fixpoint all_hex (s : string) : bool :=
  match s with
  | EmptyString => true
  | String c rest =>
      match hex_val c with
      | Some _ => all_hex rest
      | None => false
      end
  end.

(** [s.length] *)
Definition slength (s : string) : Z := Z.of_nat (String.length s).

Definition matches_hex64 (s : string) : bool :=
  (slength s =? 64) && all_hex s.

(** [s.padStart(16, '0')] *)
Definition padStart16 (s : string) : string :=
  (string_of_list_ascii (repeat "0"%char (16 - String.length s)) ++ s)%string.

(** ** bignumber.js values

    The library is a dependency of the source; its values and the four
    methods the source calls are modelled after its documentation.
    A [BN] is not a number, an infinity, or a signed decimal
    [(-1)^negative * digits / 10^scale].  The sign is kept apart from the
    magnitude, as the library does, so that a negative zero exists. *)
Inductive BN : Type :=
| BNNaN
| BNInfinity (negative : bool)
| BNFinite (negative : bool) (digits : N) (scale : N).

(** [new BN(n)] for an integer. *)
Definition BN_of_Z (n : Z) : BN :=
  BNFinite (n <? 0) (Z.abs_N n) 0.

(** [bn.isInteger()] *)
Definition isInteger (bn : BN) : bool :=
  match bn with
  | BNFinite _ d s => (d mod 10 ^ s =? 0)%N
  | _ => false
  end.

(** [bn.isPositive()]: the sign is positive. *)
Definition isPositive (bn : BN) : bool :=
  match bn with
  | BNFinite neg _ _ => negb neg
  | BNInfinity neg => negb neg
  | BNNaN => false
  end.

(** [bn.isEqualTo(1)] *)
Definition isEqualTo1 (bn : BN) : bool :=
  match bn with
  | BNFinite false d s => (d =? 10 ^ s)%N
  | _ => false
  end.

(** The magnitude of an integral value. *)
Definition magnitude (bn : BN) : Z :=
  match bn with
  | BNFinite _ d s => Z.of_N (d / 10 ^ s)
  | _ => 0
  end.

(** The hex digits of a number, least significant first; [fuel] bounds the
    number of digits produced. *)
Fixpoint hex_digits (fuel : nat) (n : Z) : list Z :=
  match fuel with
  | O => []
  | S f => (n mod 16) :: (if n <? 16 then [] else hex_digits f (n / 16))
  end.

(** The minimal hexadecimal numeral of a non-negative integer. *)
Definition toHex (n : Z) : string :=
  string_of_list_ascii
    (map hex_char (rev (hex_digits (S (Z.to_nat (Z.log2 n))) n))).

(** [bn.toString(16)] on an integer of positive sign: its minimal numeral,
    in lower case.  [BNToInt64BE] calls it on no other value, and no other
    value is modelled. *)
Definition toString16 (bn : BN) : string := toHex (magnitude bn).

(** ** BNToInt64BE *)

Definition BNToInt64BE (bn : BN) : result Buffer :=
  _ <- throw_if (negb (isInteger bn)) NotInteger ;;
  _ <- throw_if (negb (isPositive bn)) NotPositive ;;
  let h := toString16 bn in
  _ <- throw_if (slength h >? 16) OutOfRange ;;
  Ok (Buffer_from_hex (padStart16 h)).

(** ** JavaScript numbers

    [decimals] and [mintBatonVout] have the type [number], and the source
    compares them without testing that they are integers.  A [Number] is
    not a number, an infinity, or a signed binary fraction
    [(-1)^negative * mantissa / 2^shift]; every finite double is one.  The
    two zeros behave alike in all that the source does with a number.
    [versionType] is kept a [Z]: the source goes on only when it is one of
    three integers. *)
Inductive Number : Type :=
| NumNaN
| NumInfinity (negative : bool)
| NumFinite (negative : bool) (mantissa : N) (shift : N).

(** An integer as a number. *)
Definition Int (z : Z) : Number := NumFinite (z <? 0) (Z.abs_N z) 0.

(** The signed numerator of a binary fraction. *)
Definition numerator (negative : bool) (mantissa : N) : Z :=
  if negative then - Z.of_N mantissa else Z.of_N mantissa.

(** [x < c] for an integer [c]; a comparison with NaN is false. *)
Definition Num_lt (x : Number) (c : Z) : bool :=
  match x with
  | NumNaN => false
  | NumInfinity negative => negative
  | NumFinite negative m s => numerator negative m <? c * 2 ^ Z.of_N s
  end.

(** [x > c] for an integer [c]. *)
Definition Num_gt (x : Number) (c : Z) : bool :=
  match x with
  | NumNaN => false
  | NumInfinity negative => negb negative
  | NumFinite negative m s => numerator negative m >? c * 2 ^ Z.of_N s
  end.

(** [x !== 0] *)
Definition Num_neq_0 (x : Number) : bool :=
  match x with
  | NumFinite _ m _ => negb (m =? 0)%N
  | _ => true
  end.

(** The byte that [Buffer.from([x])] stores: the integer part of [x],
    rounded towards zero, modulo 256; 0 for NaN and the infinities. *)
Definition byte_of_Number (x : Number) : byte :=
  match x with
  | NumFinite negative m s => byte_of_Z (numerator negative (m / 2 ^ s))
  | _ => x00
  end.

(** ** The message encoders *)

(** [[0x01, 0x41, 0x81].includes(versionType)] *)
Definition known_versionType (versionType : Z) : bool :=
  (versionType =? 0x01) || (versionType =? 0x41) || (versionType =? 0x81).

(** [Buffer.concat] of an array of buffers. *)
Definition Buffer_concat (l : list Buffer) : Buffer := List.concat l.

(** The tag: the text SLP followed by the character of code 0. *)
Definition SLP_tag : string :=
  String "S" (String "L" (String "P" (String Ascii.zero EmptyString))).

(** [mintBatonVout === null ? [] : [mintBatonVout]] as a buffer. *)
Definition baton_bytes (mintBatonVout : option Number) : Buffer :=
  match mintBatonVout with
  | None => []
  | Some v => [byte_of_Number v]
  end.

(** The range check shared by GENESIS and MINT. *)
Definition check_mintBatonVout (mintBatonVout : option Number) : result unit :=
  match mintBatonVout with
  | None => Ok tt
  | Some v => throw_if (Num_lt v 2 || Num_gt v 0xFF) MintBatonVoutOutOfRange
  end.

(** The normalisation of [documentHash] in GENESIS. *)
Definition normalize_documentHash (documentHash : StringOrBuffer) : result Buffer :=
  match documentHash with
  | Str s =>
      _ <- throw_if (negb (slength s =? 0) && negb (slength s =? 64))
                    DocumentHashLength ;;
      _ <- throw_if ((slength s =? 64) && negb (matches_hex64 s))
                    DocumentHashNotHex ;;
      Ok (Buffer_from_hex s)
  | Buf b =>
      _ <- throw_if (negb (blength b =? 0) && negb (blength b =? 32))
                    DocumentHashLength ;;
      Ok b
  end.

(** The normalisation of [tokenIdHex] in MINT and SEND. *)
Definition normalize_tokenId (tokenIdHex : StringOrBuffer) : result Buffer :=
  match tokenIdHex with
  | Str s =>
      _ <- throw_if (negb (matches_hex64 s)) TokenIdRegex ;;
      _ <- throw_if (negb (slength s =? 64)) TokenIdLength ;;
      Ok (Buffer_from_hex s)
  | Buf b =>
      _ <- throw_if (negb (blength b =? 32)) TokenIdLength ;;
      Ok b
  end.

(** The checks for [versionType === 0x41]. *)
Definition check_child_genesis
    (versionType : Z) (decimals : Number) (mintBatonVout : option Number)
    (quantity : BN)
    : result unit :=
  if versionType =? 0x41 then
    _ <- throw_if (negb (isEqualTo1 quantity)) ChildQuantityNotOne ;;
    _ <- throw_if (Num_neq_0 decimals) ChildDecimalsNotZero ;;
    match mintBatonVout with
    | Some _ => Throw ChildMintBatonPresent
    | None => Ok tt
    end
  else Ok tt.

Definition createOpReturnGenesis
    (versionType : Z) (ticker name documentUrl documentHash : StringOrBuffer)
    (decimals : Number) (mintBatonVout : option Number) (quantity : BN)
    : result Buffer :=
  _ <- throw_if (negb (known_versionType versionType)) UnknownVersionType ;;
  documentHash' <- normalize_documentHash documentHash ;;
  _ <- throw_if (Num_lt decimals 0 || Num_gt decimals 9) DecimalsOutOfRange ;;
  _ <- check_mintBatonVout mintBatonVout ;;
  _ <- check_child_genesis versionType decimals mintBatonVout quantity ;;
  p_tag <- pushdata (Buffer_from_string SLP_tag) ;;
  p_version <- pushdata [byte_of_Z versionType] ;;
  p_kind <- pushdata (Buffer_from_string "GENESIS") ;;
  p_ticker <- pushdata (Buffer_from ticker) ;;
  p_name <- pushdata (Buffer_from name) ;;
  p_url <- pushdata (Buffer_from documentUrl) ;;
  p_hash <- pushdata documentHash' ;;
  p_decimals <- pushdata [byte_of_Number decimals] ;;
  p_baton <- pushdata (baton_bytes mintBatonVout) ;;
  q <- BNToInt64BE quantity ;;
  p_quantity <- pushdata q ;;
  Ok (Buffer_concat
        [[x6a]; p_tag; p_version; p_kind; p_ticker; p_name; p_url; p_hash;
         p_decimals; p_baton; p_quantity]).

Definition createOpReturnMint
    (versionType : Z) (tokenIdHex : StringOrBuffer)
    (mintBatonVout : option Number) (quantity : BN)
    : result Buffer :=
  _ <- throw_if (negb (known_versionType versionType)) UnknownVersionType ;;
  tokenId <- normalize_tokenId tokenIdHex ;;
  _ <- check_mintBatonVout mintBatonVout ;;
  p_tag <- pushdata (Buffer_from_string SLP_tag) ;;
  p_version <- pushdata [byte_of_Z versionType] ;;
  p_kind <- pushdata (Buffer_from_string "MINT") ;;
  p_token <- pushdata tokenId ;;
  p_baton <- pushdata (baton_bytes mintBatonVout) ;;
  q <- BNToInt64BE quantity ;;
  p_quantity <- pushdata q ;;
  Ok (Buffer_concat
        [[x6a]; p_tag; p_version; p_kind; p_token; p_baton; p_quantity]).

Definition createOpReturnSend
    (versionType : Z) (tokenIdHex : StringOrBuffer) (slpAmounts : list BN)
    : result Buffer :=
  _ <- throw_if (negb (known_versionType versionType)) UnknownVersionType ;;
  tokenId <- normalize_tokenId tokenIdHex ;;
  _ <- throw_if (Z.of_nat (List.length slpAmounts) <? 1) TooFewAmounts ;;
  _ <- throw_if (Z.of_nat (List.length slpAmounts) >? 19) TooManyAmounts ;;
  p_tag <- pushdata (Buffer_from_string SLP_tag) ;;
  p_version <- pushdata [byte_of_Z versionType] ;;
  p_kind <- pushdata (Buffer_from_string "SEND") ;;
  p_token <- pushdata tokenId ;;
  p_amounts <- mapM (fun v => q <- BNToInt64BE v ;; pushdata q) slpAmounts ;;
  Ok (Buffer_concat ([[x6a]; p_tag; p_version; p_kind; p_token] ++ p_amounts)).

(** ** Vocabulary of the statements *)

(** A buffer of [n] zero bytes. *)
Definition zeros (n : Z) : Buffer := repeat x00 (Z.to_nat n).

(** The number a list of hex digits denotes, most significant first. *)
Definition be_digits (ds : list Z) : Z :=
  fold_left (fun acc d => acc * 16 + d) ds 0.

(** The number a list of hex digits denotes, least significant first. *)
Fixpoint le_digits (ds : list Z) : Z :=
  match ds with
  | [] => 0
  | d :: rest => d + 16 * le_digits rest
  end.

(** A hex digit, as a number. *)
Definition hex_digit (d : Z) : Prop := 0 <= d < 16.

(** The text of a list of hex digits. *)
Definition digits_text (ds : list Z) : string :=
  string_of_list_ascii (map hex_char ds).

(** A quantity that [BNToInt64BE] accepts: an integer of positive sign that
    is at most 2^64 - 1. *)
Definition uint64_BN (bn : BN) : Prop :=
  isInteger bn = true /\ isPositive bn = true /\ magnitude bn <= 2 ^ 64 - 1.

(** A buffer that [pushdata] accepts. *)
Definition pushable (buf : Buffer) : Prop := blength buf < 0xFFFFFFFF.

(** A [documentHash] that GENESIS accepts: a text that is empty or 64 hex
    digits, or a buffer of 0 or 32 bytes. *)
Definition valid_documentHash (h : StringOrBuffer) : Prop :=
  match h with
  | Str s => s = EmptyString \/ matches_hex64 s = true
  | Buf b => blength b = 0 \/ blength b = 32
  end.

(** A [tokenIdHex] that MINT and SEND accept: 64 hex digits or 32 bytes. *)
Definition valid_tokenId (t : StringOrBuffer) : Prop :=
  match t with
  | Str s => matches_hex64 s = true
  | Buf b => blength b = 32
  end.

(** A [decimals] that passes the range check: neither below 0 nor above 9.
    For an integer that is 0 <= decimals <= 9; NaN passes too. *)
Definition valid_decimals (d : Number) : Prop :=
  Num_lt d 0 = false /\ Num_gt d 9 = false.

(** A [mintBatonVout] that passes the range check: absent, or neither below
    2 nor above 255.  For an integer that is 2 <= v <= 255; NaN passes
    too. *)
Definition valid_mintBatonVout (m : option Number) : Prop :=
  match m with
  | None => True
  | Some v => Num_lt v 2 = false /\ Num_gt v 0xFF = false
  end.

(** The integer part of a number, rounded towards zero; 0 for NaN and the
    infinities. *)
Definition integer_part (x : Number) : Z :=
  match x with
  | NumFinite negative m s => numerator negative (m / 2 ^ s)
  | _ => 0
  end.

(** The pushed [mintBatonVout] field: the push of an empty buffer when it
    is absent, the push of its one byte when it is present. *)
Definition baton_field (m : option Number) : Buffer :=
  match m with
  | None => [x4c; x00]
  | Some v => [x01; byte_of_Number v]
  end.

(** The pushed message kinds. *)
Definition pushed_GENESIS : Buffer := [x07; x47; x45; x4e; x45; x53; x49; x53].
Definition pushed_MINT : Buffer := [x04; x4d; x49; x4e; x54].
Definition pushed_SEND : Buffer := [x04; x53; x45; x4e; x44].

(** The script of the GENESIS scenario of C1. *)
Definition scenario_script : Buffer :=
  [x6a; x04; x53; x4c; x50; x00; x01; x01;
   x07; x47; x45; x4e; x45; x53; x49; x53;
   x03; x54; x4f; x4b;
   x05; x54; x6f; x6b; x65; x6e;
   x4c; x00;
   x4c; x00;
   x01; x02;
   x01; x02;
   x08; x00; x00; x00; x00; x00; x00; x03; xe8].

(** The last [n] bytes of a buffer. *)
Definition last_bytes (n : nat) (buf : Buffer) : Buffer :=
  skipn (List.length buf - n) buf.

(** The prefix shared by the three messages: OP_RETURN, the pushed tag
    ["SLP\0"], and the length byte of the [versionType] push. *)
Definition slp_prefix : Buffer := [x6a; x04; x53; x4c; x50; x00; x01].

(** The header that [pushdata] writes before a buffer of [len] bytes; the
    push of the empty buffer is all header. *)
Definition push_header (len : Z) : Buffer :=
  if len =? 0 then [x4c; x00]
  else if len <? 0x4E then [byte_of_Z len]
  else if len <? 0xFF then [x4c; byte_of_Z len]
  else if len <? 0xFFFF then x4d :: writeUInt16LE len
  else x4e :: writeUInt32LE len.

(** A length at which the one header byte of a push is itself a marker. *)
Definition marker_length (len : Z) : Prop := len = 0x4C \/ len = 0x4D.

(** [buf.toString('hex')]: two lower case digits per byte. *)
Definition hex_of_byte (b : byte) : list Z :=
  [Z_of_byte b / 16; Z_of_byte b mod 16].

Definition Buffer_toString_hex (buf : Buffer) : string :=
  digits_text (flat_map hex_of_byte buf).

(** The bytes of a buffer from offset [from], [n] of them:
    [buf.slice(from, from + n)]. *)
Definition slice (from n : nat) (buf : Buffer) : Buffer :=
  firstn n (skipn from buf).

(** ** Bytes *)

Lemma Z_of_byte_of_Z (z : Z) : 0 <= z < 256 -> Z_of_byte (byte_of_Z z) = z.
Proof.
  intros Hz. unfold Z_of_byte, byte_of_Z.
  rewrite Z.mod_small by lia.
  destruct (Byte.of_N (Z.to_N z)) as [b|] eqn:E.
  - apply Byte.to_of_N in E. rewrite E. lia.
  - apply Byte.of_N_None_iff in E. lia.
Qed.

Lemma Z_of_byte_range (b : byte) : 0 <= Z_of_byte b < 256.
Proof.
  unfold Z_of_byte. pose proof (Byte.to_N_bounded b). lia.
Qed.

Lemma byte_of_Z_of_byte (b : byte) : byte_of_Z (Z_of_byte b) = b.
Proof.
  unfold byte_of_Z. pose proof (Z_of_byte_range b) as Hr.
  rewrite Z.mod_small by lia. unfold Z_of_byte.
  rewrite N2Z.id, Byte.of_to_N. reflexivity.
Qed.

Lemma land_FF (v : Z) : Z.land v 0xFF = v mod 256.
Proof. change 0xFF with (Z.ones 8). now rewrite Z.land_ones. Qed.

Lemma le_value_writeUInt16LE (v : Z) :
  0 <= v < 2 ^ 16 -> le_value (writeUInt16LE v) = v.
Proof.
  intros Hv. unfold writeUInt16LE, le_value.
  rewrite !land_FF, Z.shiftr_div_pow2 by lia.
  change (2 ^ 16) with 65536 in Hv. change (2 ^ 8) with 256.
  rewrite !Z_of_byte_of_Z by (apply Z.mod_pos_bound; lia).
  rewrite (Z.mod_small (v / 256)) by (split; [apply Z.div_pos | apply Z.div_lt_upper_bound]; lia).
  pose proof (Z.div_mod v 256). lia.
Qed.

Lemma le_value_writeUInt32LE (v : Z) :
  0 <= v < 2 ^ 32 -> le_value (writeUInt32LE v) = v.
Proof.
  intros Hv. unfold writeUInt32LE, le_value.
  rewrite !land_FF, !Z.shiftr_div_pow2 by lia.
  change (2 ^ 32) with 4294967296 in Hv.
  change (2 ^ 8) with 256. change (2 ^ 16) with (256 * 256).
  change (2 ^ 24) with (256 * (256 * 256)).
  rewrite <- !Z.div_div by lia.
  rewrite !Z_of_byte_of_Z by (apply Z.mod_pos_bound; lia).
  set (a := v / 256). set (b := a / 256). set (c := b / 256).
  assert (Hc : 0 <= c < 256).
  { unfold c, b, a. split.
    - repeat apply Z.div_pos; lia.
    - repeat (apply Z.div_lt_upper_bound; [lia|]). lia. }
  rewrite (Z.mod_small c) by lia.
  pose proof (Z.div_mod v 256). pose proof (Z.div_mod a 256).
  pose proof (Z.div_mod b 256). fold a in H. fold b in H0. fold c in H1. lia.
Qed.

(** ** Numbers *)

Lemma numerator_Int (z : Z) : numerator (z <? 0) (Z.abs_N z) = z.
Proof.
  unfold numerator. rewrite N2Z.inj_abs_N.
  destruct (Z.ltb_spec z 0); lia.
Qed.

Lemma Num_lt_Int (z c : Z) : Num_lt (Int z) c = (z <? c).
Proof.
  unfold Int, Num_lt. rewrite numerator_Int. change (2 ^ Z.of_N 0) with 1.
  now rewrite Z.mul_1_r.
Qed.

Lemma Num_gt_Int (z c : Z) : Num_gt (Int z) c = (z >? c).
Proof.
  unfold Int, Num_gt. rewrite numerator_Int. change (2 ^ Z.of_N 0) with 1.
  now rewrite Z.mul_1_r.
Qed.

Lemma Num_neq_0_Int (z : Z) : Num_neq_0 (Int z) = negb (z =? 0).
Proof.
  unfold Int, Num_neq_0. f_equal.
  destruct (N.eqb_spec (Z.abs_N z) 0) as [E|E]; destruct (Z.eqb_spec z 0); lia.
Qed.

Lemma integer_part_Int (z : Z) : integer_part (Int z) = z.
Proof.
  unfold Int, integer_part. change (2 ^ 0)%N with 1%N.
  rewrite N.div_1_r. apply numerator_Int.
Qed.

Lemma byte_of_Number_integer_part (x : Number) :
  byte_of_Number x = byte_of_Z (integer_part x).
Proof. destruct x; reflexivity. Qed.

Lemma byte_of_Number_Int (z : Z) : byte_of_Number (Int z) = byte_of_Z z.
Proof. now rewrite byte_of_Number_integer_part, integer_part_Int. Qed.

Lemma valid_decimals_Int (z : Z) : valid_decimals (Int z) <-> 0 <= z <= 9.
Proof.
  unfold valid_decimals. rewrite Num_lt_Int, Num_gt_Int.
  destruct (Z.ltb_spec z 0) as [L|L]; destruct (Z.gtb_spec z 9) as [G|G];
    split; intros X; try lia; try (destruct X; discriminate); now split.
Qed.

Lemma valid_mintBatonVout_Int (z : Z) :
  valid_mintBatonVout (Some (Int z)) <-> 2 <= z <= 255.
Proof.
  cbn [valid_mintBatonVout]. rewrite Num_lt_Int, Num_gt_Int.
  destruct (Z.ltb_spec z 2) as [L|L]; destruct (Z.gtb_spec z 0xFF) as [G|G];
    split; intros X; try lia; try (destruct X; discriminate); now split.
Qed.

(** A number that is neither below [lo] nor above [hi] is NaN or has its
    integer part from [lo] to [hi]. *)
Lemma passes_range (x : Number) (lo hi : Z) :
  0 <= lo -> Num_lt x lo = false -> Num_gt x hi = false ->
  x = NumNaN \/ lo <= integer_part x <= hi.
Proof.
  intros Hlo Hlt Hgt. destruct x as [|neg|neg m s]; [now left| |].
  - destruct neg; discriminate.
  - right. cbn [Num_lt Num_gt integer_part] in *.
    apply Z.ltb_ge in Hlt. rewrite Z.gtb_ltb in Hgt. apply Z.ltb_ge in Hgt.
    assert (Hp : 0 < 2 ^ Z.of_N s) by (apply Z.pow_pos_nonneg; lia).
    assert (Hd : Z.of_N (m / 2 ^ s) = Z.of_N m / 2 ^ Z.of_N s).
    { now rewrite N2Z.inj_div, N2Z.inj_pow. }
    unfold numerator in *. destruct neg.
    + assert (m = 0%N) by nia. subst m. rewrite N.Div0.div_0_l.
      cbn in *. nia.
    + rewrite Hd. split.
      * apply Z.div_le_lower_bound; lia.
      * apply Z.div_le_upper_bound; lia.
Qed.

Lemma valid_mintBatonVout_stored (b : Number) :
  valid_mintBatonVout (Some b) ->
  Z_of_byte (byte_of_Number b) = integer_part b /\
  (b = NumNaN \/ 2 <= integer_part b <= 255).
Proof.
  cbn [valid_mintBatonVout]. intros [Hlt Hgt].
  destruct (passes_range b 2 0xFF ltac:(lia) Hlt Hgt) as [->|R].
  - split; [reflexivity|now left].
  - split; [|now right].
    rewrite byte_of_Number_integer_part. apply Z_of_byte_of_Z. lia.
Qed.

Lemma valid_decimals_stored (d : Number) :
  valid_decimals d ->
  Z_of_byte (byte_of_Number d) = integer_part d /\
  (d = NumNaN \/ 0 <= integer_part d <= 9).
Proof.
  intros [Hlt Hgt].
  destruct (passes_range d 0 9 ltac:(lia) Hlt Hgt) as [->|R].
  - split; [reflexivity|now left].
  - split; [|now right].
    rewrite byte_of_Number_integer_part. apply Z_of_byte_of_Z. lia.
Qed.

Lemma zero_valid_decimals (d : Number) :
  Num_neq_0 d = false -> valid_decimals d.
Proof.
  destruct d as [|neg|neg m s]; try discriminate. cbn [Num_neq_0].
  intros H. apply negb_false_iff, N.eqb_eq in H. subst m.
  assert (Hp : 0 < 2 ^ Z.of_N s) by (apply Z.pow_pos_nonneg; lia).
  unfold valid_decimals, Num_lt, Num_gt, numerator.
  rewrite Z.gtb_ltb. destruct neg; cbn [Z.of_N Z.opp];
    split; apply Z.ltb_ge; lia.
Qed.

Lemma blength_nonneg (B : Buffer) : 0 <= blength B.
Proof. unfold blength. lia. Qed.

Lemma blength_zeros (n : Z) : 0 <= n -> blength (zeros n) = n.
Proof.
  intros Hn. unfold blength, zeros. rewrite repeat_length. lia.
Qed.

Lemma blength_app (a b : Buffer) : blength (a ++ b) = blength a + blength b.
Proof. unfold blength. rewrite length_app. lia. Qed.

(** ** pushdata, branch by branch *)

Lemma pushdata_empty (B : Buffer) :
  blength B = 0 -> pushdata B = Ok [x4c; x00].
Proof. intros H. unfold pushdata. now rewrite H. Qed.

Lemma pushdata_direct (B : Buffer) :
  1 <= blength B <= 77 -> pushdata B = Ok (byte_of_Z (blength B) :: B).
Proof.
  intros H. unfold pushdata.
  destruct (Z.eqb_spec (blength B) 0); [lia|].
  destruct (Z.ltb_spec (blength B) 0x4E); [reflexivity|lia].
Qed.

Lemma pushdata_one_byte_length (B : Buffer) :
  78 <= blength B <= 254 ->
  pushdata B = Ok (x4c :: byte_of_Z (blength B) :: B).
Proof.
  intros H. unfold pushdata.
  destruct (Z.eqb_spec (blength B) 0); [lia|].
  destruct (Z.ltb_spec (blength B) 0x4E); [lia|].
  destruct (Z.ltb_spec (blength B) 0xFF); [reflexivity|lia].
Qed.

Lemma pushdata_two_byte_length (B : Buffer) :
  255 <= blength B <= 65534 ->
  pushdata B = Ok (x4d :: writeUInt16LE (blength B) ++ B).
Proof.
  intros H. unfold pushdata.
  destruct (Z.eqb_spec (blength B) 0); [lia|].
  destruct (Z.ltb_spec (blength B) 0x4E); [lia|].
  destruct (Z.ltb_spec (blength B) 0xFF); [lia|].
  destruct (Z.ltb_spec (blength B) 0xFFFF); [reflexivity|lia].
Qed.

Lemma pushdata_four_byte_length (B : Buffer) :
  65535 <= blength B <= 4294967294 ->
  pushdata B = Ok (x4e :: writeUInt32LE (blength B) ++ B).
Proof.
  intros H. unfold pushdata.
  destruct (Z.eqb_spec (blength B) 0); [lia|].
  destruct (Z.ltb_spec (blength B) 0x4E); [lia|].
  destruct (Z.ltb_spec (blength B) 0xFF); [lia|].
  destruct (Z.ltb_spec (blength B) 0xFFFF); [lia|].
  destruct (Z.ltb_spec (blength B) 0xFFFFFFFF); [reflexivity|lia].
Qed.

Lemma pushdata_too_long (B : Buffer) :
  4294967295 <= blength B -> pushdata B = Throw UnsupportedLength.
Proof.
  intros H. unfold pushdata.
  destruct (Z.eqb_spec (blength B) 0); [lia|].
  destruct (Z.ltb_spec (blength B) 0x4E); [lia|].
  destruct (Z.ltb_spec (blength B) 0xFF); [lia|].
  destruct (Z.ltb_spec (blength B) 0xFFFF); [lia|].
  destruct (Z.ltb_spec (blength B) 0xFFFFFFFF); [lia|reflexivity].
Qed.

(** [pushdata] returns for every buffer below the limit, and what it
    returns ends with the buffer. *)
Lemma pushdata_pushable (B : Buffer) :
  pushable B -> exists header, pushdata B = Ok (header ++ B) /\ header <> [].
Proof.
  unfold pushable. intros H. pose proof (blength_nonneg B) as Hn.
  destruct (Z.eq_dec (blength B) 0) as [E|E].
  - exists [x4c; x00]. rewrite (pushdata_empty B E). split; [|discriminate].
    destruct B; [reflexivity|]. unfold blength in E. simpl in E. lia.
  - destruct (Z_lt_dec (blength B) 78).
    { exists [byte_of_Z (blength B)].
      rewrite pushdata_direct by lia. split; [reflexivity|discriminate]. }
    destruct (Z_lt_dec (blength B) 255).
    { exists [x4c; byte_of_Z (blength B)].
      rewrite pushdata_one_byte_length by lia. split; [reflexivity|discriminate]. }
    destruct (Z_lt_dec (blength B) 65535).
    { exists (x4d :: writeUInt16LE (blength B)).
      rewrite pushdata_two_byte_length by lia. split; [reflexivity|discriminate]. }
    exists (x4e :: writeUInt32LE (blength B)).
    rewrite pushdata_four_byte_length by lia. split; [reflexivity|discriminate].
Qed.

Lemma pushdata_succeeds (B : Buffer) : pushable B -> succeeds (pushdata B).
Proof.
  intros H. destruct (pushdata_pushable B H) as [h [E _]].
  now exists (h ++ B).
Qed.

(** ** Claims on pushdata *)

(** C4: the empty buffer is pushed as the two bytes 4C 00; a buffer of 1 to
    77 bytes is pushed as one byte that holds its length, followed by the
    buffer; a buffer of 78 to 254 bytes is pushed as the marker 4C, one byte
    that holds its length, and the buffer. *)
Theorem C4_pushdata_short (B : Buffer) :
  (blength B = 0 -> pushdata B = Ok [x4c; x00]) /\
  (1 <= blength B <= 77 ->
     exists l, Z_of_byte l = blength B /\ pushdata B = Ok (l :: B)) /\
  (78 <= blength B <= 254 ->
     exists l, Z_of_byte l = blength B /\ pushdata B = Ok (x4c :: l :: B)).
Proof.
  split; [apply pushdata_empty|split]; intros H;
    exists (byte_of_Z (blength B)); (split; [apply Z_of_byte_of_Z; lia|]).
  - now apply pushdata_direct.
  - now apply pushdata_one_byte_length.
Qed.

Lemma C4_pushdata_short_witness :
  pushdata [] = Ok [x4c; x00] /\
  (exists l, Z_of_byte l = blength [x2a; x2b] /\
             pushdata [x2a; x2b] = Ok (l :: [x2a; x2b])) /\
  (exists l, Z_of_byte l = blength (zeros 78) /\
             pushdata (zeros 78) = Ok (x4c :: l :: zeros 78)).
Proof.
  split; [|split].
  - apply (proj1 (C4_pushdata_short [])). reflexivity.
  - apply (proj1 (proj2 (C4_pushdata_short [x2a; x2b]))). vm_compute.
    split; discriminate.
  - apply (proj2 (proj2 (C4_pushdata_short (zeros 78)))). vm_compute.
    split; discriminate.
Defined.

(** C5, evaluated on the code: a buffer of 76 bytes, and one of 77 bytes, is
    pushed with its length as the only header byte, not as 4C followed by
    the length.  The header byte of the 76 byte buffer is 4C itself. *)
Theorem C5_pushdata_76_77 :
  pushdata (zeros 76) = Ok (x4c :: zeros 76) /\
  pushdata (zeros 76) <> Ok ([x4c; byte_of_Z 76] ++ zeros 76) /\
  pushdata (zeros 77) = Ok (x4d :: zeros 77) /\
  pushdata (zeros 77) <> Ok ([x4c; byte_of_Z 77] ++ zeros 77).
Proof. vm_compute. repeat split; discriminate. Qed.

(** What the header byte 4C of a 76 byte push costs: the pushes of a 76 byte
    field and of a 2 byte field are, put together, the push of one 78 byte
    field, so the script no longer tells where its fields end. *)
Lemma pushdata_76_ambiguous :
  exists p76 p2,
    pushdata (x4e :: zeros 75) = Ok p76 /\
    pushdata [x00; x00] = Ok p2 /\
    pushdata (zeros 75 ++ [x02; x00; x00]) = Ok (p76 ++ p2).
Proof. do 2 eexists. vm_compute. repeat split; reflexivity. Qed.

(** On the range where C5 and the code agree. *)
Lemma pushdata_78_254 (B : Buffer) :
  78 <= blength B <= 254 ->
  pushdata B = Ok ([x4c; byte_of_Z (blength B)] ++ B).
Proof. apply pushdata_one_byte_length. Qed.

Lemma pushdata_length_65535 (B : Buffer) :
  blength B = 65535 ->
  pushdata B = Ok (x4e :: [xff; xff; x00; x00] ++ B) /\
  pushdata B <> Ok (x4d :: [xff; xff] ++ B).
Proof.
  intros E. rewrite pushdata_four_byte_length by lia. rewrite E.
  split; [reflexivity|]. intros H. injection H as H. discriminate H.
Qed.

(** C2 fails at 65535 bytes: the push has the marker 4E and a four byte
    length, not the marker 4D and a two byte length. *)
Lemma C2_pushdata_65535 :
  255 <= blength (zeros 65535) <= 65535 /\
  pushdata (zeros 65535) = Ok (x4e :: [xff; xff; x00; x00] ++ zeros 65535) /\
  pushdata (zeros 65535) <> Ok (x4d :: [xff; xff] ++ zeros 65535).
Proof.
  pose proof (blength_zeros 65535 ltac:(lia)) as E.
  split; [lia|]. apply pushdata_length_65535. exact E.
Qed.

(** The other end of the same range: 4294967295 bytes are refused. *)
Lemma pushdata_4294967295 :
  pushdata (zeros 4294967295) = Throw UnsupportedLength.
Proof. apply pushdata_too_long. rewrite blength_zeros; lia. Qed.

(** C2, as the code has it: from 255 to 65534 bytes the push is the marker
    4D, the length in two bytes, least significant first, and the buffer;
    from 65535 to 4294967294 bytes it is the marker 4E, the length in four
    bytes, least significant first, and the buffer; pushdata fails, with the
    unsupported length error, exactly from 4294967295 bytes on. *)
Theorem C2_pushdata_long (B : Buffer) :
  (255 <= blength B <= 65534 ->
     exists l, List.length l = 2%nat /\ le_value l = blength B /\
               pushdata B = Ok (x4d :: l ++ B)) /\
  (65535 <= blength B <= 4294967294 ->
     exists l, List.length l = 4%nat /\ le_value l = blength B /\
               pushdata B = Ok (x4e :: l ++ B)) /\
  (pushdata B = Throw UnsupportedLength <-> 4294967295 <= blength B) /\
  (fails (pushdata B) <-> 4294967295 <= blength B).
Proof.
  split; [|split].
  - intros H. exists (writeUInt16LE (blength B)).
    split; [reflexivity|split].
    + apply le_value_writeUInt16LE. lia.
    + now apply pushdata_two_byte_length.
  - intros H. exists (writeUInt32LE (blength B)).
    split; [reflexivity|split].
    + apply le_value_writeUInt32LE. lia.
    + now apply pushdata_four_byte_length.
  - assert (Hf : fails (pushdata B) -> 4294967295 <= blength B).
    { intros [e He]. destruct (Z_lt_dec (blength B) 4294967295) as [Hlt|]; [|lia].
      destruct (pushdata_succeeds B) as [r Hr]; [exact Hlt|]. congruence. }
    split; split.
    + intros H. apply Hf. now exists UnsupportedLength.
    + apply pushdata_too_long.
    + exact Hf.
    + intros H. exists UnsupportedLength. now apply pushdata_too_long.
Qed.

Lemma C2_pushdata_long_witness :
  (exists l, List.length l = 2%nat /\ le_value l = blength (zeros 255) /\
             pushdata (zeros 255) = Ok (x4d :: l ++ zeros 255)) /\
  (exists l, List.length l = 4%nat /\ le_value l = blength (zeros 65535) /\
             pushdata (zeros 65535) = Ok (x4e :: l ++ zeros 65535)) /\
  4294967295 <= blength (zeros 255 ++ zeros 4294967295).
Proof.
  split; [|split].
  - apply (proj1 (C2_pushdata_long (zeros 255))). vm_compute.
    split; discriminate.
  - apply (proj1 (proj2 (C2_pushdata_long (zeros 65535)))).
    rewrite blength_zeros; lia.
  - apply (proj1 (proj2 (proj2 (C2_pushdata_long (zeros 255 ++ zeros 4294967295))))).
    apply pushdata_too_long.
    rewrite blength_app, !blength_zeros; lia.
Defined.

(** ** Hexadecimal text *)

Lemma hex_val_hex_char (d : Z) : 0 <= d < 16 -> hex_val (hex_char d) = Some d.
Proof.
  intros H.
  assert (E : d = 0 \/ d = 1 \/ d = 2 \/ d = 3 \/ d = 4 \/ d = 5 \/ d = 6 \/
              d = 7 \/ d = 8 \/ d = 9 \/ d = 10 \/ d = 11 \/ d = 12 \/
              d = 13 \/ d = 14 \/ d = 15) by lia.
  repeat (destruct E as [E|E]; [subst d; reflexivity|]).
  subst d; reflexivity.
Qed.

Lemma length_string_of_list_ascii (l : list ascii) :
  String.length (string_of_list_ascii l) = List.length l.
Proof. induction l as [|c l IH]; simpl; [reflexivity|now rewrite IH]. Qed.

Lemma string_of_list_ascii_app (a b : list ascii) :
  string_of_list_ascii (a ++ b)
  = (string_of_list_ascii a ++ string_of_list_ascii b)%string.
Proof. induction a as [|c a IH]; simpl; [reflexivity|now rewrite IH]. Qed.

Lemma slength_digits_text (ds : list Z) :
  slength (digits_text ds) = Z.of_nat (List.length ds).
Proof.
  unfold slength, digits_text.
  now rewrite length_string_of_list_ascii, length_map.
Qed.

Lemma padStart16_digits_text (ds : list Z) :
  padStart16 (digits_text ds)
  = digits_text (repeat 0 (16 - List.length ds) ++ ds).
Proof.
  unfold padStart16, digits_text.
  rewrite length_string_of_list_ascii, length_map, map_app, map_repeat.
  now rewrite string_of_list_ascii_app.
Qed.

(** Decoding the text of an even number of digits: one byte per pair, and
    the bytes denote what the digits denote. *)
Lemma Buffer_from_hex_digits_text (n : nat) :
  forall ds, List.length ds = (2 * n)%nat -> Forall hex_digit ds ->
    List.length (Buffer_from_hex (digits_text ds)) = n /\
    forall acc,
      fold_left (fun a b => a * 256 + Z_of_byte b)
                (Buffer_from_hex (digits_text ds)) acc
      = fold_left (fun a d => a * 16 + d) ds acc.
Proof.
  induction n as [|n IH]; intros ds Hlen Hds.
  - destruct ds; [|discriminate]. split; [reflexivity|reflexivity].
  - destruct ds as [|hi [|lo rest]]; simpl in Hlen; try lia.
    inversion Hds as [|? ? Hhi Hrest']; subst.
    inversion Hrest' as [|? ? Hlo Hrest]; subst.
    destruct (IH rest ltac:(lia) Hrest) as [IHlen IHval].
    unfold digits_text in *. cbn [map string_of_list_ascii Buffer_from_hex].
    rewrite !hex_val_hex_char by assumption.
    split.
    + simpl. now rewrite IHlen.
    + intros acc. cbn [fold_left]. rewrite IHval.
      unfold hex_digit in Hhi, Hlo.
      rewrite Z_of_byte_of_Z by lia. f_equal. lia.
Qed.

Lemma be_digits_leading_zeros (k : nat) (ds : list Z) :
  be_digits (repeat 0 k ++ ds) = be_digits ds.
Proof.
  unfold be_digits. rewrite fold_left_app. f_equal.
  induction k as [|k IH]; [reflexivity|exact IH].
Qed.

Lemma be_digits_rev (ds : list Z) : be_digits (rev ds) = le_digits ds.
Proof.
  unfold be_digits. induction ds as [|d ds IH]; [reflexivity|].
  cbn [rev le_digits]. rewrite fold_left_app. cbn [fold_left].
  rewrite IH. lia.
Qed.

(** ** The digits of a number *)

Lemma hex_digits_range (fuel : nat) :
  forall n, 0 <= n -> Forall hex_digit (hex_digits fuel n).
Proof.
  induction fuel as [|f IH]; intros n Hn; [constructor|].
  cbn [hex_digits]. constructor.
  - unfold hex_digit. apply Z.mod_pos_bound. lia.
  - destruct (n <? 16); [constructor|]. apply IH. apply Z.div_pos; lia.
Qed.

Lemma hex_digits_value (fuel : nat) :
  forall n, 0 <= n < 16 ^ Z.of_nat fuel -> le_digits (hex_digits fuel n) = n.
Proof.
  induction fuel as [|f IH]; intros n Hn.
  - simpl in *. lia.
  - cbn [hex_digits le_digits].
    destruct (Z.ltb_spec n 16) as [Hlt|Hge].
    + cbn [le_digits]. rewrite Z.mod_small; lia.
    + rewrite IH.
      * pose proof (Z.div_mod n 16). lia.
      * rewrite Nat2Z.inj_succ, Z.pow_succ_r in Hn by lia.
        split; [apply Z.div_pos; lia|apply Z.div_lt_upper_bound; lia].
Qed.

Lemma hex_digits_nonempty (fuel : nat) (n : Z) :
  hex_digits (S fuel) n <> [].
Proof. cbn [hex_digits]. discriminate. Qed.

(** The number of digits: at most [k] exactly when the number is below
    [16 ^ k]. *)
Lemma hex_digits_length (fuel : nat) :
  forall n k, 0 <= n < 16 ^ Z.of_nat fuel -> (1 <= k)%nat ->
    ((List.length (hex_digits fuel n) <= k)%nat <-> n < 16 ^ Z.of_nat k).
Proof.
  induction fuel as [|f IH]; intros n k Hn Hk.
  - simpl in *. split; intros _; [|lia].
    assert (0 < 16 ^ Z.of_nat k) by (apply Z.pow_pos_nonneg; lia). lia.
  - cbn [hex_digits].
    assert (H16k : 16 <= 16 ^ Z.of_nat k).
    { change 16 with (16 ^ 1) at 1. apply Z.pow_le_mono_r; lia. }
    destruct (Z.ltb_spec n 16) as [Hlt|Hge].
    + simpl. split; intros _; lia.
    + rewrite Nat2Z.inj_succ, Z.pow_succ_r in Hn by lia.
      assert (Hq : 0 <= n / 16 < 16 ^ Z.of_nat f).
      { split; [apply Z.div_pos; lia|apply Z.div_lt_upper_bound; lia]. }
      destruct k as [|[|k]]; [lia| |].
      * destruct f as [|f]; [simpl in Hq; lia|].
        cbn [hex_digits List.length]. change (16 ^ Z.of_nat 1) with 16.
        split; intros; lia.
      * cbn [List.length]. specialize (IH (n / 16) (S k) Hq ltac:(lia)).
        rewrite (Nat2Z.inj_succ (S k)), Z.pow_succ_r by lia.
        split; intros H.
        -- assert (n / 16 < 16 ^ Z.of_nat (S k)) by (apply IH; lia).
           pose proof (Z.div_mod n 16). pose proof (Z.mod_pos_bound n 16). lia.
        -- assert (List.length (hex_digits f (n / 16)) <= S k)%nat; [|lia].
           apply IH. apply Z.div_lt_upper_bound; lia.
Qed.

Lemma toHex_fuel (n : Z) :
  0 <= n -> 0 <= n < 16 ^ Z.of_nat (S (Z.to_nat (Z.log2 n))).
Proof.
  intros Hn. split; [exact Hn|].
  rewrite Nat2Z.inj_succ, Z2Nat.id by apply Z.log2_nonneg.
  destruct (Z.eq_dec n 0) as [->|Hnz]; [reflexivity|].
  destruct (Z.log2_spec n ltac:(lia)) as [_ Hup].
  eapply Z.lt_le_trans; [exact Hup|].
  apply Z.pow_le_mono_l. lia.
Qed.

Lemma toHex_digits (n : Z) :
  toHex n = digits_text (rev (hex_digits (S (Z.to_nat (Z.log2 n))) n)).
Proof. reflexivity. Qed.

Lemma slength_toHex (n : Z) :
  0 <= n -> (slength (toHex n) <= 16 <-> n < 2 ^ 64).
Proof.
  intros Hn. rewrite toHex_digits, slength_digits_text, length_rev.
  change (2 ^ 64) with (16 ^ Z.of_nat 16).
  rewrite <- (hex_digits_length _ n 16 (toHex_fuel n Hn)) by lia. lia.
Qed.

(** ** BNToInt64BE *)

(** The eight bytes of a number below 2^64. *)
Lemma Buffer_from_hex_padStart16_toHex (n : Z) :
  0 <= n < 2 ^ 64 ->
  List.length (Buffer_from_hex (padStart16 (toHex n))) = 8%nat /\
  be_value (Buffer_from_hex (padStart16 (toHex n))) = n.
Proof.
  intros Hn.
  pose proof (proj2 (slength_toHex n (proj1 Hn)) (proj2 Hn)) as Hlen.
  rewrite toHex_digits in *. rewrite slength_digits_text in Hlen.
  rewrite padStart16_digits_text.
  set (ds := rev (hex_digits (S (Z.to_nat (Z.log2 n))) n)) in *.
  assert (Hds : Forall hex_digit ds).
  { unfold ds. apply Forall_rev, hex_digits_range. lia. }
  destruct (Buffer_from_hex_digits_text 8 (repeat 0 (16 - List.length ds) ++ ds))
    as [L V].
  - rewrite length_app, repeat_length. lia.
  - apply Forall_app. split; [|exact Hds].
    apply Forall_forall. intros d Hd. apply repeat_spec in Hd. subst d.
    unfold hex_digit. lia.
  - split; [exact L|]. unfold be_value. rewrite V.
    fold (be_digits (repeat 0 (16 - List.length ds) ++ ds)).
    rewrite be_digits_leading_zeros. unfold ds. rewrite be_digits_rev.
    apply hex_digits_value, toHex_fuel. lia.
Qed.

Lemma BNToInt64BE_uint64 (bn : BN) :
  uint64_BN bn ->
  exists bs, BNToInt64BE bn = Ok bs /\ List.length bs = 8%nat /\
             be_value bs = magnitude bn.
Proof.
  intros (Hint & Hpos & Hmax). unfold BNToInt64BE.
  rewrite Hint, Hpos. cbn [negb throw_if bind].
  destruct bn as [|neg|neg d s]; try discriminate.
  cbn [isPositive] in Hpos. destruct neg; [discriminate|].
  unfold toString16.
  set (m := magnitude (BNFinite false d s)) in *.
  assert (H0 : 0 <= m) by (unfold m; cbn [magnitude]; apply N2Z.is_nonneg).
  assert (Hm : 0 <= m < 2 ^ 64) by lia.
  pose proof (proj2 (slength_toHex m (proj1 Hm)) (proj2 Hm)) as Hlen.
  destruct (Z.gtb_spec (slength (toHex m)) 16) as [Hgt|_]; [lia|].
  cbn [throw_if bind]. eexists. split; [reflexivity|].
  now apply Buffer_from_hex_padStart16_toHex.
Qed.

Lemma BNToInt64BE_not_integer (bn : BN) :
  isInteger bn = false -> BNToInt64BE bn = Throw NotInteger.
Proof. intros H. unfold BNToInt64BE. now rewrite H. Qed.

Lemma BNToInt64BE_not_positive (bn : BN) :
  isInteger bn = true -> isPositive bn = false ->
  BNToInt64BE bn = Throw NotPositive.
Proof. intros Hi Hp. unfold BNToInt64BE. now rewrite Hi, Hp. Qed.

Lemma BNToInt64BE_out_of_range (bn : BN) :
  isInteger bn = true -> isPositive bn = true -> 2 ^ 64 - 1 < magnitude bn ->
  BNToInt64BE bn = Throw OutOfRange.
Proof.
  intros Hi Hp Hm. unfold BNToInt64BE. rewrite Hi, Hp.
  cbn [negb throw_if bind].
  destruct bn as [|neg|neg d s]; try discriminate.
  cbn [isPositive] in Hp. destruct neg; [discriminate|].
  unfold toString16.
  set (m := magnitude (BNFinite false d s)) in *.
  assert (H0 : 0 <= m) by (unfold m; cbn [magnitude]; apply N2Z.is_nonneg).
  pose proof (slength_toHex m H0) as Hlen.
  destruct (Z.gtb_spec (slength (toHex m)) 16) as [_|Hle]; [reflexivity|].
  apply Hlen in Hle. lia.
Qed.

(** The integers as bignumber.js values. *)
Lemma isInteger_BN_of_Z (n : Z) : isInteger (BN_of_Z n) = true.
Proof.
  unfold BN_of_Z, isInteger. change (10 ^ 0)%N with 1%N.
  now rewrite N.mod_1_r.
Qed.

Lemma isPositive_BN_of_Z (n : Z) : isPositive (BN_of_Z n) = negb (n <? 0).
Proof. reflexivity. Qed.

Lemma magnitude_BN_of_Z (n : Z) : magnitude (BN_of_Z n) = Z.abs n.
Proof.
  unfold BN_of_Z, magnitude. change (10 ^ 0)%N with 1%N.
  rewrite N.div_1_r. apply N2Z.inj_abs_N.
Qed.

Lemma uint64_BN_of_Z (n : Z) : 0 <= n <= 2 ^ 64 - 1 -> uint64_BN (BN_of_Z n).
Proof.
  intros Hn. unfold uint64_BN.
  rewrite isInteger_BN_of_Z, isPositive_BN_of_Z, magnitude_BN_of_Z.
  destruct (Z.ltb_spec n 0); [lia|]. repeat split. lia.
Qed.

(** A zero of negative sign is an integer that is not positive. *)
Lemma BNToInt64BE_negative_zero :
  BNToInt64BE (BNFinite true 0 0) = Throw NotPositive.
Proof. reflexivity. Qed.

(** C3: for an integer n from 0 to 2^64 - 1, BNToInt64BE returns exactly 8
    bytes whose big-endian reading is n; it fails with the not-an-integer
    error on a value that is no integer, with the not-positive error on a
    negative integer, and with the out-of-range error on an integer above
    2^64 - 1. *)
Theorem C3_BNToInt64BE :
  (forall n, 0 <= n <= 2 ^ 64 - 1 ->
     exists bs, BNToInt64BE (BN_of_Z n) = Ok bs /\
                List.length bs = 8%nat /\ be_value bs = n) /\
  (forall bn, isInteger bn = false -> BNToInt64BE bn = Throw NotInteger) /\
  (forall n, n < 0 -> BNToInt64BE (BN_of_Z n) = Throw NotPositive) /\
  (forall n, 2 ^ 64 - 1 < n -> BNToInt64BE (BN_of_Z n) = Throw OutOfRange).
Proof.
  split; [|split; [|split]].
  - intros n Hn.
    destruct (BNToInt64BE_uint64 _ (uint64_BN_of_Z n Hn)) as (bs & E & L & V).
    exists bs. rewrite magnitude_BN_of_Z in V. repeat split; try assumption. lia.
  - apply BNToInt64BE_not_integer.
  - intros n Hn. apply BNToInt64BE_not_positive.
    + apply isInteger_BN_of_Z.
    + rewrite isPositive_BN_of_Z. destruct (Z.ltb_spec n 0); [reflexivity|lia].
  - intros n Hn. apply BNToInt64BE_out_of_range.
    + apply isInteger_BN_of_Z.
    + rewrite isPositive_BN_of_Z. destruct (Z.ltb_spec n 0); [lia|reflexivity].
    + rewrite magnitude_BN_of_Z. lia.
Qed.

Lemma C3_BNToInt64BE_witness :
  (exists bs, BNToInt64BE (BN_of_Z 1000) = Ok bs /\
              List.length bs = 8%nat /\ be_value bs = 1000) /\
  BNToInt64BE (BNFinite false 15 1) = Throw NotInteger /\
  BNToInt64BE (BN_of_Z (-7)) = Throw NotPositive /\
  BNToInt64BE (BN_of_Z (2 ^ 64)) = Throw OutOfRange.
Proof.
  split; [|split; [|split]].
  - apply (proj1 C3_BNToInt64BE 1000). vm_compute. split; discriminate.
  - apply (proj1 (proj2 C3_BNToInt64BE) (BNFinite false 15 1)). reflexivity.
  - apply (proj1 (proj2 (proj2 C3_BNToInt64BE)) (-7)). reflexivity.
  - apply (proj2 (proj2 (proj2 C3_BNToInt64BE)) (2 ^ 64)). reflexivity.
Defined.

(** ** The fixed fields of a message *)

Lemma pushdata_SLP_tag :
  pushdata (Buffer_from_string SLP_tag) = Ok [x04; x53; x4c; x50; x00].
Proof. reflexivity. Qed.

Lemma pushdata_single (b : byte) : pushdata [b] = Ok [x01; b].
Proof. reflexivity. Qed.

Lemma pushdata_GENESIS :
  pushdata (Buffer_from_string "GENESIS") = Ok pushed_GENESIS.
Proof. reflexivity. Qed.

Lemma pushdata_MINT : pushdata (Buffer_from_string "MINT") = Ok pushed_MINT.
Proof. reflexivity. Qed.

Lemma pushdata_SEND : pushdata (Buffer_from_string "SEND") = Ok pushed_SEND.
Proof. reflexivity. Qed.

Lemma pushdata_baton (m : option Number) :
  pushdata (baton_bytes m) = Ok (baton_field m).
Proof. destruct m; reflexivity. Qed.

Lemma pushdata_8_bytes (q : Buffer) :
  List.length q = 8%nat -> pushdata q = Ok (x08 :: q).
Proof.
  intros H. rewrite pushdata_direct; unfold blength; rewrite H; [reflexivity|lia].
Qed.

Lemma pushdata_32_bytes (t : Buffer) :
  blength t = 32 -> pushdata t = Ok (x20 :: t).
Proof. intros H. rewrite pushdata_direct; rewrite H; [reflexivity|lia]. Qed.

Lemma known_versionType_cases (v : Z) :
  known_versionType v = true <-> v = 0x01 \/ v = 0x41 \/ v = 0x81.
Proof. unfold known_versionType. lia. Qed.

Lemma Z_of_byte_versionType (v : Z) :
  known_versionType v = true -> Z_of_byte (byte_of_Z v) = v.
Proof.
  intros H. apply known_versionType_cases in H.
  apply Z_of_byte_of_Z. lia.
Qed.

(** ** The checks *)

Lemma check_mintBatonVout_valid (m : option Number) :
  valid_mintBatonVout m -> check_mintBatonVout m = Ok tt.
Proof.
  destruct m as [v|]; [|reflexivity]. cbn. intros [-> ->]. reflexivity.
Qed.

Lemma check_mintBatonVout_invalid (v : Number) :
  ~ valid_mintBatonVout (Some v) ->
  check_mintBatonVout (Some v) = Throw MintBatonVoutOutOfRange.
Proof.
  cbn. intros H.
  destruct (Num_lt v 2); [reflexivity|].
  destruct (Num_gt v 255); [reflexivity|]. exfalso. now apply H.
Qed.

Lemma check_mintBatonVout_ok (m : option Number) (u : unit) :
  check_mintBatonVout m = Ok u -> valid_mintBatonVout m.
Proof.
  destruct m as [v|]; [|intros _; exact I]. cbn.
  destruct (Num_lt v 2); [discriminate|].
  destruct (Num_gt v 255); [discriminate|]. intros _. now split.
Qed.

(** The range check of [decimals]. *)
Lemma decimals_guard_valid (d : Number) :
  valid_decimals d -> Num_lt d 0 || Num_gt d 9 = false.
Proof. intros [-> ->]. reflexivity. Qed.

Lemma decimals_guard_invalid (d : Number) :
  ~ valid_decimals d -> Num_lt d 0 || Num_gt d 9 = true.
Proof.
  unfold valid_decimals. intros H.
  destruct (Num_lt d 0); [reflexivity|].
  destruct (Num_gt d 9); [reflexivity|]. exfalso. now apply H.
Qed.

Lemma decimals_guard_ok (d : Number) :
  Num_lt d 0 || Num_gt d 9 = false -> valid_decimals d.
Proof. intros H. apply orb_false_iff in H. exact H. Qed.

(** The text of hex digits decodes to one byte per pair. *)
Lemma length_Buffer_from_hex (n : nat) :
  forall s, String.length s = (2 * n)%nat -> all_hex s = true ->
    List.length (Buffer_from_hex s) = n.
Proof.
  induction n as [|n IH]; intros s Hlen Hhex.
  - destruct s; [reflexivity|discriminate].
  - destruct s as [|c1 [|c2 rest]]; simpl in Hlen; try lia.
    cbn [all_hex Buffer_from_hex] in *.
    destruct (hex_val c1); [|discriminate].
    destruct (hex_val c2); [|discriminate].
    cbn [List.length]. f_equal. apply IH; [lia|exact Hhex].
Qed.

Lemma matches_hex64_decoded (s : string) :
  matches_hex64 s = true -> blength (Buffer_from_hex s) = 32.
Proof.
  unfold matches_hex64, slength, blength. intros H.
  apply andb_true_iff in H as [Hlen Hhex]. apply Z.eqb_eq in Hlen.
  rewrite (length_Buffer_from_hex 32 s); [reflexivity|lia|exact Hhex].
Qed.

Lemma normalize_tokenId_valid (t : StringOrBuffer) :
  valid_tokenId t ->
  exists tid, normalize_tokenId t = Ok tid /\ blength tid = 32.
Proof.
  destruct t as [s|b]; cbn [valid_tokenId normalize_tokenId]; intros H.
  - rewrite H. cbn [negb throw_if bind].
    pose proof H as H'. unfold matches_hex64 in H'.
    apply andb_true_iff in H' as [Hlen _]. rewrite Hlen.
    cbn [negb throw_if bind]. eexists. split; [reflexivity|].
    now apply matches_hex64_decoded.
  - rewrite H. cbn. now exists b.
Qed.

Lemma normalize_documentHash_valid (h : StringOrBuffer) :
  valid_documentHash h ->
  exists d, normalize_documentHash h = Ok d /\
            (blength d = 0 \/ blength d = 32).
Proof.
  destruct h as [s|b]; cbn [valid_documentHash normalize_documentHash].
  - intros [->|H].
    + exists []. split; [reflexivity|now left].
    + pose proof H as H'. unfold matches_hex64 in H'.
      apply andb_true_iff in H' as [Hlen _]. rewrite Hlen, H.
      cbn [negb]. rewrite andb_false_r. cbn. eexists. split; [reflexivity|right].
      now apply matches_hex64_decoded.
  - intros [H|H]; rewrite H; cbn; exists b; (split; [reflexivity|tauto]).
Qed.

Lemma pushdata_documentHash (d : Buffer) :
  blength d = 0 \/ blength d = 32 -> exists p, pushdata d = Ok p.
Proof.
  intros [H|H].
  - eexists. now apply pushdata_empty.
  - eexists. now apply pushdata_32_bytes.
Qed.

Lemma isEqualTo1_uint64 (bn : BN) : isEqualTo1 bn = true -> uint64_BN bn.
Proof.
  destruct bn as [| |neg d s]; try discriminate.
  destruct neg; [discriminate|]. cbn [isEqualTo1]. intros H.
  apply N.eqb_eq in H. subst d.
  assert (Hp : (10 ^ s <> 0)%N) by (apply N.pow_nonzero; discriminate).
  unfold uint64_BN. cbn [isInteger isPositive magnitude negb].
  rewrite N.Div0.mod_same, N.div_same by exact Hp.
  repeat split. now vm_compute.
Qed.

(** A step of a returning computation returned. *)
Tactic Notation "bind_ok" hyp(H) "as" ident(x) ident(E) :=
  match type of H with
  | bind ?m _ = Ok _ =>
      destruct m as [x|] eqn:E; cbn [bind] in H; [|discriminate H]
  end.

Lemma throw_if_ok (c : bool) (e : Error) (u : unit) :
  throw_if c e = Ok u -> c = false.
Proof. destruct c; [discriminate|reflexivity]. Qed.

Lemma BNToInt64BE_ok (bn : BN) (bs : Buffer) :
  BNToInt64BE bn = Ok bs -> uint64_BN bn /\ List.length bs = 8%nat.
Proof.
  intros H.
  assert (U : uint64_BN bn).
  { destruct (isInteger bn) eqn:Hi;
      [|rewrite BNToInt64BE_not_integer in H by exact Hi; discriminate].
    destruct (isPositive bn) eqn:Hp;
      [|rewrite BNToInt64BE_not_positive in H by assumption; discriminate].
    destruct (Z_le_dec (magnitude bn) (2 ^ 64 - 1)) as [Hm|Hm].
    - now repeat split.
    - rewrite BNToInt64BE_out_of_range in H by (assumption || lia).
      discriminate. }
  split; [exact U|].
  destruct (BNToInt64BE_uint64 bn U) as (bs' & E & L & _). congruence.
Qed.

Lemma pushdata_quantity (bn : BN) :
  uint64_BN bn ->
  exists q, BNToInt64BE bn = Ok q /\ pushdata q = Ok (x08 :: q) /\
            List.length q = 8%nat /\ be_value q = magnitude bn.
Proof.
  intros U. destruct (BNToInt64BE_uint64 bn U) as (q & E & L & V).
  exists q. repeat split; try assumption. now apply pushdata_8_bytes.
Qed.

Lemma isEqualTo1_BN_of_Z (n : Z) : isEqualTo1 (BN_of_Z n) = true <-> n = 1.
Proof.
  unfold BN_of_Z, isEqualTo1. change (10 ^ 0)%N with 1%N.
  destruct (Z.ltb_spec n 0).
  - split; [discriminate|lia].
  - rewrite N.eqb_eq. lia.
Qed.

(** ** The child rule of GENESIS *)

Lemma check_child_genesis_other
    (v : Z) (dec : Number) (m : option Number) (q : BN) :
  v <> 0x41 -> check_child_genesis v dec m q = Ok tt.
Proof.
  intros H. unfold check_child_genesis.
  destruct (Z.eqb_spec v 0x41); [contradiction|reflexivity].
Qed.

Lemma check_child_genesis_pass (dec : Number) (q : BN) :
  isEqualTo1 q = true -> Num_neq_0 dec = false ->
  check_child_genesis 0x41 dec None q = Ok tt.
Proof.
  intros H H0. unfold check_child_genesis. cbn [Z.eqb Pos.eqb].
  now rewrite H, H0.
Qed.

Lemma check_child_genesis_reject (dec : Number) (m : option Number) (q : BN) :
  isEqualTo1 q = false \/ Num_neq_0 dec = true \/ m <> None ->
  exists e, check_child_genesis 0x41 dec m q = Throw e /\
            InvalidChildGenesisParams e.
Proof.
  intros H. unfold check_child_genesis, InvalidChildGenesisParams.
  cbn [Z.eqb Pos.eqb].
  destruct (isEqualTo1 q); cbn [negb throw_if bind]; [|eauto].
  destruct (Num_neq_0 dec); cbn [negb throw_if bind]; [eauto|].
  destruct m; [eauto|].
  destruct H as [H|[H|H]]; [discriminate|discriminate|contradiction].
Qed.

Lemma check_child_genesis_ok
    (v : Z) (dec : Number) (m : option Number) (q : BN) (u : unit) :
  check_child_genesis v dec m q = Ok u ->
  v = 0x41 -> isEqualTo1 q = true /\ Num_neq_0 dec = false /\ m = None.
Proof.
  intros H ->.
  destruct (isEqualTo1 q) eqn:Hq.
  - destruct (Num_neq_0 dec) eqn:Hd.
    + destruct (check_child_genesis_reject dec m q) as (e & E & _);
        [tauto|congruence].
    + destruct m as [b|]; [|now repeat split].
      destruct (check_child_genesis_reject dec (Some b) q) as (e & E & _);
        [right; right; discriminate|congruence].
  - destruct (check_child_genesis_reject dec m q) as (e & E & _);
      [tauto|congruence].
Qed.

(** ** GENESIS *)

(** What a returned GENESIS script is made of. *)
Lemma genesis_layout
    (v : Z) (ticker name url hash : StringOrBuffer) (dec : Number)
    (m : option Number) (q : BN) (r : Buffer) :
  createOpReturnGenesis v ticker name url hash dec m q = Ok r ->
  known_versionType v = true /\ valid_decimals dec /\ valid_mintBatonVout m /\
  (v = 0x41 -> isEqualTo1 q = true /\ Num_neq_0 dec = false /\ m = None) /\
  exists d p_ticker p_name p_url p_hash qty,
    normalize_documentHash hash = Ok d /\
    pushdata (Buffer_from ticker) = Ok p_ticker /\
    pushdata (Buffer_from name) = Ok p_name /\
    pushdata (Buffer_from url) = Ok p_url /\
    pushdata d = Ok p_hash /\
    BNToInt64BE q = Ok qty /\
    r = slp_prefix ++ [byte_of_Z v] ++ pushed_GENESIS ++ p_ticker ++ p_name
        ++ p_url ++ p_hash ++ [x01; byte_of_Number dec] ++ baton_field m
        ++ x08 :: qty.
Proof.
  unfold createOpReturnGenesis.
  rewrite pushdata_SLP_tag, !pushdata_single, pushdata_GENESIS, pushdata_baton.
  intros H.
  bind_ok H as u0 Hv. apply throw_if_ok, negb_false_iff in Hv.
  bind_ok H as d Hd.
  bind_ok H as u1 Hdec. apply throw_if_ok, decimals_guard_ok in Hdec.
  bind_ok H as u2 Hm. apply check_mintBatonVout_ok in Hm.
  bind_ok H as u3 Hc. pose proof (check_child_genesis_ok _ _ _ _ _ Hc) as Hchild.
  cbn [bind] in H.
  bind_ok H as p_ticker Ht. bind_ok H as p_name Hn. bind_ok H as p_url Hu.
  bind_ok H as p_hash Hh. cbn [bind] in H.
  bind_ok H as qty Hq. destruct (BNToInt64BE_ok _ _ Hq) as [_ L].
  rewrite (pushdata_8_bytes _ L) in H. cbn [bind] in H.
  injection H as <-.
  split; [exact Hv|]. split; [exact Hdec|]. split; [exact Hm|].
  split; [exact Hchild|].
  exists d, p_ticker, p_name, p_url, p_hash, qty. repeat split; try assumption.
  cbn [Buffer_concat List.concat]. rewrite app_nil_r. reflexivity.
Qed.

(** GENESIS returns on every input that passes its checks and whose
    text fields are below the push limit. *)
Lemma genesis_succeeds
    (v : Z) (ticker name url hash : StringOrBuffer) (dec : Number)
    (m : option Number) (q : BN) :
  known_versionType v = true -> valid_documentHash hash ->
  valid_decimals dec ->
  valid_mintBatonVout m ->
  (v = 0x41 -> isEqualTo1 q = true /\ Num_neq_0 dec = false /\ m = None) ->
  pushable (Buffer_from ticker) -> pushable (Buffer_from name) ->
  pushable (Buffer_from url) -> uint64_BN q ->
  succeeds (createOpReturnGenesis v ticker name url hash dec m q).
Proof.
  intros Hv Hh Hd Hm Hc Ht Hn Hu Hq. unfold createOpReturnGenesis.
  rewrite Hv. cbn [negb throw_if bind].
  destruct (normalize_documentHash_valid hash Hh) as (d & -> & Hlen).
  cbn [bind].
  rewrite (decimals_guard_valid dec Hd). cbn [throw_if bind].
  rewrite (check_mintBatonVout_valid m Hm). cbn [bind].
  assert (Hchild : check_child_genesis v dec m q = Ok tt).
  { destruct (Z.eq_dec v 0x41) as [->|Hne].
    - destruct (Hc eq_refl) as (H1 & H2 & ->).
      now apply check_child_genesis_pass.
    - now apply check_child_genesis_other. }
  rewrite Hchild. cbn [bind].
  rewrite pushdata_SLP_tag, !pushdata_single, pushdata_GENESIS, pushdata_baton.
  cbn [bind].
  destruct (pushdata_succeeds _ Ht) as [p1 ->].
  destruct (pushdata_succeeds _ Hn) as [p2 ->].
  destruct (pushdata_succeeds _ Hu) as [p3 ->].
  destruct (pushdata_documentHash d Hlen) as [p4 ->].
  destruct (pushdata_quantity q Hq) as (qty & E1 & E2 & _).
  cbn [bind]. rewrite E1. cbn [bind]. rewrite E2. eexists. reflexivity.
Qed.

(** The checks of GENESIS, in the order of the source. *)
Lemma genesis_decimals_out_of_range
    (v : Z) (ticker name url hash : StringOrBuffer) (dec : Number)
    (m : option Number) (q : BN) :
  known_versionType v = true -> valid_documentHash hash ->
  ~ valid_decimals dec ->
  createOpReturnGenesis v ticker name url hash dec m q
  = Throw DecimalsOutOfRange.
Proof.
  intros Hv Hh Hd. unfold createOpReturnGenesis.
  rewrite Hv. cbn [negb throw_if bind].
  destruct (normalize_documentHash_valid hash Hh) as (d & -> & _).
  cbn [bind].
  now rewrite (decimals_guard_invalid dec Hd).
Qed.

Lemma genesis_baton_out_of_range
    (v : Z) (ticker name url hash : StringOrBuffer) (dec b : Number) (q : BN) :
  known_versionType v = true -> valid_documentHash hash ->
  valid_decimals dec ->
  ~ valid_mintBatonVout (Some b) ->
  createOpReturnGenesis v ticker name url hash dec (Some b) q
  = Throw MintBatonVoutOutOfRange.
Proof.
  intros Hv Hh Hd Hb. unfold createOpReturnGenesis.
  rewrite Hv. cbn [negb throw_if bind].
  destruct (normalize_documentHash_valid hash Hh) as (d & -> & _).
  cbn [bind].
  rewrite (decimals_guard_valid dec Hd). cbn [throw_if bind].
  now rewrite (check_mintBatonVout_invalid b Hb).
Qed.

Lemma genesis_child_rejected
    (ticker name url hash : StringOrBuffer) (dec : Number)
    (m : option Number) (q : BN) :
  valid_documentHash hash -> valid_decimals dec -> valid_mintBatonVout m ->
  isEqualTo1 q = false \/ Num_neq_0 dec = true \/ m <> None ->
  exists e, createOpReturnGenesis 0x41 ticker name url hash dec m q = Throw e /\
            InvalidChildGenesisParams e.
Proof.
  intros Hh Hd Hm Hc. unfold createOpReturnGenesis.
  cbn [known_versionType Z.eqb Pos.eqb orb negb throw_if bind].
  destruct (normalize_documentHash_valid hash Hh) as (d & -> & _).
  cbn [bind].
  rewrite (decimals_guard_valid dec Hd). cbn [throw_if bind].
  rewrite (check_mintBatonVout_valid m Hm). cbn [bind].
  destruct (check_child_genesis_reject dec m q Hc) as (e & -> & He).
  now exists e.
Qed.

Lemma genesis_child_fails
    (ticker name url hash : StringOrBuffer) (dec : Number)
    (m : option Number) (q : BN) :
  isEqualTo1 q = false \/ Num_neq_0 dec = true \/ m <> None ->
  fails (createOpReturnGenesis 0x41 ticker name url hash dec m q).
Proof.
  intros Hc.
  destruct (createOpReturnGenesis 0x41 ticker name url hash dec m q) as [r|e] eqn:E;
    [|now exists e].
  destruct (genesis_layout _ _ _ _ _ _ _ _ _ E) as (_ & _ & _ & Hchild & _).
  destruct (Hchild eq_refl) as (H1 & H2 & H3).
  destruct Hc as [H|[H|H]]; [congruence|congruence|contradiction].
Qed.

(** The 76 byte push inside a message: the scenario of C1 with a
    documentUrl of 76 bytes has the single header byte 4C before the url. *)
Lemma genesis_documentUrl_76 :
  createOpReturnGenesis 0x01 (Str "TOK") (Str "Token") (Buf (zeros 76))
                        (Str "") (Int 2) (Some (Int 2)) (BN_of_Z 1000)
  = Ok (firstn 26 scenario_script ++ (x4c :: zeros 76)
        ++ skipn 28 scenario_script).
Proof. vm_compute. reflexivity. Qed.

(** C1: the GENESIS call with versionType 0x01, ticker TOK, name Token,
    empty documentUrl and documentHash, decimals 2, mintBatonVout 2 and
    quantity 1000 returns a script that is the byte 6A followed by the
    pushes of the tag, of the byte 01, of GENESIS, and of the ticker, name,
    documentUrl, documentHash, decimals, mintBatonVout and quantity fields,
    in that order; its last 8 bytes are 00 00 00 00 00 00 03 E8. *)
Theorem C1_genesis_scenario :
  createOpReturnGenesis 0x01 (Str "TOK") (Str "Token") (Str "") (Str "")
                        (Int 2) (Some (Int 2)) (BN_of_Z 1000)
  = Ok scenario_script /\
  (exists p_tag p_version p_kind p_ticker p_name p_url p_hash p_decimals
          p_baton q p_quantity,
     pushdata [x53; x4c; x50; x00] = Ok p_tag /\
     pushdata [x01] = Ok p_version /\
     pushdata (Buffer_from_string "GENESIS") = Ok p_kind /\
     pushdata (Buffer_from_string "TOK") = Ok p_ticker /\
     pushdata (Buffer_from_string "Token") = Ok p_name /\
     pushdata (Buffer_from_string "") = Ok p_url /\
     pushdata [] = Ok p_hash /\
     pushdata [x02] = Ok p_decimals /\
     pushdata [x02] = Ok p_baton /\
     BNToInt64BE (BN_of_Z 1000) = Ok q /\
     pushdata q = Ok p_quantity /\
     scenario_script
     = x6a :: p_tag ++ p_version ++ p_kind ++ p_ticker ++ p_name ++ p_url
           ++ p_hash ++ p_decimals ++ p_baton ++ p_quantity) /\
  last_bytes 8 scenario_script = [x00; x00; x00; x00; x00; x00; x03; xe8].
Proof.
  split; [vm_compute; reflexivity|split; [|vm_compute; reflexivity]].
  exists [x04; x53; x4c; x50; x00], [x01; x01], pushed_GENESIS,
         [x03; x54; x4f; x4b], [x05; x54; x6f; x6b; x65; x6e],
         [x4c; x00], [x4c; x00], [x01; x02], [x01; x02],
         [x00; x00; x00; x00; x00; x00; x03; xe8],
         [x08; x00; x00; x00; x00; x00; x00; x03; xe8].
  repeat split; vm_compute; reflexivity.
Qed.

(** C6 fails on a child GENESIS whose decimals are 10: the call fails with
    the decimals range error, which is not one of the child rule. *)
Lemma C6_genesis_child_decimals_10 :
  Num_neq_0 (Int 10) = true /\
  createOpReturnGenesis 0x41 (Str "TOK") (Str "Token") (Str "") (Str "")
                        (Int 10) None (BN_of_Z 1)
  = Throw DecimalsOutOfRange /\
  ~ InvalidChildGenesisParams DecimalsOutOfRange.
Proof.
  split; [reflexivity|split; [vm_compute; reflexivity|]].
  unfold InvalidChildGenesisParams. intros [H|[H|H]]; discriminate H.
Qed.

(** C6, as the code has it.  With versionType 0x41, a GENESIS call whose
    quantity is not 1, or whose decimals are not 0, or whose mintBatonVout
    is present, always fails; the error is one of the child rule when the
    checks made before it pass (documentHash valid, decimals neither below
    0 nor above 9, which for an integer is from 0 to 9, mintBatonVout
    absent or neither below 2 nor above 255, for an integer from 2 to 255),
    and is the decimals range error or the mintBatonVout range error when
    that check is the first to fail.  With quantity 1, decimals 0, no
    mintBatonVout and the other fields valid, the call returns. *)
Theorem C6_genesis_child
    (ticker name url hash : StringOrBuffer) (dec : Number)
    (m : option Number) (q : BN) :
  (isEqualTo1 q = false \/ Num_neq_0 dec = true \/ m <> None ->
     fails (createOpReturnGenesis 0x41 ticker name url hash dec m q)) /\
  (valid_documentHash hash -> valid_decimals dec -> valid_mintBatonVout m ->
   isEqualTo1 q = false \/ Num_neq_0 dec = true \/ m <> None ->
     exists e,
       createOpReturnGenesis 0x41 ticker name url hash dec m q = Throw e /\
       InvalidChildGenesisParams e) /\
  (valid_documentHash hash -> ~ valid_decimals dec ->
     createOpReturnGenesis 0x41 ticker name url hash dec m q
     = Throw DecimalsOutOfRange) /\
  (valid_documentHash hash -> valid_decimals dec -> ~ valid_mintBatonVout m ->
     createOpReturnGenesis 0x41 ticker name url hash dec m q
     = Throw MintBatonVoutOutOfRange) /\
  (valid_documentHash hash -> pushable (Buffer_from ticker) ->
   pushable (Buffer_from name) -> pushable (Buffer_from url) ->
   isEqualTo1 q = true ->
     succeeds (createOpReturnGenesis 0x41 ticker name url hash (Int 0) None q)).
Proof.
  split; [apply genesis_child_fails|].
  split; [apply genesis_child_rejected|].
  split; [intros; now apply genesis_decimals_out_of_range|].
  split.
  - intros Hh Hd Hm. destruct m as [b|]; [|exfalso; apply Hm; exact I].
    now apply genesis_baton_out_of_range.
  - intros Hh Ht Hn Hu Hq. apply genesis_succeeds; try assumption.
    + reflexivity.
    + now apply valid_decimals_Int.
    + exact I.
    + intros _. now repeat split.
    + now apply isEqualTo1_uint64.
Qed.

Lemma C6_genesis_child_witness :
  fails (createOpReturnGenesis 0x41 (Str "TOK") (Str "Token") (Str "") (Str "")
                               (Int 0) None (BN_of_Z 2)) /\
  (exists e,
     createOpReturnGenesis 0x41 (Str "TOK") (Str "Token") (Str "") (Str "")
                           (Int 1) None (BN_of_Z 1) = Throw e /\
     InvalidChildGenesisParams e) /\
  (exists e,
     createOpReturnGenesis 0x41 (Str "TOK") (Str "Token") (Str "") (Str "")
                           (Int 0) (Some (Int 2)) (BN_of_Z 1) = Throw e /\
     InvalidChildGenesisParams e) /\
  succeeds (createOpReturnGenesis 0x41 (Str "TOK") (Str "Token") (Str "")
                                  (Str "") (Int 0) None (BN_of_Z 1)).
Proof.
  split; [|split; [|split]].
  - apply (proj1 (C6_genesis_child (Str "TOK") (Str "Token") (Str "") (Str "")
                                   (Int 0) None (BN_of_Z 2))).
    left. reflexivity.
  - apply (proj1 (proj2 (C6_genesis_child (Str "TOK") (Str "Token") (Str "")
                                          (Str "") (Int 1) None (BN_of_Z 1)))).
    + left. reflexivity.
    + split; reflexivity.
    + exact I.
    + right. left. reflexivity.
  - apply (proj1 (proj2 (C6_genesis_child (Str "TOK") (Str "Token") (Str "")
                                          (Str "") (Int 0) (Some (Int 2))
                                          (BN_of_Z 1)))).
    + left. reflexivity.
    + split; reflexivity.
    + split; reflexivity.
    + right. right. discriminate.
  - apply (proj2 (proj2 (proj2 (proj2
             (C6_genesis_child (Str "TOK") (Str "Token") (Str "") (Str "")
                               (Int 0) None (BN_of_Z 1)))))).
    + left. reflexivity.
    + unfold pushable. vm_compute. reflexivity.
    + unfold pushable. vm_compute. reflexivity.
    + unfold pushable. vm_compute. reflexivity.
    + reflexivity.
Defined.

(** ** MINT *)

Lemma normalize_tokenId_ok (t : StringOrBuffer) (tid : Buffer) :
  normalize_tokenId t = Ok tid -> valid_tokenId t /\ blength tid = 32.
Proof.
  intros H.
  assert (V : valid_tokenId t).
  { destruct t as [s|b]; cbn [normalize_tokenId valid_tokenId] in *.
    - bind_ok H as u Hm. now apply throw_if_ok, negb_false_iff in Hm.
    - bind_ok H as u Hl. apply throw_if_ok, negb_false_iff in Hl. lia. }
  split; [exact V|].
  destruct (normalize_tokenId_valid t V) as (tid' & E & L). congruence.
Qed.

(** What a returned MINT script is made of. *)
Lemma mint_layout
    (v : Z) (t : StringOrBuffer) (m : option Number) (q : BN) (r : Buffer) :
  createOpReturnMint v t m q = Ok r ->
  known_versionType v = true /\ valid_tokenId t /\ valid_mintBatonVout m /\
  exists tid qty,
    normalize_tokenId t = Ok tid /\ blength tid = 32 /\
    BNToInt64BE q = Ok qty /\
    r = slp_prefix ++ [byte_of_Z v] ++ pushed_MINT ++ (x20 :: tid)
        ++ baton_field m ++ x08 :: qty.
Proof.
  unfold createOpReturnMint.
  rewrite pushdata_SLP_tag, pushdata_single, pushdata_MINT, pushdata_baton.
  intros H.
  bind_ok H as u0 Hv. apply throw_if_ok, negb_false_iff in Hv.
  bind_ok H as tid Ht. destruct (normalize_tokenId_ok _ _ Ht) as [Vt Lt].
  bind_ok H as u1 Hm. apply check_mintBatonVout_ok in Hm.
  cbn [bind] in H. rewrite (pushdata_32_bytes _ Lt) in H. cbn [bind] in H.
  bind_ok H as qty Hq. destruct (BNToInt64BE_ok _ _ Hq) as [_ L].
  rewrite (pushdata_8_bytes _ L) in H. cbn [bind] in H.
  injection H as <-.
  repeat (split; [assumption|]).
  exists tid, qty. repeat split; try assumption.
  cbn [Buffer_concat List.concat]. rewrite app_nil_r. reflexivity.
Qed.

(** MINT returns on every input that passes its checks; there is no child
    rule among them. *)
Lemma mint_succeeds (v : Z) (t : StringOrBuffer) (m : option Number) (q : BN) :
  known_versionType v = true -> valid_tokenId t -> valid_mintBatonVout m ->
  uint64_BN q ->
  succeeds (createOpReturnMint v t m q).
Proof.
  intros Hv Ht Hm Hq. unfold createOpReturnMint.
  rewrite Hv. cbn [negb throw_if bind].
  destruct (normalize_tokenId_valid t Ht) as (tid & -> & L). cbn [bind].
  rewrite (check_mintBatonVout_valid m Hm). cbn [bind].
  rewrite pushdata_SLP_tag, pushdata_single, pushdata_MINT, pushdata_baton.
  cbn [bind]. rewrite (pushdata_32_bytes _ L). cbn [bind].
  destruct (pushdata_quantity q Hq) as (qty & E1 & E2 & _).
  rewrite E1. cbn [bind]. rewrite E2. eexists. reflexivity.
Qed.

Lemma mint_baton_out_of_range
    (v : Z) (t : StringOrBuffer) (b : Number) (q : BN) :
  known_versionType v = true -> valid_tokenId t ->
  ~ valid_mintBatonVout (Some b) ->
  createOpReturnMint v t (Some b) q = Throw MintBatonVoutOutOfRange.
Proof.
  intros Hv Ht Hb. unfold createOpReturnMint.
  rewrite Hv. cbn [negb throw_if bind].
  destruct (normalize_tokenId_valid t Ht) as (tid & -> & _). cbn [bind].
  now rewrite (check_mintBatonVout_invalid b Hb).
Qed.

(** ** SEND *)

Lemma mapM_ok {A B : Type} (f : A -> result B) (l : list A) :
  Forall (fun a => succeeds (f a)) l -> succeeds (mapM f l).
Proof.
  induction 1 as [|a l [b Hb] _ [bs Hbs]]; cbn [mapM].
  - now exists [].
  - rewrite Hb. cbn [bind]. rewrite Hbs. now exists (b :: bs).
Qed.

Lemma mapM_Forall2 {A B : Type} (f : A -> result B) (l : list A) :
  forall bs, mapM f l = Ok bs -> Forall2 (fun a b => f a = Ok b) l bs.
Proof.
  induction l as [|a l IH]; cbn [mapM]; intros bs H.
  - injection H as <-. constructor.
  - bind_ok H as b Hb. bind_ok H as bs' Hbs. injection H as <-.
    constructor; [exact Hb|now apply IH].
Qed.

Lemma push_amount_succeeds (q : BN) :
  uint64_BN q -> succeeds (x <- BNToInt64BE q ;; pushdata x).
Proof.
  intros Hq. destruct (pushdata_quantity q Hq) as (qty & E1 & E2 & _).
  rewrite E1. cbn [bind]. rewrite E2. now eexists.
Qed.

(** What a returned SEND script is made of. *)
Lemma send_layout (v : Z) (t : StringOrBuffer) (amounts : list BN) (r : Buffer) :
  createOpReturnSend v t amounts = Ok r ->
  known_versionType v = true /\ valid_tokenId t /\
  (1 <= List.length amounts <= 19)%nat /\
  exists tid pushes,
    normalize_tokenId t = Ok tid /\ blength tid = 32 /\
    Forall2 (fun a p => exists qty, BNToInt64BE a = Ok qty /\ p = x08 :: qty)
            amounts pushes /\
    r = slp_prefix ++ [byte_of_Z v] ++ pushed_SEND ++ (x20 :: tid)
        ++ List.concat pushes.
Proof.
  unfold createOpReturnSend.
  rewrite pushdata_SLP_tag, pushdata_single, pushdata_SEND.
  intros H.
  bind_ok H as u0 Hv. apply throw_if_ok, negb_false_iff in Hv.
  bind_ok H as tid Ht. destruct (normalize_tokenId_ok _ _ Ht) as [Vt Lt].
  bind_ok H as u1 Hlo. apply throw_if_ok in Hlo.
  bind_ok H as u2 Hhi. apply throw_if_ok in Hhi.
  cbn [bind] in H. rewrite (pushdata_32_bytes _ Lt) in H. cbn [bind] in H.
  bind_ok H as pushes Hp. injection H as <-.
  repeat (split; [assumption || lia|]).
  exists tid, pushes. split; [reflexivity|]. split; [exact Lt|]. split.
  - apply mapM_Forall2 in Hp.
    eapply Forall2_impl; [|exact Hp]. cbn beta. intros a p Hap.
    bind_ok Hap as qty Hq. exists qty. split; [reflexivity|].
    destruct (BNToInt64BE_ok _ _ Hq) as [_ L].
    rewrite (pushdata_8_bytes _ L) in Hap. now injection Hap as <-.
  - unfold Buffer_concat. rewrite ?concat_app. reflexivity.
Qed.

Lemma send_succeeds (v : Z) (t : StringOrBuffer) (amounts : list BN) :
  known_versionType v = true -> valid_tokenId t ->
  (1 <= List.length amounts <= 19)%nat -> Forall uint64_BN amounts ->
  succeeds (createOpReturnSend v t amounts).
Proof.
  intros Hv Ht Hl Ha. unfold createOpReturnSend.
  rewrite Hv. cbn [negb throw_if bind].
  destruct (normalize_tokenId_valid t Ht) as (tid & -> & L). cbn [bind].
  destruct (Z.ltb_spec (Z.of_nat (List.length amounts)) 1); [lia|].
  destruct (Z.gtb_spec (Z.of_nat (List.length amounts)) 19); [lia|].
  cbn [throw_if bind].
  rewrite pushdata_SLP_tag, pushdata_single, pushdata_SEND. cbn [bind].
  rewrite (pushdata_32_bytes _ L). cbn [bind].
  destruct (mapM_ok (fun q => x <- BNToInt64BE q ;; pushdata x) amounts)
    as [pushes ->].
  - eapply Forall_impl; [|exact Ha]. apply push_amount_succeeds.
  - cbn [bind]. now eexists.
Qed.

Lemma send_too_few (v : Z) (t : StringOrBuffer) :
  known_versionType v = true -> valid_tokenId t ->
  createOpReturnSend v t [] = Throw TooFewAmounts.
Proof.
  intros Hv Ht. unfold createOpReturnSend.
  rewrite Hv. cbn [negb throw_if bind].
  destruct (normalize_tokenId_valid t Ht) as (tid & -> & _). reflexivity.
Qed.

Lemma send_too_many (v : Z) (t : StringOrBuffer) (amounts : list BN) :
  known_versionType v = true -> valid_tokenId t ->
  (19 < List.length amounts)%nat ->
  createOpReturnSend v t amounts = Throw TooManyAmounts.
Proof.
  intros Hv Ht Hl. unfold createOpReturnSend.
  rewrite Hv. cbn [negb throw_if bind].
  destruct (normalize_tokenId_valid t Ht) as (tid & -> & _). cbn [bind].
  destruct (Z.ltb_spec (Z.of_nat (List.length amounts)) 1); [lia|].
  destruct (Z.gtb_spec (Z.of_nat (List.length amounts)) 19); [|lia].
  reflexivity.
Qed.

Lemma send_length_fails (v : Z) (t : StringOrBuffer) (amounts : list BN) :
  ~ (1 <= List.length amounts <= 19)%nat ->
  fails (createOpReturnSend v t amounts).
Proof.
  intros Hl.
  destruct (createOpReturnSend v t amounts) as [r|e] eqn:E; [|now exists e].
  apply send_layout in E. tauto.
Qed.

(** ** Claims on the messages *)

(** C7: with the other fields valid, SEND fails with the too-few error on
    an empty sequence of amounts and with the too-many error on more than
    19 amounts, and it returns on 1 to 19 amounts that are each from 0 to
    2^64 - 1; so it returns on 19 amounts and fails on 20.  Outside 1 to 19
    amounts it fails whatever the other fields are. *)
Theorem C7_send_amounts (v : Z) (t : StringOrBuffer) (amounts : list BN) :
  (known_versionType v = true -> valid_tokenId t -> amounts = [] ->
     createOpReturnSend v t amounts = Throw TooFewAmounts) /\
  (known_versionType v = true -> valid_tokenId t ->
   (19 < List.length amounts)%nat ->
     createOpReturnSend v t amounts = Throw TooManyAmounts) /\
  (known_versionType v = true -> valid_tokenId t ->
   (1 <= List.length amounts <= 19)%nat -> Forall uint64_BN amounts ->
     succeeds (createOpReturnSend v t amounts)) /\
  (~ (1 <= List.length amounts <= 19)%nat ->
     fails (createOpReturnSend v t amounts)).
Proof.
  split; [|split; [|split]].
  - intros Hv Ht ->. now apply send_too_few.
  - apply send_too_many.
  - apply send_succeeds.
  - apply send_length_fails.
Qed.

Lemma C7_send_amounts_witness :
  createOpReturnSend 0x01 (Buf (zeros 32)) [] = Throw TooFewAmounts /\
  createOpReturnSend 0x01 (Buf (zeros 32)) (repeat (BN_of_Z 5) 20)
  = Throw TooManyAmounts /\
  succeeds (createOpReturnSend 0x01 (Buf (zeros 32)) (repeat (BN_of_Z 5) 19)) /\
  succeeds (createOpReturnSend 0x01 (Buf (zeros 32)) [BN_of_Z 5]) /\
  fails (createOpReturnSend 0x01 (Buf (zeros 32)) (repeat (BN_of_Z 5) 20)).
Proof.
  assert (U : uint64_BN (BN_of_Z 5)) by (apply uint64_BN_of_Z; lia).
  split; [|split; [|split; [|split]]].
  - apply (proj1 (C7_send_amounts 0x01 (Buf (zeros 32)) [])); reflexivity.
  - apply (proj1 (proj2 (C7_send_amounts 0x01 (Buf (zeros 32))
                                         (repeat (BN_of_Z 5) 20)))).
    + reflexivity.
    + reflexivity.
    + cbn. lia.
  - apply (proj1 (proj2 (proj2 (C7_send_amounts 0x01 (Buf (zeros 32))
                                                (repeat (BN_of_Z 5) 19))))).
    + reflexivity.
    + reflexivity.
    + cbn. lia.
    + cbn [repeat]. repeat constructor; apply U.
  - apply (proj1 (proj2 (proj2 (C7_send_amounts 0x01 (Buf (zeros 32))
                                                [BN_of_Z 5])))).
    + reflexivity.
    + reflexivity.
    + cbn. lia.
    + repeat constructor; apply U.
  - apply (proj2 (proj2 (proj2 (C7_send_amounts 0x01 (Buf (zeros 32))
                                                (repeat (BN_of_Z 5) 20))))).
    cbn. lia.
Defined.

Lemma out_of_range_not_valid (b : Number) :
  Num_lt b 2 = true \/ Num_gt b 0xFF = true -> ~ valid_mintBatonVout (Some b).
Proof. cbn. intros [H|H] [H1 H2]; congruence. Qed.

(** C8 fails on a mintBatonVout that is no integer.  NaN is present and is
    no integer from 2 to 255, yet MINT and GENESIS return, with the byte 00
    as the field; and 2.5 is stored as the byte 02, as 2 is, so that the
    byte does not hold its value. *)
Lemma C8_mintBatonVout_not_integer :
  createOpReturnMint 0x01 (Buf (zeros 32)) (Some NumNaN) (BN_of_Z 1000)
  = Ok (slp_prefix ++ [x01] ++ pushed_MINT ++ (x20 :: zeros 32) ++ [x01; x00]
        ++ [x08; x00; x00; x00; x00; x00; x00; x03; xe8]) /\
  createOpReturnGenesis 0x01 (Str "TOK") (Str "Token") (Str "") (Str "")
                        (Int 2) (Some NumNaN) (BN_of_Z 1000)
  = Ok (firstn 32 scenario_script ++ [x01; x00] ++ skipn 34 scenario_script) /\
  (forall z, NumNaN <> Int z) /\
  createOpReturnMint 0x01 (Buf (zeros 32)) (Some (NumFinite false 5 1))
                     (BN_of_Z 1000)
  = createOpReturnMint 0x01 (Buf (zeros 32)) (Some (Int 2)) (BN_of_Z 1000) /\
  pushdata (baton_bytes (Some (NumFinite false 5 1))) = Ok [x01; x02].
Proof.
  split; [vm_compute; reflexivity|].
  split; [vm_compute; reflexivity|].
  split; [discriminate|].
  split; vm_compute; reflexivity.
Qed.

(** C8, as the code has it.  In GENESIS and in MINT, with the fields checked
    before it valid, a present mintBatonVout below 2 or above 255 makes the
    call fail with the mintBatonVout range error, so an integer outside 2
    to 255 does.  In a returned script mintBatonVout passed that check, and
    its field, which stands just before the pushed quantity, is the push of
    the empty buffer (4C 00) when it is absent and the push of one byte when
    it is present: the byte holds the value of an integer from 2 to 255; in
    general it holds the integer part of the number, from 2 to 255, and it
    is 00 for NaN, which no comparison rejects.  Every present
    mintBatonVout that is neither below 2 nor above 255 is accepted: with
    the other arguments valid, MINT returns, and so does GENESIS when
    versionType is not 0x41. *)
Theorem C8_mintBatonVout :
  (forall v ticker name url hash dec b q,
     known_versionType v = true -> valid_documentHash hash ->
     valid_decimals dec -> Num_lt b 2 = true \/ Num_gt b 0xFF = true ->
     createOpReturnGenesis v ticker name url hash dec (Some b) q
     = Throw MintBatonVoutOutOfRange) /\
  (forall v t b q,
     known_versionType v = true -> valid_tokenId t ->
     Num_lt b 2 = true \/ Num_gt b 0xFF = true ->
     createOpReturnMint v t (Some b) q = Throw MintBatonVoutOutOfRange) /\
  (forall z, ~ 2 <= z <= 255 ->
     Num_lt (Int z) 2 = true \/ Num_gt (Int z) 0xFF = true) /\
  (forall v ticker name url hash dec m q r,
     createOpReturnGenesis v ticker name url hash dec m q = Ok r ->
     valid_mintBatonVout m /\
     exists front field qty,
       pushdata (baton_bytes m) = Ok field /\ BNToInt64BE q = Ok qty /\
       r = front ++ field ++ x08 :: qty) /\
  (forall v t m q r,
     createOpReturnMint v t m q = Ok r ->
     valid_mintBatonVout m /\
     exists front field qty,
       pushdata (baton_bytes m) = Ok field /\ BNToInt64BE q = Ok qty /\
       r = front ++ field ++ x08 :: qty) /\
  pushdata (baton_bytes None) = Ok [x4c; x00] /\
  (forall z, 2 <= z <= 255 ->
     valid_mintBatonVout (Some (Int z)) /\
     exists l, pushdata (baton_bytes (Some (Int z))) = Ok [x01; l] /\
               Z_of_byte l = z) /\
  (forall b, valid_mintBatonVout (Some b) ->
     exists l, pushdata (baton_bytes (Some b)) = Ok [x01; l] /\
               Z_of_byte l = integer_part b /\
               (b = NumNaN \/ 2 <= integer_part b <= 255)) /\
  (forall v t b q,
     known_versionType v = true -> valid_tokenId t ->
     valid_mintBatonVout (Some b) -> uint64_BN q ->
     succeeds (createOpReturnMint v t (Some b) q)) /\
  (forall v ticker name url hash dec b q,
     known_versionType v = true -> v <> 0x41 -> valid_documentHash hash ->
     valid_decimals dec -> valid_mintBatonVout (Some b) ->
     pushable (Buffer_from ticker) -> pushable (Buffer_from name) ->
     pushable (Buffer_from url) -> uint64_BN q ->
     succeeds (createOpReturnGenesis v ticker name url hash dec (Some b) q)).
Proof.
  split.
  { intros v ticker name url hash dec b q Hv Hh Hd Hb.
    apply genesis_baton_out_of_range; try assumption.
    now apply out_of_range_not_valid. }
  split.
  { intros v t b q Hv Ht Hb.
    apply mint_baton_out_of_range; try assumption.
    now apply out_of_range_not_valid. }
  split.
  { intros z Hz. rewrite Num_lt_Int, Num_gt_Int.
    destruct (Z.ltb_spec z 2) as [L|L]; [now left|].
    destruct (Z.gtb_spec z 0xFF) as [G|G]; [now right|lia]. }
  split; [|split; [|split; [|split; [|split; [|split]]]]].
  - intros v ticker name url hash dec m q r H.
    destruct (genesis_layout _ _ _ _ _ _ _ _ _ H)
      as (_ & _ & Hm & _ & d & p1 & p2 & p3 & p4 & qty
          & _ & _ & _ & _ & _ & Hq & ->).
    split; [exact Hm|].
    exists (slp_prefix ++ [byte_of_Z v] ++ pushed_GENESIS ++ p1 ++ p2 ++ p3
            ++ p4 ++ [x01; byte_of_Number dec]), (baton_field m), qty.
    split; [apply pushdata_baton|]. split; [exact Hq|].
    now rewrite <- !app_assoc.
  - intros v t m q r H.
    destruct (mint_layout _ _ _ _ _ H)
      as (_ & _ & Hm & tid & qty & _ & _ & Hq & ->).
    split; [exact Hm|].
    exists (slp_prefix ++ [byte_of_Z v] ++ pushed_MINT ++ x20 :: tid),
           (baton_field m), qty.
    split; [apply pushdata_baton|]. split; [exact Hq|].
    now rewrite <- !app_assoc.
  - reflexivity.
  - intros z Hz. split; [now apply valid_mintBatonVout_Int|].
    exists (byte_of_Number (Int z)). split; [reflexivity|].
    rewrite byte_of_Number_Int. apply Z_of_byte_of_Z. lia.
  - intros b Hb. exists (byte_of_Number b). split; [reflexivity|].
    now apply valid_mintBatonVout_stored.
  - intros v t b q Hv Ht Hb Hq. now apply mint_succeeds.
  - intros v ticker name url hash dec b q Hv Hc Hh Hd Hb Ht Hn Hu Hq.
    apply genesis_succeeds; try assumption. intros E. contradiction.
Qed.

Lemma C8_mintBatonVout_witness :
  createOpReturnGenesis 0x01 (Str "TOK") (Str "Token") (Str "") (Str "")
                        (Int 2) (Some (Int 1)) (BN_of_Z 1000)
  = Throw MintBatonVoutOutOfRange /\
  createOpReturnMint 0x01 (Buf (zeros 32)) (Some (NumFinite false 511 1))
                     (BN_of_Z 1000)
  = Throw MintBatonVoutOutOfRange /\
  (valid_mintBatonVout (Some (Int 2)) /\
   exists front field qty,
     pushdata (baton_bytes (Some (Int 2))) = Ok field /\
     BNToInt64BE (BN_of_Z 1000) = Ok qty /\
     scenario_script = front ++ field ++ x08 :: qty) /\
  (valid_mintBatonVout None /\
   exists front field qty,
     pushdata (baton_bytes None) = Ok field /\
     BNToInt64BE (BN_of_Z 1000) = Ok qty /\
     slp_prefix ++ [x01] ++ pushed_MINT ++ (x20 :: zeros 32) ++ [x4c; x00]
       ++ [x08; x00; x00; x00; x00; x00; x00; x03; xe8]
     = front ++ field ++ x08 :: qty) /\
  (valid_mintBatonVout (Some (Int 255)) /\
   exists l, pushdata (baton_bytes (Some (Int 255))) = Ok [x01; l] /\
             Z_of_byte l = 255) /\
  (exists l,
     pushdata (baton_bytes (Some (NumFinite false 5 1))) = Ok [x01; l] /\
     Z_of_byte l = integer_part (NumFinite false 5 1) /\
     (NumFinite false 5 1 = NumNaN \/
      2 <= integer_part (NumFinite false 5 1) <= 255)) /\
  succeeds (createOpReturnMint 0x01 (Buf (zeros 32)) (Some NumNaN)
                               (BN_of_Z 1000)) /\
  succeeds (createOpReturnGenesis 0x01 (Str "TOK") (Str "Token") (Str "")
                                  (Str "") (Int 2) (Some (NumFinite false 5 1))
                                  (BN_of_Z 1000)).
Proof.
  assert (U : uint64_BN (BN_of_Z 1000)).
  { unfold uint64_BN. vm_compute. repeat split. discriminate. }
  split; [|split; [|split; [|split; [|split; [|split; [|split]]]]]].
  - apply (proj1 C8_mintBatonVout).
    + reflexivity.
    + left. reflexivity.
    + split; reflexivity.
    + left. reflexivity.
  - apply (proj1 (proj2 C8_mintBatonVout)).
    + reflexivity.
    + reflexivity.
    + right. reflexivity.
  - apply (proj1 (proj2 (proj2 (proj2 C8_mintBatonVout)))
             0x01 (Str "TOK") (Str "Token") (Str "") (Str "") (Int 2)
             (Some (Int 2)) (BN_of_Z 1000) scenario_script).
    vm_compute. reflexivity.
  - apply (proj1 (proj2 (proj2 (proj2 (proj2 C8_mintBatonVout))))
             0x01 (Buf (zeros 32)) None (BN_of_Z 1000)).
    vm_compute. reflexivity.
  - apply (proj1 (proj2 (proj2 (proj2 (proj2 (proj2 (proj2
             C8_mintBatonVout)))))) 255). lia.
  - apply (proj1 (proj2 (proj2 (proj2 (proj2 (proj2 (proj2 (proj2
             C8_mintBatonVout))))))) (NumFinite false 5 1)).
    split; reflexivity.
  - apply (proj1 (proj2 (proj2 (proj2 (proj2 (proj2 (proj2 (proj2 (proj2
             C8_mintBatonVout))))))))).
    + reflexivity.
    + reflexivity.
    + split; reflexivity.
    + exact U.
  - apply (proj2 (proj2 (proj2 (proj2 (proj2 (proj2 (proj2 (proj2 (proj2
             C8_mintBatonVout))))))))).
    + reflexivity.
    + discriminate.
    + left. reflexivity.
    + split; reflexivity.
    + split; reflexivity.
    + unfold pushable. vm_compute. reflexivity.
    + unfold pushable. vm_compute. reflexivity.
    + unfold pushable. vm_compute. reflexivity.
    + exact U.
Defined.

(** C9: every script returned by GENESIS, MINT or SEND begins with the
    seven bytes 6A 04 53 4C 50 00 01, and its eighth byte is the value of
    versionType. *)
Theorem C9_common_prefix :
  (forall v ticker name url hash dec m q r,
     createOpReturnGenesis v ticker name url hash dec m q = Ok r ->
     firstn 7 r = [x6a; x04; x53; x4c; x50; x00; x01] /\
     exists b, nth_error r 7 = Some b /\ Z_of_byte b = v) /\
  (forall v t m q r,
     createOpReturnMint v t m q = Ok r ->
     firstn 7 r = [x6a; x04; x53; x4c; x50; x00; x01] /\
     exists b, nth_error r 7 = Some b /\ Z_of_byte b = v) /\
  (forall v t amounts r,
     createOpReturnSend v t amounts = Ok r ->
     firstn 7 r = [x6a; x04; x53; x4c; x50; x00; x01] /\
     exists b, nth_error r 7 = Some b /\ Z_of_byte b = v).
Proof.
  split; [|split].
  - intros v ticker name url hash dec m q r H.
    destruct (genesis_layout _ _ _ _ _ _ _ _ _ H)
      as (Hv & _ & _ & _ & d & p1 & p2 & p3 & p4 & qty & _ & _ & _ & _ & _ & _ & ->).
    split; [reflexivity|]. exists (byte_of_Z v).
    split; [reflexivity|now apply Z_of_byte_versionType].
  - intros v t m q r H.
    destruct (mint_layout _ _ _ _ _ H) as (Hv & _ & _ & tid & qty & _ & _ & _ & ->).
    split; [reflexivity|]. exists (byte_of_Z v).
    split; [reflexivity|now apply Z_of_byte_versionType].
  - intros v t amounts r H.
    destruct (send_layout _ _ _ _ H) as (Hv & _ & _ & tid & ps & _ & _ & _ & ->).
    split; [reflexivity|]. exists (byte_of_Z v).
    split; [reflexivity|now apply Z_of_byte_versionType].
Qed.

Lemma C9_common_prefix_witness :
  (firstn 7 scenario_script = [x6a; x04; x53; x4c; x50; x00; x01] /\
   exists b, nth_error scenario_script 7 = Some b /\ Z_of_byte b = 0x01) /\
  (firstn 7 (slp_prefix ++ [x41] ++ pushed_MINT ++ (x20 :: zeros 32)
               ++ [x01; x02] ++ [x08; x00; x00; x00; x00; x00; x00; x03; xe8])
   = [x6a; x04; x53; x4c; x50; x00; x01] /\
   exists b,
     nth_error (slp_prefix ++ [x41] ++ pushed_MINT ++ (x20 :: zeros 32)
                  ++ [x01; x02] ++ [x08; x00; x00; x00; x00; x00; x00; x03; xe8])
               7 = Some b /\
     Z_of_byte b = 0x41) /\
  (firstn 7 (slp_prefix ++ [x81] ++ pushed_SEND ++ (x20 :: zeros 32)
               ++ [x08; x00; x00; x00; x00; x00; x00; x00; x05])
   = [x6a; x04; x53; x4c; x50; x00; x01] /\
   exists b,
     nth_error (slp_prefix ++ [x81] ++ pushed_SEND ++ (x20 :: zeros 32)
                  ++ [x08; x00; x00; x00; x00; x00; x00; x00; x05])
               7 = Some b /\
     Z_of_byte b = 0x81).
Proof.
  split; [|split].
  - apply (proj1 C9_common_prefix
             0x01 (Str "TOK") (Str "Token") (Str "") (Str "") (Int 2)
             (Some (Int 2)) (BN_of_Z 1000) scenario_script).
    vm_compute. reflexivity.
  - apply (proj1 (proj2 C9_common_prefix)
             0x41 (Buf (zeros 32)) (Some (Int 2)) (BN_of_Z 1000)).
    vm_compute. reflexivity.
  - apply (proj2 (proj2 C9_common_prefix)
             0x81 (Buf (zeros 32)) [BN_of_Z 5]).
    vm_compute. reflexivity.
Defined.

(** C10: MINT has no child rule.  With versionType 0x41, a valid token id,
    a mintBatonVout that passes the range check (an integer from 2 to 255,
    say) and any quantity from 0 to 2^64 - 1, it returns, while GENESIS
    fails on a child with a mintBatonVout. *)
Theorem C10_mint_no_child_rule
    (t : StringOrBuffer) (q : BN)
    (ticker name url hash : StringOrBuffer) (dec : Number) :
  valid_tokenId t -> uint64_BN q ->
  (forall b : Number, valid_mintBatonVout (Some b) ->
     succeeds (createOpReturnMint 0x41 t (Some b) q) /\
     fails (createOpReturnGenesis 0x41 ticker name url hash dec (Some b) q)) /\
  (forall z : Z, 2 <= z <= 255 ->
     succeeds (createOpReturnMint 0x41 t (Some (Int z)) q) /\
     fails (createOpReturnGenesis 0x41 ticker name url hash dec
                                  (Some (Int z)) q)).
Proof.
  intros Ht Hq.
  assert (G : forall b : Number, valid_mintBatonVout (Some b) ->
     succeeds (createOpReturnMint 0x41 t (Some b) q) /\
     fails (createOpReturnGenesis 0x41 ticker name url hash dec (Some b) q)).
  { intros b Hb. split.
    - apply mint_succeeds; [reflexivity|exact Ht|exact Hb|exact Hq].
    - apply genesis_child_fails. right. right. discriminate. }
  split; [exact G|].
  intros z Hz. apply G. now apply valid_mintBatonVout_Int.
Qed.

Lemma C10_mint_no_child_rule_witness :
  valid_tokenId (Buf (zeros 32)) /\ 2 <= 2 <= 255 /\
  uint64_BN (BN_of_Z 1000) /\
  succeeds (createOpReturnMint 0x41 (Buf (zeros 32)) (Some (Int 2))
                               (BN_of_Z 1000)) /\
  fails (createOpReturnGenesis 0x41 (Str "TOK") (Str "Token") (Str "") (Str "")
                               (Int 0) (Some (Int 2)) (BN_of_Z 1000)).
Proof.
  assert (U : uint64_BN (BN_of_Z 1000)) by (apply uint64_BN_of_Z; lia).
  split; [reflexivity|]. split; [lia|]. split; [exact U|].
  apply (proj2 (C10_mint_no_child_rule (Buf (zeros 32)) (BN_of_Z 1000)
                  (Str "TOK") (Str "Token") (Str "") (Str "") (Int 0)
                  eq_refl U) 2).
  lia.
Defined.

(** * Further properties of the encoders *)

(** ** pushdata: size, injectivity, unique reading *)

Lemma pushdata_header (B : Buffer) :
  pushable B -> pushdata B = Ok (push_header (blength B) ++ B).
Proof.
  unfold pushable, pushdata, push_header. intros H.
  destruct (Z.eqb_spec (blength B) 0) as [E|E].
  - destruct B; [reflexivity|]. unfold blength in E. simpl in E. lia.
  - destruct (Z.ltb_spec (blength B) 0x4E); [reflexivity|].
    destruct (Z.ltb_spec (blength B) 0xFF); [reflexivity|].
    destruct (Z.ltb_spec (blength B) 0xFFFF); [reflexivity|].
    destruct (Z.ltb_spec (blength B) 0xFFFFFFFF); [reflexivity|lia].
Qed.

Lemma pushdata_ok_pushable (B r : Buffer) : pushdata B = Ok r -> pushable B.
Proof.
  intros H. unfold pushable.
  destruct (Z_lt_dec (blength B) 0xFFFFFFFF) as [Hlt|Hge]; [exact Hlt|].
  rewrite pushdata_too_long in H by lia. discriminate.
Qed.

Lemma pushdata_ok_header (B r : Buffer) :
  pushdata B = Ok r -> pushable B /\ r = push_header (blength B) ++ B.
Proof.
  intros H. pose proof (pushdata_ok_pushable _ _ H) as Hp.
  split; [exact Hp|]. rewrite (pushdata_header B Hp) in H. congruence.
Qed.

Lemma blength_cons (b : byte) (B : Buffer) : blength (b :: B) = 1 + blength B.
Proof. unfold blength. cbn [List.length]. lia. Qed.

Lemma blength_push_header (len : Z) :
  blength (push_header len)
  = if len =? 0 then 2 else if len <? 78 then 1 else if len <? 255 then 2
    else if len <? 65535 then 3 else 5.
Proof.
  unfold push_header.
  destruct (len =? 0); [reflexivity|].
  destruct (len <? 78); [reflexivity|].
  destruct (len <? 255); [reflexivity|].
  destruct (len <? 65535); reflexivity.
Qed.

(** Two lists of the same length that agree after appending agree. *)
Lemma app_same_length {A : Type} (a b c d : list A) :
  List.length a = List.length b -> a ++ c = b ++ d -> a = b /\ c = d.
Proof.
  revert b. induction a as [|x a IH]; intros [|y b] Hlen H;
    try discriminate; cbn in *.
  - now split.
  - injection Hlen as Hlen. injection H as -> H.
    destruct (IH b Hlen H) as [-> ->]. now split.
Qed.

Lemma blength_eq_length (a b : Buffer) :
  blength a = blength b -> List.length a = List.length b.
Proof. unfold blength. lia. Qed.

Lemma byte_of_Z_inj (a b : Z) :
  0 <= a < 256 -> 0 <= b < 256 -> byte_of_Z a = byte_of_Z b -> a = b.
Proof.
  intros Ha Hb H. apply (f_equal Z_of_byte) in H.
  now rewrite !Z_of_byte_of_Z in H by assumption.
Qed.

Lemma writeUInt16LE_inj (a b : Z) :
  0 <= a < 2 ^ 16 -> 0 <= b < 2 ^ 16 ->
  writeUInt16LE a = writeUInt16LE b -> a = b.
Proof.
  intros Ha Hb H. apply (f_equal le_value) in H.
  now rewrite !le_value_writeUInt16LE in H by assumption.
Qed.

Lemma writeUInt32LE_inj (a b : Z) :
  0 <= a < 2 ^ 32 -> 0 <= b < 2 ^ 32 ->
  writeUInt32LE a = writeUInt32LE b -> a = b.
Proof.
  intros Ha Hb H. apply (f_equal le_value) in H.
  now rewrite !le_value_writeUInt32LE in H by assumption.
Qed.

(** An equation between a byte made of a number and a constant byte, or
    between two such bytes, as an equation between numbers. *)
Ltac byte_eq H :=
  apply (f_equal Z_of_byte) in H;
  rewrite ?Z_of_byte_of_Z in H by lia;
  try change (Z_of_byte x4c) with 76 in H;
  try change (Z_of_byte x4d) with 77 in H;
  try change (Z_of_byte x4e) with 78 in H;
  try change (Z_of_byte x00) with 0 in H.

Lemma push_header_cases (l : Z) :
  0 <= l < 0xFFFFFFFF ->
  (l = 0 /\ push_header l = [x4c; x00]) \/
  (1 <= l <= 77 /\ push_header l = [byte_of_Z l]) \/
  (78 <= l <= 254 /\ push_header l = [x4c; byte_of_Z l]) \/
  (255 <= l <= 65534 /\ push_header l = x4d :: writeUInt16LE l) \/
  (65535 <= l <= 4294967294 /\ push_header l = x4e :: writeUInt32LE l).
Proof.
  intros H. unfold push_header.
  destruct (Z.eqb_spec l 0); [now left|right].
  destruct (Z.ltb_spec l 0x4E); [left; split; [lia|reflexivity]|right].
  destruct (Z.ltb_spec l 0xFF); [left; split; [lia|reflexivity]|right].
  destruct (Z.ltb_spec l 0xFFFF); [left|right]; (split; [lia|reflexivity]).
Qed.

Lemma cons_eq {A : Type} (a b : A) (x y : list A) :
  a :: x = b :: y -> a = b /\ x = y.
Proof. intros H. now injection H. Qed.

(** The header tells the length, and where the header ends, as long as the
    length is not one of the two that are written as a marker byte. *)
Lemma push_header_unique (l l' : Z) (t t' : Buffer) :
  0 <= l < 0xFFFFFFFF -> 0 <= l' < 0xFFFFFFFF ->
  ~ marker_length l -> ~ marker_length l' ->
  push_header l ++ t = push_header l' ++ t' -> l = l' /\ t = t'.
Proof.
  unfold marker_length. intros Hl Hl' Hm Hm' H.
  destruct (push_header_cases l Hl) as [[R E]|[[R E]|[[R E]|[[R E]|[R E]]]]];
    destruct (push_header_cases l' Hl')
      as [[R' E']|[[R' E']|[[R' E']|[[R' E']|[R' E']]]]];
    rewrite E, E' in H; clear E E'; cbn [app] in H;
    apply cons_eq in H as [H1 H2].
  all: try (byte_eq H1; lia).
  all: try (apply cons_eq in H2 as [H2 H3]; byte_eq H2; lia).
  - apply cons_eq in H2 as [_ H2]. split; [lia|exact H2].
  - byte_eq H1. now split.
  - apply cons_eq in H2 as [H2 H3]. byte_eq H2. now split.
  - destruct (app_same_length (writeUInt16LE l) (writeUInt16LE l') t t'
                              eq_refl H2) as [Hw Ht].
    apply writeUInt16LE_inj in Hw; [now split|lia|lia].
  - destruct (app_same_length (writeUInt32LE l) (writeUInt32LE l') t t'
                              eq_refl H2) as [Hw Ht].
    apply writeUInt32LE_inj in Hw; [now split|lia|lia].
Qed.

(** X1: a returned push is the buffer behind a header of 1, 2, 3 or 5
    bytes: one byte up to 77 bytes of data, two up to 254, three up to
    65534, five above; the push of the empty buffer is 2 bytes. *)
Theorem X1_pushdata_size (B r : Buffer) :
  pushdata B = Ok r ->
  (exists header, r = header ++ B) /\
  (blength B = 0 -> blength r = 2) /\
  (1 <= blength B <= 77 -> blength r = blength B + 1) /\
  (78 <= blength B <= 254 -> blength r = blength B + 2) /\
  (255 <= blength B <= 65534 -> blength r = blength B + 3) /\
  (65535 <= blength B -> blength r = blength B + 5).
Proof.
  intros H. destruct (pushdata_ok_header _ _ H) as [Hp ->].
  split; [now eexists|].
  rewrite blength_app, blength_push_header. unfold pushable in Hp.
  repeat split; intros R;
    destruct (Z.eqb_spec (blength B) 0); try lia;
    destruct (Z.ltb_spec (blength B) 78); try lia;
    destruct (Z.ltb_spec (blength B) 255); try lia;
    destruct (Z.ltb_spec (blength B) 65535); lia.
Qed.

Lemma X1_pushdata_size_witness :
  (exists header, x4c :: x4e :: zeros 78 = header ++ zeros 78) /\
  blength (x4c :: x4e :: zeros 78) = blength (zeros 78) + 2.
Proof.
  destruct (X1_pushdata_size (zeros 78) (x4c :: x4e :: zeros 78))
    as (H1 & _ & _ & H2 & _).
  - vm_compute. reflexivity.
  - split; [exact H1|]. apply H2. vm_compute. split; discriminate.
Defined.

(** X2: pushdata is injective: two buffers with the same push are equal. *)
Theorem X2_pushdata_injective (B B' r : Buffer) :
  pushdata B = Ok r -> pushdata B' = Ok r -> B = B'.
Proof.
  intros H H'.
  destruct (pushdata_ok_header _ _ H) as [Hp E].
  destruct (pushdata_ok_header _ _ H') as [Hp' E'].
  unfold pushable in Hp, Hp'.
  pose proof (blength_nonneg B) as Hn. pose proof (blength_nonneg B') as Hn'.
  assert (L : blength (push_header (blength B)) + blength B
              = blength (push_header (blength B')) + blength B').
  { rewrite <- !blength_app. congruence. }
  rewrite !blength_push_header in L.
  assert (C : blength B = blength B' \/
              (blength B = 0 /\ blength B' = 1) \/
              (blength B = 1 /\ blength B' = 0)).
  { destruct (Z.eqb_spec (blength B) 0); destruct (Z.eqb_spec (blength B') 0);
      destruct (Z.ltb_spec (blength B) 78); destruct (Z.ltb_spec (blength B') 78);
      destruct (Z.ltb_spec (blength B) 255); destruct (Z.ltb_spec (blength B') 255);
      destruct (Z.ltb_spec (blength B) 65535);
      destruct (Z.ltb_spec (blength B') 65535); lia. }
  rewrite E in E'. destruct C as [C|[[C C']|[C C']]].
  - rewrite C in E'. now apply app_inv_head in E'.
  - rewrite C, C' in E'. cbn [push_header Z.eqb Z.ltb Z.compare Pos.compare
                               Pos.compare_cont app] in E'.
    apply cons_eq in E' as [E1 _]. byte_eq E1. lia.
  - rewrite C, C' in E'. cbn [push_header Z.eqb Z.ltb Z.compare Pos.compare
                               Pos.compare_cont app] in E'.
    apply cons_eq in E' as [E1 _]. byte_eq E1. lia.
Qed.

Lemma X2_pushdata_injective_witness : zeros 76 = zeros 76.
Proof.
  apply (X2_pushdata_injective (zeros 76) (zeros 76) (x4c :: zeros 76));
    vm_compute; reflexivity.
Defined.

Lemma pushdata_read_once (B B' p p' s s' : Buffer) :
  pushdata B = Ok p -> pushdata B' = Ok p' ->
  ~ marker_length (blength B) -> ~ marker_length (blength B') ->
  p ++ s = p' ++ s' -> B = B' /\ s = s'.
Proof.
  intros H H' Hm Hm' E.
  destruct (pushdata_ok_header _ _ H) as [Hp ->].
  destruct (pushdata_ok_header _ _ H') as [Hp' ->].
  unfold pushable in Hp, Hp'.
  pose proof (blength_nonneg B) as Hn. pose proof (blength_nonneg B') as Hn'.
  rewrite <- !app_assoc in E.
  destruct (push_header_unique (blength B) (blength B') (B ++ s) (B' ++ s')
              ltac:(lia) ltac:(lia) Hm Hm' E) as [L T].
  apply app_same_length; [now apply blength_eq_length|exact T].
Qed.

Lemma pushdata_nonempty (B p : Buffer) : pushdata B = Ok p -> p <> [].
Proof.
  intros H. destruct (pushdata_ok_header _ _ H) as [Hp ->].
  pose proof (blength_nonneg B) as Hn. unfold pushable in Hp.
  destruct (push_header_cases (blength B) ltac:(lia))
    as [[_ E]|[[_ E]|[[_ E]|[[_ E]|[_ E]]]]]; rewrite E; discriminate.
Qed.

(** X3: away from the lengths 76 and 77, pushes are read back in one way
    only.  If a push followed by some bytes equals another push followed by
    some bytes, the two buffers are equal and so are the bytes that follow;
    hence two sequences of buffers whose pushes concatenate to the same
    bytes are the same sequence. *)
Theorem X3_pushdata_prefix_free :
  (forall B B' p p' s s',
     pushdata B = Ok p -> pushdata B' = Ok p' ->
     ~ marker_length (blength B) -> ~ marker_length (blength B') ->
     p ++ s = p' ++ s' -> B = B' /\ s = s') /\
  (forall Bs Bs' ps ps',
     mapM pushdata Bs = Ok ps -> mapM pushdata Bs' = Ok ps' ->
     Forall (fun B => ~ marker_length (blength B)) Bs ->
     Forall (fun B => ~ marker_length (blength B)) Bs' ->
     List.concat ps = List.concat ps' -> Bs = Bs').
Proof.
  split; [apply pushdata_read_once|].
  induction Bs as [|B Bs IH]; intros Bs' ps ps' H H' F F' E.
  - cbn [mapM] in H. injection H as <-. cbn [List.concat] in E.
    destruct Bs' as [|B' Bs']; [reflexivity|]. exfalso.
    cbn [mapM] in H'. bind_ok H' as p' Hp'. bind_ok H' as rest' Hr'.
    injection H' as <-. cbn [List.concat] in E.
    apply (pushdata_nonempty _ _ Hp'). symmetry in E.
    now apply app_eq_nil in E.
  - cbn [mapM] in H. bind_ok H as p Hp. bind_ok H as rest Hr.
    injection H as <-. cbn [List.concat] in E.
    destruct Bs' as [|B' Bs'].
    + exfalso. cbn [mapM] in H'. injection H' as <-. cbn [List.concat] in E.
      apply (pushdata_nonempty _ _ Hp). now apply app_eq_nil in E.
    + cbn [mapM] in H'. bind_ok H' as p' Hp'. bind_ok H' as rest' Hr'.
      injection H' as <-. cbn [List.concat] in E.
      inversion F as [|? ? FB FBs]; subst. inversion F' as [|? ? FB' FBs']; subst.
      destruct (pushdata_read_once _ _ _ _ _ _ Hp Hp' FB FB' E) as [-> E2].
      f_equal. now apply (IH Bs' rest rest').
Qed.

Lemma X3_pushdata_prefix_free_witness :
  ([x0a; x0b] = [x0a; x0b] /\ [x01; x63] = [x01; x63]) /\
  [[x0a; x0b]; []; zeros 78] = [[x0a; x0b]; []; zeros 78].
Proof.
  split.
  - apply (proj1 X3_pushdata_prefix_free [x0a; x0b] [x0a; x0b]
             [x02; x0a; x0b] [x02; x0a; x0b] [x01; x63] [x01; x63]).
    + reflexivity.
    + reflexivity.
    + unfold marker_length. vm_compute. intros [H|H]; discriminate H.
    + unfold marker_length. vm_compute. intros [H|H]; discriminate H.
    + reflexivity.
  - apply (proj2 X3_pushdata_prefix_free
             [[x0a; x0b]; []; zeros 78] [[x0a; x0b]; []; zeros 78]
             [[x02; x0a; x0b]; [x4c; x00]; x4c :: x4e :: zeros 78]
             [[x02; x0a; x0b]; [x4c; x00]; x4c :: x4e :: zeros 78]).
    + vm_compute. reflexivity.
    + vm_compute. reflexivity.
    + repeat constructor; unfold marker_length; vm_compute;
        intros [H|H]; discriminate H.
    + repeat constructor; unfold marker_length; vm_compute;
        intros [H|H]; discriminate H.
    + reflexivity.
Defined.

(** The four outcomes of BNToInt64BE. *)
Lemma BNToInt64BE_classify (bn : BN) :
  (isInteger bn = false /\ BNToInt64BE bn = Throw NotInteger) \/
  (isInteger bn = true /\ isPositive bn = false /\
   BNToInt64BE bn = Throw NotPositive) \/
  (isInteger bn = true /\ isPositive bn = true /\
   2 ^ 64 - 1 < magnitude bn /\ BNToInt64BE bn = Throw OutOfRange) \/
  (uint64_BN bn /\ exists bs, BNToInt64BE bn = Ok bs).
Proof.
  destruct (isInteger bn) eqn:Hi;
    [|left; split; [reflexivity|now apply BNToInt64BE_not_integer]].
  destruct (isPositive bn) eqn:Hp;
    [|right; left; repeat split; now apply BNToInt64BE_not_positive].
  destruct (Z_le_dec (magnitude bn) (2 ^ 64 - 1)) as [Hm|Hm].
  - right; right; right. assert (U : uint64_BN bn) by now repeat split.
    split; [exact U|]. destruct (BNToInt64BE_uint64 bn U) as (bs & E & _).
    now exists bs.
  - right; right; left. repeat split; [lia|].
    apply BNToInt64BE_out_of_range; [assumption|assumption|lia].
Qed.

Lemma BNToInt64BE_errors (bn : BN) (e : Error) :
  BNToInt64BE bn = Throw e ->
  e = NotInteger \/ e = NotPositive \/ e = OutOfRange.
Proof.
  intros H.
  destruct (BNToInt64BE_classify bn)
    as [(_ & E)|[(_ & _ & E)|[(_ & _ & _ & E)|(_ & bs & E)]]];
    rewrite E in H; try discriminate H; injection H as <-; tauto.
Qed.

(** X4: what BNToInt64BE does on every bignumber.js value.  It returns
    exactly on the integers of positive sign up to 2^64 - 1; it throws the
    not-an-integer error exactly on the values that are no integers (a
    negative fraction too), the not-positive error exactly on the integers
    of negative sign, and the out-of-range error exactly on the integers of
    positive sign above 2^64 - 1. *)
Theorem X4_BNToInt64BE_outcomes (bn : BN) :
  (succeeds (BNToInt64BE bn) <-> uint64_BN bn) /\
  (BNToInt64BE bn = Throw NotInteger <-> isInteger bn = false) /\
  (BNToInt64BE bn = Throw NotPositive <->
     isInteger bn = true /\ isPositive bn = false) /\
  (BNToInt64BE bn = Throw OutOfRange <->
     isInteger bn = true /\ isPositive bn = true /\ 2 ^ 64 - 1 < magnitude bn).
Proof.
  pose proof (BNToInt64BE_classify bn) as T.
  unfold succeeds, uint64_BN in *.
  destruct T as [(Hi & ->)|[(Hi & Hp & ->)|[(Hi & Hp & Hm & ->)|((Hi & Hp & Hm) & bs & ->)]]];
    rewrite ?Hi, ?Hp;
    (split; [|split; [|split]]); (split; intros X);
    try reflexivity; try discriminate X; try (now exists bs);
    try (match type of X with
         | ex _ => destruct X as [x X]; discriminate X
         | _ /\ _ /\ _ =>
             destruct X as (X1 & X2 & X3);
             first [discriminate X1|discriminate X2|lia]
         | _ /\ _ =>
             destruct X as (X1 & X2); first [discriminate X1|discriminate X2]
         end);
    try (repeat split; first [reflexivity|lia]).
Qed.

Lemma X4_BNToInt64BE_outcomes_witness :
  BNToInt64BE (BNFinite true 15 1) = Throw NotInteger /\
  BNToInt64BE (BNInfinity false) = Throw NotInteger /\
  succeeds (BNToInt64BE (BNFinite false 70 1)).
Proof.
  split; [|split].
  - apply (proj1 (proj2 (X4_BNToInt64BE_outcomes (BNFinite true 15 1)))).
    reflexivity.
  - apply (proj1 (proj2 (X4_BNToInt64BE_outcomes (BNInfinity false)))).
    reflexivity.
  - apply (proj1 (X4_BNToInt64BE_outcomes (BNFinite false 70 1))).
    unfold uint64_BN. vm_compute. repeat split. discriminate.
Defined.

(** ** MINT: domain, errors, and reading the fields back *)

Lemma firstn_app_exact {A : Type} (n : nat) (a b : list A) :
  List.length a = n -> firstn n (a ++ b) = a.
Proof.
  intros <-. rewrite firstn_app, Nat.sub_diag, firstn_all. cbn.
  apply app_nil_r.
Qed.

Lemma skipn_app_exact {A : Type} (n : nat) (a b : list A) :
  List.length a = n -> skipn n (a ++ b) = b.
Proof.
  intros <-. rewrite skipn_app, Nat.sub_diag, skipn_all. reflexivity.
Qed.

Lemma baton_field_inj (m m' : option Number) :
  valid_mintBatonVout m -> valid_mintBatonVout m' ->
  baton_field m = baton_field m' ->
  option_map integer_part m = option_map integer_part m'.
Proof.
  destruct m as [b|], m' as [b'|]; cbn [baton_field option_map];
    intros Hb Hb' H.
  - apply cons_eq in H as [_ H]. apply cons_eq in H as [H _].
    destruct (valid_mintBatonVout_stored b Hb) as [S _].
    destruct (valid_mintBatonVout_stored b' Hb') as [S' _].
    f_equal. rewrite <- S, <- S'. now rewrite H.
  - apply cons_eq in H as [H _]. discriminate H.
  - apply cons_eq in H as [H _]. discriminate H.
  - reflexivity.
Qed.

Lemma integer_part_Int_inj (m m' : option Number) (z z' : Z) :
  option_map integer_part m = option_map integer_part m' ->
  m = Some (Int z) -> m' = Some (Int z') -> z = z'.
Proof.
  intros H -> ->. cbn [option_map] in H. rewrite !integer_part_Int in H.
  congruence.
Qed.

(** MINT with its infallible pushes carried out: what is left are the
    three checks and the conversion of the quantity. *)
Lemma mint_outcome (v : Z) (t : StringOrBuffer) (m : option Number) (q : BN) :
  createOpReturnMint v t m q =
  if known_versionType v then
    tid <- normalize_tokenId t ;;
    _ <- check_mintBatonVout m ;;
    qty <- BNToInt64BE q ;;
    Ok (slp_prefix ++ [byte_of_Z v] ++ pushed_MINT ++ (x20 :: tid)
        ++ baton_field m ++ x08 :: qty)
  else Throw UnknownVersionType.
Proof.
  unfold createOpReturnMint.
  destruct (known_versionType v); [|reflexivity]. cbn [negb throw_if bind].
  destruct (normalize_tokenId t) as [tid|e] eqn:Ht; [|reflexivity].
  cbn [bind]. destruct (normalize_tokenId_ok _ _ Ht) as [_ Lt].
  destruct (check_mintBatonVout m); [|reflexivity]. cbn [bind].
  rewrite pushdata_SLP_tag, pushdata_single, pushdata_MINT, pushdata_baton,
    (pushdata_32_bytes _ Lt).
  cbn [bind]. destruct (BNToInt64BE q) as [qty|e] eqn:Hq; [|reflexivity].
  cbn [bind]. destruct (BNToInt64BE_ok _ _ Hq) as [_ Lq].
  rewrite (pushdata_8_bytes _ Lq). cbn [bind Buffer_concat List.concat].
  now rewrite app_nil_r.
Qed.

Lemma normalize_tokenId_errors (t : StringOrBuffer) (e : Error) :
  normalize_tokenId t = Throw e ->
  (exists s, t = Str s /\ matches_hex64 s = false /\ e = TokenIdRegex) \/
  (exists b, t = Buf b /\ blength b <> 32 /\ e = TokenIdLength).
Proof.
  destruct t as [s|b]; cbn [normalize_tokenId]; intros H.
  - left. exists s. destruct (matches_hex64 s) eqn:M.
    + exfalso. unfold matches_hex64 in M.
      apply andb_true_iff in M as [L _]. rewrite L in H. discriminate H.
    + cbn in H. injection H as <-. now repeat split.
  - right. exists b. destruct (Z.eqb_spec (blength b) 32) as [E|E].
    + discriminate H.
    + cbn in H. injection H as <-. now repeat split.
Qed.

Lemma check_mintBatonVout_errors (m : option Number) (e : Error) :
  check_mintBatonVout m = Throw e ->
  e = MintBatonVoutOutOfRange /\ ~ valid_mintBatonVout m.
Proof.
  destruct m as [b|]; cbn [check_mintBatonVout valid_mintBatonVout];
    [|discriminate].
  destruct (Num_lt b 2) eqn:Hlt; cbn.
  - intros H. injection H as <-. split; [reflexivity|].
    intros [F _]. discriminate F.
  - destruct (Num_gt b 255) eqn:Hgt; cbn; [|discriminate].
    intros H. injection H as <-. split; [reflexivity|].
    intros [_ F]. discriminate F.
Qed.

(** X5: createOpReturnMint returns exactly when versionType is 0x01, 0x41
    or 0x81, the token id is 64 hex digits or 32 bytes, mintBatonVout is
    absent or passes the range check (it is neither below 2 nor above 255:
    an integer from 2 to 255, a fraction between them, or NaN), and the
    quantity is an integer of positive sign up to 2^64 - 1. *)
Theorem X5_mint_domain
    (v : Z) (t : StringOrBuffer) (m : option Number) (q : BN) :
  succeeds (createOpReturnMint v t m q) <->
  known_versionType v = true /\ valid_tokenId t /\ valid_mintBatonVout m /\
  uint64_BN q.
Proof.
  split.
  - intros [r H].
    destruct (mint_layout _ _ _ _ _ H) as (Hv & Ht & Hm & tid & qty & _ & _ & Hq & _).
    destruct (BNToInt64BE_ok _ _ Hq) as [U _]. tauto.
  - intros (Hv & Ht & Hm & Hq). now apply mint_succeeds.
Qed.

Lemma X5_mint_domain_witness :
  succeeds (createOpReturnMint 0x81 (Buf (zeros 32)) (Some NumNaN)
                               (BN_of_Z 0)) /\
  (known_versionType 0x81 = true /\ valid_tokenId (Buf (zeros 32)) /\
   valid_mintBatonVout (Some (Int 7)) /\ uint64_BN (BN_of_Z 3)).
Proof.
  split.
  - apply (proj2 (X5_mint_domain 0x81 (Buf (zeros 32)) (Some NumNaN)
                                 (BN_of_Z 0))).
    unfold uint64_BN. vm_compute. repeat split. discriminate.
  - apply (proj1 (X5_mint_domain 0x81 (Buf (zeros 32)) (Some (Int 7))
                                 (BN_of_Z 3))).
    eexists. vm_compute. reflexivity.
Defined.

(** X6: a returned MINT script is always 57 bytes, and its fields are read
    back at fixed places: versionType in byte 7, the token id in bytes 14
    to 45, the mintBatonVout field in bytes 46 and 47, and the quantity,
    most significant byte first, in the last 8 bytes. *)
Theorem X6_mint_fields
    (v : Z) (t : StringOrBuffer) (m : option Number) (q : BN) (r : Buffer) :
  createOpReturnMint v t m q = Ok r ->
  blength r = 57 /\
  (exists b, nth_error r 7 = Some b /\ Z_of_byte b = v) /\
  slice 8 5 r = pushed_MINT /\
  normalize_tokenId t = Ok (slice 14 32 r) /\
  slice 46 2 r = baton_field m /\
  BNToInt64BE q = Ok (slice 49 8 r) /\
  be_value (slice 49 8 r) = magnitude q.
Proof.
  intros H.
  destruct (mint_layout _ _ _ _ _ H) as (Hv & _ & _ & tid & qty & Ht & Lt & Hq & ->).
  destruct (BNToInt64BE_ok _ _ Hq) as [U Lq].
  destruct (BNToInt64BE_uint64 q U) as (qty' & Hq' & _ & V).
  assert (qty' = qty) by congruence. subst qty'.
  assert (Lt' : List.length tid = 32%nat) by (unfold blength in Lt; lia).
  assert (Lb : List.length (baton_field m) = 2%nat) by (destruct m; reflexivity).
  assert (S14 : slice 14 32 (slp_prefix ++ [byte_of_Z v] ++ pushed_MINT
                  ++ (x20 :: tid) ++ baton_field m ++ x08 :: qty) = tid).
  { unfold slice. cbn [slp_prefix pushed_MINT app skipn].
    now apply firstn_app_exact. }
  assert (S46 : skipn 46 (slp_prefix ++ [byte_of_Z v] ++ pushed_MINT
                  ++ (x20 :: tid) ++ baton_field m ++ x08 :: qty)
                = baton_field m ++ x08 :: qty).
  { cbn [slp_prefix pushed_MINT app skipn].
    now apply (skipn_app_exact 32). }
  assert (S49 : skipn 49 (slp_prefix ++ [byte_of_Z v] ++ pushed_MINT
                  ++ (x20 :: tid) ++ baton_field m ++ x08 :: qty) = qty).
  { change 49%nat with (3 + 46)%nat. rewrite <- skipn_skipn, S46.
    destruct m; reflexivity. }
  split.
  { assert (Bq : blength qty = 8) by (unfold blength; now rewrite Lq).
    assert (Bb : blength (baton_field m) = 2) by (destruct m; reflexivity).
    rewrite !blength_app, !blength_cons, Lt, Bb, Bq. reflexivity. }
  split; [exists (byte_of_Z v); split;
            [reflexivity|now apply Z_of_byte_versionType]|].
  split; [reflexivity|].
  split; [now rewrite S14|].
  split.
  { unfold slice. rewrite S46. now apply firstn_app_exact. }
  unfold slice. rewrite S49, <- Lq, firstn_all. now split.
Qed.

Lemma X6_mint_fields_witness :
  be_value (slice 49 8 (slp_prefix ++ [x41] ++ pushed_MINT ++ (x20 :: zeros 32)
                          ++ [x01; x02]
                          ++ [x08; x00; x00; x00; x00; x00; x00; x03; xe8]))
  = magnitude (BN_of_Z 1000).
Proof.
  apply (X6_mint_fields 0x41 (Buf (zeros 32)) (Some (Int 2)) (BN_of_Z 1000)).
  vm_compute. reflexivity.
Defined.

(** X7: createOpReturnMint is injective on what it encodes: two calls that
    return the same script have the same versionType, the same token id
    bytes, quantities of the same value, and a mintBatonVout that is absent
    in both or present in both with the same integer part (that of NaN
    being 0, the byte stored for it); so two integer mintBatonVout are
    equal, while 2.5 gives the script of 2. *)
Theorem X7_mint_injective
    (v v' : Z) (t t' : StringOrBuffer) (m m' : option Number) (q q' : BN)
    (r : Buffer) :
  createOpReturnMint v t m q = Ok r ->
  createOpReturnMint v' t' m' q' = Ok r ->
  v = v' /\ normalize_tokenId t = normalize_tokenId t' /\
  option_map integer_part m = option_map integer_part m' /\
  (forall z z', m = Some (Int z) -> m' = Some (Int z') -> z = z') /\
  magnitude q = magnitude q'.
Proof.
  intros H H'.
  destruct (mint_layout _ _ _ _ _ H)
    as (Hv & _ & Hm & tid & qty & Ht & Lt & Hq & E).
  destruct (mint_layout _ _ _ _ _ H')
    as (Hv' & _ & Hm' & tid' & qty' & Ht' & Lt' & Hq' & E').
  rewrite E in E'. clear E. cbn [slp_prefix pushed_MINT app] in E'.
  do 7 (apply cons_eq in E' as [_ E']). apply cons_eq in E' as [Ev E'].
  do 6 (apply cons_eq in E' as [_ E']).
  assert (LT : List.length tid = List.length tid')
    by (apply blength_eq_length; congruence).
  destruct (app_same_length tid tid' _ _ LT E') as [Et E2].
  destruct (app_same_length (baton_field m) (baton_field m') _ _
              ltac:(destruct m, m'; reflexivity) E2) as [Em Eq].
  apply cons_eq in Eq as [_ ->].
  split.
  { rewrite <- (Z_of_byte_versionType v Hv), <- (Z_of_byte_versionType v' Hv').
    now rewrite Ev. }
  split; [congruence|].
  pose proof (baton_field_inj m m' Hm Hm' Em) as EI.
  split; [exact EI|].
  split; [intros z z'; exact (integer_part_Int_inj m m' z z' EI)|].
  destruct (BNToInt64BE_ok _ _ Hq) as [U _].
  destruct (BNToInt64BE_ok _ _ Hq') as [U' _].
  destruct (BNToInt64BE_uint64 q U) as (x & Hx & _ & Vx).
  destruct (BNToInt64BE_uint64 q' U') as (x' & Hx' & _ & Vx').
  congruence.
Qed.

Lemma X7_mint_injective_witness :
  0x01 = 0x01 /\
  normalize_tokenId (Str (Buffer_toString_hex (zeros 32)))
  = normalize_tokenId (Buf (zeros 32)) /\
  option_map integer_part (Some (NumFinite false 5 1))
  = option_map integer_part (Some (Int 2)) /\
  (forall z z', Some (NumFinite false 5 1) = Some (Int z) ->
                Some (Int 2) = Some (Int z') -> z = z') /\
  magnitude (BNFinite false 50 1) = magnitude (BN_of_Z 5).
Proof.
  apply (X7_mint_injective 0x01 0x01 (Str (Buffer_toString_hex (zeros 32)))
           (Buf (zeros 32)) (Some (NumFinite false 5 1)) (Some (Int 2))
           (BNFinite false 50 1) (BN_of_Z 5)
           (slp_prefix ++ [x01] ++ pushed_MINT ++ (x20 :: zeros 32)
              ++ [x01; x02] ++ [x08; x00; x00; x00; x00; x00; x00; x00; x05]));
    vm_compute; reflexivity.
Defined.

(** X8: the errors of createOpReturnMint, in the order of its checks: an
    unknown versionType first; then the token id, with the regex error for
    a text and the length error for a buffer; then mintBatonVout; last the
    quantity.  It never fails with the push length error, and on a text
    token id never with the token id length error. *)
Theorem X8_mint_errors
    (v : Z) (t : StringOrBuffer) (m : option Number) (q : BN) :
  (known_versionType v = false ->
     createOpReturnMint v t m q = Throw UnknownVersionType) /\
  (known_versionType v = true -> ~ valid_tokenId t ->
     createOpReturnMint v t m q
     = Throw (match t with Str _ => TokenIdRegex | Buf _ => TokenIdLength end)) /\
  (known_versionType v = true -> valid_tokenId t -> ~ valid_mintBatonVout m ->
     createOpReturnMint v t m q = Throw MintBatonVoutOutOfRange) /\
  (known_versionType v = true -> valid_tokenId t -> valid_mintBatonVout m ->
   forall e, BNToInt64BE q = Throw e -> createOpReturnMint v t m q = Throw e) /\
  createOpReturnMint v t m q <> Throw UnsupportedLength /\
  (forall s, t = Str s -> createOpReturnMint v t m q <> Throw TokenIdLength).
Proof.
  rewrite mint_outcome.
  split; [now intros ->|].
  split.
  { intros -> Ht. destruct (normalize_tokenId t) as [tid|e] eqn:E.
    - apply normalize_tokenId_ok in E. tauto.
    - cbn [bind].
      destruct (normalize_tokenId_errors _ _ E)
        as [(s & -> & _ & ->)|(b & -> & _ & ->)]; reflexivity. }
  split.
  { intros -> Ht Hm. destruct (normalize_tokenId_valid t Ht) as (tid & -> & _).
    cbn [bind]. destruct (check_mintBatonVout m) as [u|e] eqn:E.
    - apply check_mintBatonVout_ok in E. contradiction.
    - apply check_mintBatonVout_errors in E as [-> _]. reflexivity. }
  split.
  { intros -> Ht Hm e E. destruct (normalize_tokenId_valid t Ht) as (tid & -> & _).
    cbn [bind]. rewrite (check_mintBatonVout_valid m Hm). cbn [bind].
    now rewrite E. }
  assert (Hall : forall e,
    (if known_versionType v
     then tid <- normalize_tokenId t;;
          _ <- check_mintBatonVout m;;
          qty <- BNToInt64BE q;;
          Ok (slp_prefix ++ [byte_of_Z v] ++ pushed_MINT ++ (x20 :: tid)
              ++ baton_field m ++ x08 :: qty)
     else Throw UnknownVersionType) = Throw e ->
    e = UnknownVersionType \/
    (exists s, t = Str s /\ e = TokenIdRegex) \/
    (exists b, t = Buf b /\ e = TokenIdLength) \/
    e = MintBatonVoutOutOfRange \/
    e = NotInteger \/ e = NotPositive \/ e = OutOfRange).
  { intros e H. destruct (known_versionType v);
      [|injection H as <-; now left].
    destruct (normalize_tokenId t) as [tid|e1] eqn:E1; cbn [bind] in H.
    2:{ injection H as <-.
        destruct (normalize_tokenId_errors _ _ E1)
          as [(s & -> & _ & ->)|(b & -> & _ & ->)]; eauto 6. }
    destruct (check_mintBatonVout m) as [u|e2] eqn:E2; cbn [bind] in H.
    2:{ injection H as <-. apply check_mintBatonVout_errors in E2 as [-> _].
        tauto. }
    destruct (BNToInt64BE q) as [qty|e3] eqn:E3; cbn [bind] in H;
      [discriminate H|].
    injection H as <-. apply BNToInt64BE_errors in E3. tauto. }
  split.
  - intros H. apply Hall in H.
    destruct H as [H|[(s & _ & H)|[(b & _ & H)|[H|[H|[H|H]]]]]]; discriminate H.
  - intros s -> H. apply Hall in H.
    destruct H as [H|[(s' & _ & H)|[(b & Hb & _)|[H|[H|[H|H]]]]]];
      discriminate.
Qed.

Lemma X8_mint_errors_witness :
  createOpReturnMint 0x02 (Str "zz") (Some (Int 1)) BNNaN
  = Throw UnknownVersionType /\
  createOpReturnMint 0x01 (Str "zz") (Some (Int 1)) BNNaN
  = Throw TokenIdRegex /\
  createOpReturnMint 0x01 (Buf (zeros 31)) (Some (Int 1)) BNNaN
  = Throw TokenIdLength /\
  createOpReturnMint 0x01 (Buf (zeros 32)) (Some (Int 1)) BNNaN
  = Throw MintBatonVoutOutOfRange /\
  createOpReturnMint 0x01 (Buf (zeros 32)) (Some NumNaN) BNNaN
  = Throw NotInteger.
Proof.
  split; [|split; [|split; [|split]]].
  - apply (proj1 (X8_mint_errors 0x02 (Str "zz") (Some (Int 1)) BNNaN)).
    reflexivity.
  - apply (proj1 (proj2 (X8_mint_errors 0x01 (Str "zz") (Some (Int 1))
                                        BNNaN))).
    + reflexivity.
    + cbn. discriminate.
  - apply (proj1 (proj2 (X8_mint_errors 0x01 (Buf (zeros 31)) (Some (Int 1))
                                        BNNaN))).
    + reflexivity.
    + cbn. vm_compute. discriminate.
  - apply (proj1 (proj2 (proj2 (X8_mint_errors 0x01 (Buf (zeros 32))
                                               (Some (Int 1)) BNNaN)))).
    + reflexivity.
    + reflexivity.
    + intros [F _]. discriminate F.
  - apply (proj1 (proj2 (proj2 (proj2 (X8_mint_errors 0x01 (Buf (zeros 32))
                                                      (Some NumNaN) BNNaN))))).
    + reflexivity.
    + reflexivity.
    + split; reflexivity.
    + reflexivity.
Defined.

(** ** SEND: domain, errors, and reading the amounts back *)

Lemma mapM_push_amounts (l : list BN) :
  mapM (fun v => q <- BNToInt64BE v ;; pushdata q) l
  = (qtys <- mapM BNToInt64BE l ;; Ok (map (cons x08) qtys)).
Proof.
  induction l as [|a l IH]; [reflexivity|]. cbn [mapM].
  destruct (BNToInt64BE a) as [q|e] eqn:E; cbn [bind]; [|reflexivity].
  destruct (BNToInt64BE_ok _ _ E) as [_ L].
  rewrite (pushdata_8_bytes _ L), IH. cbn [bind].
  destruct (mapM BNToInt64BE l); reflexivity.
Qed.

Lemma mapM_first_error {A B : Type} (f : A -> result B)
    (good : list A) (bad : A) (rest : list A) (e : Error) :
  Forall (fun a => succeeds (f a)) good -> f bad = Throw e ->
  mapM f (good ++ bad :: rest) = Throw e.
Proof.
  intros Hg Hb. induction Hg as [|a good [b Ha] _ IH]; cbn [app mapM].
  - now rewrite Hb.
  - rewrite Ha. cbn [bind]. now rewrite IH.
Qed.

Lemma mapM_Forall2_ok {A B : Type} (f : A -> result B) (l : list A) (bs : list B) :
  Forall2 (fun a b => f a = Ok b) l bs -> mapM f l = Ok bs.
Proof.
  induction 1 as [|a b l bs Hab _ IH]; cbn [mapM]; [reflexivity|].
  now rewrite Hab, IH.
Qed.

(** SEND with its infallible pushes carried out. *)
Lemma send_outcome (v : Z) (t : StringOrBuffer) (amounts : list BN) :
  createOpReturnSend v t amounts =
  if known_versionType v then
    tid <- normalize_tokenId t ;;
    _ <- throw_if (Z.of_nat (List.length amounts) <? 1) TooFewAmounts ;;
    _ <- throw_if (Z.of_nat (List.length amounts) >? 19) TooManyAmounts ;;
    qtys <- mapM BNToInt64BE amounts ;;
    Ok (slp_prefix ++ [byte_of_Z v] ++ pushed_SEND ++ (x20 :: tid)
        ++ List.concat (map (cons x08) qtys))
  else Throw UnknownVersionType.
Proof.
  unfold createOpReturnSend.
  destruct (known_versionType v); [|reflexivity]. cbn [negb throw_if bind].
  destruct (normalize_tokenId t) as [tid|e] eqn:Ht; [|reflexivity].
  cbn [bind]. destruct (normalize_tokenId_ok _ _ Ht) as [_ Lt].
  destruct (throw_if (Z.of_nat (List.length amounts) <? 1) TooFewAmounts);
    [|reflexivity].
  cbn [bind].
  destruct (throw_if (Z.of_nat (List.length amounts) >? 19) TooManyAmounts);
    [|reflexivity].
  cbn [bind].
  rewrite pushdata_SLP_tag, pushdata_single, pushdata_SEND,
    (pushdata_32_bytes _ Lt), mapM_push_amounts.
  cbn [bind]. destruct (mapM BNToInt64BE amounts); [|reflexivity].
  cbn [bind]. unfold Buffer_concat. rewrite concat_app.
  cbn [List.concat app]. rewrite app_nil_r. reflexivity.
Qed.

(** The pushed amounts are chunks of 9 bytes. *)
Lemma length_pushed_amounts (qtys : list Buffer) :
  Forall (fun q => List.length q = 8%nat) qtys ->
  List.length (List.concat (map (cons x08) qtys)) = (9 * List.length qtys)%nat.
Proof.
  induction 1 as [|q qtys Hq _ IH]; [reflexivity|].
  cbn [map List.concat List.length app]. rewrite length_app, Hq, IH. lia.
Qed.

Lemma slice_pushed_amounts (qtys : list Buffer) :
  Forall (fun q => List.length q = 8%nat) qtys ->
  forall i q rest, nth_error qtys i = Some q ->
    slice (9 * i) 9 (List.concat (map (cons x08) qtys) ++ rest) = x08 :: q.
Proof.
  unfold slice.
  induction 1 as [|q0 qtys Hq _ IH]; intros i q rest Hi.
  - destruct i; discriminate Hi.
  - cbn [map List.concat]. rewrite <- app_assoc. destruct i as [|i].
    + injection Hi as <-. cbn [Nat.mul skipn].
      apply (firstn_app_exact 9 (x08 :: q0)). cbn [List.length]. now rewrite Hq.
    + cbn [nth_error] in Hi.
      replace (9 * S i)%nat with (9 * i + 9)%nat by lia.
      rewrite <- skipn_skipn.
      rewrite (skipn_app_exact 9 (x08 :: q0)) by (cbn [List.length]; now rewrite Hq).
      now apply IH.
Qed.

Lemma pushed_amounts_inj (qtys qtys' : list Buffer) :
  Forall (fun q => List.length q = 8%nat) qtys ->
  Forall (fun q => List.length q = 8%nat) qtys' ->
  List.concat (map (cons x08) qtys) = List.concat (map (cons x08) qtys') ->
  qtys = qtys'.
Proof.
  intros H. revert qtys'.
  induction H as [|q qtys Hq _ IH]; intros qtys' H' E.
  - destruct H' as [|q' qtys' Hq' _]; [reflexivity|discriminate E].
  - destruct H' as [|q' qtys' Hq' H']; [discriminate E|].
    cbn [map List.concat] in E.
    destruct (app_same_length (x08 :: q) (x08 :: q') _ _
                ltac:(cbn [List.length]; congruence) E) as [E1 E2].
    apply cons_eq in E1 as [_ ->]. f_equal. now apply IH.
Qed.

Lemma quantities_of_amounts (amounts : list BN) (qtys : list Buffer) :
  mapM BNToInt64BE amounts = Ok qtys ->
  Forall uint64_BN amounts /\
  Forall (fun q => List.length q = 8%nat) qtys /\
  List.length qtys = List.length amounts /\
  map be_value qtys = map magnitude amounts /\
  forall i a, nth_error amounts i = Some a ->
    exists q, nth_error qtys i = Some q /\ BNToInt64BE a = Ok q /\
              be_value q = magnitude a.
Proof.
  intros H. apply mapM_Forall2 in H.
  induction H as [|a q amounts qtys Haq _ IH].
  - repeat split; try constructor. intros [|i] a Hi; discriminate Hi.
  - destruct IH as (I1 & I2 & I3 & I4 & I5).
    destruct (BNToInt64BE_ok _ _ Haq) as [U L].
    destruct (BNToInt64BE_uint64 a U) as (q' & Hq' & _ & V).
    assert (q' = q) by congruence. subst q'.
    split; [now constructor|]. split; [now constructor|].
    split; [cbn [List.length]; now rewrite I3|].
    split; [cbn [map]; now rewrite V, I4|].
    intros [|i] a' Hi; cbn [nth_error] in *.
    + injection Hi as <-. now exists q.
    + now apply I5.
Qed.

(** The parts of a returned SEND script. *)
Lemma send_parts (v : Z) (t : StringOrBuffer) (amounts : list BN) (r : Buffer) :
  createOpReturnSend v t amounts = Ok r ->
  exists tid qtys,
    known_versionType v = true /\
    normalize_tokenId t = Ok tid /\ List.length tid = 32%nat /\
    (1 <= List.length amounts <= 19)%nat /\
    mapM BNToInt64BE amounts = Ok qtys /\
    r = (slp_prefix ++ [byte_of_Z v] ++ pushed_SEND ++ (x20 :: tid))
        ++ List.concat (map (cons x08) qtys).
Proof.
  rewrite send_outcome. intros H.
  destruct (known_versionType v); [|discriminate H].
  bind_ok H as tid Ht. bind_ok H as u1 Hlo. bind_ok H as u2 Hhi.
  bind_ok H as qtys Hq. injection H as <-.
  apply throw_if_ok in Hlo, Hhi.
  destruct (normalize_tokenId_ok _ _ Ht) as [_ Lt].
  exists tid, qtys. split; [reflexivity|]. split; [reflexivity|].
  split; [unfold blength in Lt; lia|]. split; [lia|]. split; [reflexivity|].
  now rewrite <- !app_assoc.
Qed.

Lemma length_send_front (v : Z) (tid : Buffer) :
  List.length tid = 32%nat ->
  List.length (slp_prefix ++ [byte_of_Z v] ++ pushed_SEND ++ (x20 :: tid)) = 46%nat.
Proof. intros L. cbn [slp_prefix pushed_SEND app List.length]. now rewrite L. Qed.

(** X9: createOpReturnSend returns exactly when versionType is 0x01, 0x41
    or 0x81, the token id is 64 hex digits or 32 bytes, there are from 1 to
    19 amounts, and every amount is an integer of positive sign up to
    2^64 - 1. *)
Theorem X9_send_domain (v : Z) (t : StringOrBuffer) (amounts : list BN) :
  succeeds (createOpReturnSend v t amounts) <->
  known_versionType v = true /\ valid_tokenId t /\
  (1 <= List.length amounts <= 19)%nat /\ Forall uint64_BN amounts.
Proof.
  split.
  - intros [r H].
    destruct (send_parts _ _ _ _ H) as (tid & qtys & Hv & Ht & _ & Hn & Hq & _).
    destruct (normalize_tokenId_ok _ _ Ht) as [Vt _].
    destruct (quantities_of_amounts _ _ Hq) as (U & _). tauto.
  - intros (Hv & Ht & Hn & Ha). now apply send_succeeds.
Qed.

Lemma X9_send_domain_witness :
  succeeds (createOpReturnSend 0x01 (Buf (zeros 32)) [BN_of_Z 7; BN_of_Z 0]) /\
  (known_versionType 0x41 = true /\ valid_tokenId (Buf (zeros 32)) /\
   (1 <= List.length [BN_of_Z 9] <= 19)%nat /\ Forall uint64_BN [BN_of_Z 9]).
Proof.
  split.
  - apply (proj2 (X9_send_domain 0x01 (Buf (zeros 32)) [BN_of_Z 7; BN_of_Z 0])).
    split; [reflexivity|]. split; [reflexivity|]. split; [cbn; lia|].
    repeat constructor; unfold uint64_BN; vm_compute; repeat split; discriminate.
  - apply (proj1 (X9_send_domain 0x41 (Buf (zeros 32)) [BN_of_Z 9])).
    eexists. vm_compute. reflexivity.
Defined.

(** X10: a returned SEND script of n amounts is 46 + 9 n bytes, so from 55
    to 217 bytes; versionType is byte 7, the token id is bytes 14 to 45,
    and amount i (from 0) is the 9 bytes from offset 46 + 9 i: the byte 08
    and the amount in 8 bytes, most significant first. *)
Theorem X10_send_fields
    (v : Z) (t : StringOrBuffer) (amounts : list BN) (r : Buffer) :
  createOpReturnSend v t amounts = Ok r ->
  blength r = 46 + 9 * Z.of_nat (List.length amounts) /\
  55 <= blength r <= 217 /\
  (exists b, nth_error r 7 = Some b /\ Z_of_byte b = v) /\
  slice 8 5 r = pushed_SEND /\
  normalize_tokenId t = Ok (slice 14 32 r) /\
  forall i a, nth_error amounts i = Some a ->
    exists q, slice (46 + 9 * i) 9 r = x08 :: q /\ BNToInt64BE a = Ok q /\
              be_value q = magnitude a.
Proof.
  intros H.
  destruct (send_parts _ _ _ _ H) as (tid & qtys & Hv & Ht & Lt & Hn & Hq & ->).
  destruct (quantities_of_amounts _ _ Hq) as (_ & L8 & Ln & _ & Hnth).
  pose proof (length_send_front v tid Lt) as LP.
  pose proof (length_pushed_amounts qtys L8) as LC.
  assert (Hlen : blength ((slp_prefix ++ [byte_of_Z v] ++ pushed_SEND
                             ++ (x20 :: tid))
                          ++ List.concat (map (cons x08) qtys))
                 = 46 + 9 * Z.of_nat (List.length amounts)).
  { unfold blength. rewrite length_app, LP, LC, Ln. lia. }
  split; [exact Hlen|]. split; [lia|].
  split; [exists (byte_of_Z v); split;
            [reflexivity|now apply Z_of_byte_versionType]|].
  split; [reflexivity|].
  split.
  { rewrite Ht. f_equal. unfold slice.
    cbn [slp_prefix pushed_SEND app skipn]. rewrite <- ?app_assoc.
    symmetry. now apply firstn_app_exact. }
  intros i a Hi. destruct (Hnth i a Hi) as (q & Hqi & Ha & V).
  exists q. split; [|now split].
  unfold slice. replace (46 + 9 * i)%nat with (9 * i + 46)%nat by lia.
  rewrite <- skipn_skipn, (skipn_app_exact 46 _ _ LP).
  pose proof (slice_pushed_amounts qtys L8 i q [] Hqi) as S.
  unfold slice in S. now rewrite app_nil_r in S.
Qed.

Lemma X10_send_fields_witness :
  exists q,
    slice (46 + 9 * 1) 9
          (slp_prefix ++ [x01] ++ pushed_SEND ++ (x20 :: zeros 32)
             ++ [x08; x00; x00; x00; x00; x00; x00; x00; x07]
             ++ [x08; x00; x00; x00; x00; x00; x00; x01; x00])
    = x08 :: q /\
    BNToInt64BE (BN_of_Z 256) = Ok q /\ be_value q = magnitude (BN_of_Z 256).
Proof.
  apply (proj2 (proj2 (proj2 (proj2 (proj2
           (X10_send_fields 0x01 (Buf (zeros 32)) [BN_of_Z 7; BN_of_Z 256] _
              ltac:(vm_compute; reflexivity)))))) 1%nat (BN_of_Z 256)).
  reflexivity.
Defined.

(** X11: createOpReturnSend is injective on what it encodes: two calls that
    return the same script have the same versionType, the same token id
    bytes, and the same number of amounts with the same values in the same
    order. *)
Theorem X11_send_injective
    (v v' : Z) (t t' : StringOrBuffer) (amounts amounts' : list BN)
    (r : Buffer) :
  createOpReturnSend v t amounts = Ok r ->
  createOpReturnSend v' t' amounts' = Ok r ->
  v = v' /\ normalize_tokenId t = normalize_tokenId t' /\
  map magnitude amounts = map magnitude amounts'.
Proof.
  intros H H'.
  destruct (send_parts _ _ _ _ H) as (tid & qtys & Hv & Ht & Lt & _ & Hq & E).
  destruct (send_parts _ _ _ _ H')
    as (tid' & qtys' & Hv' & Ht' & Lt' & _ & Hq' & E').
  rewrite E in E'. clear E.
  assert (LL : List.length (slp_prefix ++ [byte_of_Z v] ++ pushed_SEND
                              ++ (x20 :: tid))
               = List.length (slp_prefix ++ [byte_of_Z v'] ++ pushed_SEND
                                ++ (x20 :: tid')))
    by (rewrite !length_send_front by assumption; reflexivity).
  destruct (app_same_length _ _ _ _ LL E') as [EP EC].
  cbn [slp_prefix pushed_SEND app] in EP.
  do 7 (apply cons_eq in EP as [_ EP]). apply cons_eq in EP as [Ev EP].
  do 6 (apply cons_eq in EP as [_ EP]).
  split.
  { rewrite <- (Z_of_byte_versionType v Hv), <- (Z_of_byte_versionType v' Hv').
    now rewrite Ev. }
  split; [congruence|].
  destruct (quantities_of_amounts _ _ Hq) as (_ & L8 & _ & M & _).
  destruct (quantities_of_amounts _ _ Hq') as (_ & L8' & _ & M' & _).
  apply pushed_amounts_inj in EC; [|assumption|assumption].
  congruence.
Qed.

Lemma X11_send_injective_witness :
  0x01 = 0x01 /\
  normalize_tokenId (Buf (zeros 32))
  = normalize_tokenId (Str (Buffer_toString_hex (zeros 32))) /\
  map magnitude [BN_of_Z 7; BNFinite false 2560 1]
  = map magnitude [BNFinite false 700 2; BN_of_Z 256].
Proof.
  apply (X11_send_injective 0x01 0x01 (Buf (zeros 32))
           (Str (Buffer_toString_hex (zeros 32)))
           [BN_of_Z 7; BNFinite false 2560 1] [BNFinite false 700 2; BN_of_Z 256]
           (slp_prefix ++ [x01] ++ pushed_SEND ++ (x20 :: zeros 32)
              ++ [x08; x00; x00; x00; x00; x00; x00; x00; x07]
              ++ [x08; x00; x00; x00; x00; x00; x00; x01; x00]));
    vm_compute; reflexivity.
Defined.

(** X12: the errors of createOpReturnSend, in the order of its checks: an
    unknown versionType first; then the token id, with the regex error for
    a text and the length error for a buffer; then the number of amounts;
    last the amounts from left to right, so that the error is that of the
    first amount that BNToInt64BE refuses.  It never fails with the push
    length error. *)
Theorem X12_send_errors (v : Z) (t : StringOrBuffer) (amounts : list BN) :
  (known_versionType v = false ->
     createOpReturnSend v t amounts = Throw UnknownVersionType) /\
  (known_versionType v = true -> ~ valid_tokenId t ->
     createOpReturnSend v t amounts
     = Throw (match t with Str _ => TokenIdRegex | Buf _ => TokenIdLength end)) /\
  (known_versionType v = true -> valid_tokenId t -> amounts = [] ->
     createOpReturnSend v t amounts = Throw TooFewAmounts) /\
  (known_versionType v = true -> valid_tokenId t ->
   (19 < List.length amounts)%nat ->
     createOpReturnSend v t amounts = Throw TooManyAmounts) /\
  (known_versionType v = true -> valid_tokenId t ->
   (List.length amounts <= 19)%nat ->
   forall good bad rest e,
     amounts = good ++ bad :: rest -> Forall uint64_BN good ->
     BNToInt64BE bad = Throw e ->
     createOpReturnSend v t amounts = Throw e) /\
  createOpReturnSend v t amounts <> Throw UnsupportedLength.
Proof.
  split; [intros Hv; rewrite send_outcome; now rewrite Hv|].
  split.
  { intros Hv Ht. rewrite send_outcome, Hv.
    destruct (normalize_tokenId t) as [tid|e] eqn:E.
    - apply normalize_tokenId_ok in E. tauto.
    - cbn [bind].
      destruct (normalize_tokenId_errors _ _ E)
        as [(s & -> & _ & ->)|(b & -> & _ & ->)]; reflexivity. }
  split; [intros Hv Ht ->; now apply send_too_few|].
  split; [apply send_too_many|].
  split.
  { intros Hv Ht Hn good bad rest e -> Hg Hb. rewrite send_outcome, Hv.
    destruct (normalize_tokenId_valid t Ht) as (tid & -> & _). cbn [bind].
    rewrite length_app in *. cbn [List.length] in *.
    destruct (Z.ltb_spec (Z.of_nat (List.length good + S (List.length rest))) 1);
      [lia|].
    destruct (Z.gtb_spec (Z.of_nat (List.length good + S (List.length rest))) 19);
      [lia|].
    cbn [throw_if bind].
    rewrite (mapM_first_error BNToInt64BE good bad rest e); [reflexivity| |exact Hb].
    eapply Forall_impl; [|exact Hg]. intros a U.
    destruct (BNToInt64BE_uint64 a U) as (bs & E & _). now exists bs. }
  rewrite send_outcome. intros H.
  destruct (known_versionType v); [|discriminate H].
  destruct (normalize_tokenId t) as [tid|e1] eqn:E1; cbn [bind] in H.
  2:{ destruct (normalize_tokenId_errors _ _ E1)
        as [(s & _ & _ & ->)|(b & _ & _ & ->)]; discriminate H. }
  destruct (Z.of_nat (List.length amounts) <? 1); cbn [throw_if bind] in H;
    [discriminate H|].
  destruct (Z.of_nat (List.length amounts) >? 19); cbn [throw_if bind] in H;
    [discriminate H|].
  destruct (mapM BNToInt64BE amounts) as [qtys|e2] eqn:E2; cbn [bind] in H;
    [discriminate H|].
  injection H as ->. clear - E2. revert E2.
  induction amounts as [|a amounts IH]; cbn [mapM]; [discriminate|].
  destruct (BNToInt64BE a) as [q|e] eqn:Ea; cbn [bind].
  - destruct (mapM BNToInt64BE amounts) as [qs|e]; cbn [bind]; [discriminate|].
    intros H. injection H as ->. now apply IH.
  - intros H. injection H as ->. apply BNToInt64BE_errors in Ea.
    destruct Ea as [Ea|[Ea|Ea]]; discriminate Ea.
Qed.

Lemma X12_send_errors_witness :
  createOpReturnSend 0x03 (Str "") [] = Throw UnknownVersionType /\
  createOpReturnSend 0x01 (Str "") [] = Throw TokenIdRegex /\
  createOpReturnSend 0x01 (Buf (zeros 32)) [] = Throw TooFewAmounts /\
  createOpReturnSend 0x01 (Buf (zeros 32)) (repeat BNNaN 20)
  = Throw TooManyAmounts /\
  createOpReturnSend 0x01 (Buf (zeros 32))
                     [BN_of_Z 1; BN_of_Z (-1); BNNaN] = Throw NotPositive.
Proof.
  split; [|split; [|split; [|split]]].
  - apply (proj1 (X12_send_errors 0x03 (Str "") [])). reflexivity.
  - apply (proj1 (proj2 (X12_send_errors 0x01 (Str "") []))).
    + reflexivity.
    + cbn. discriminate.
  - apply (proj1 (proj2 (proj2 (X12_send_errors 0x01 (Buf (zeros 32)) []))));
      reflexivity.
  - apply (proj1 (proj2 (proj2 (proj2
             (X12_send_errors 0x01 (Buf (zeros 32)) (repeat BNNaN 20)))))).
    + reflexivity.
    + reflexivity.
    + cbn. lia.
  - apply (proj1 (proj2 (proj2 (proj2 (proj2
             (X12_send_errors 0x01 (Buf (zeros 32))
                              [BN_of_Z 1; BN_of_Z (-1); BNNaN])))))
             eq_refl eq_refl ltac:(cbn; lia)
             [BN_of_Z 1] (BN_of_Z (-1)) [BNNaN] NotPositive).
    + reflexivity.
    + repeat constructor; unfold uint64_BN; vm_compute; repeat split; discriminate.
    + reflexivity.
Defined.

(** ** GENESIS: domain, reading the fields back, and where that fails *)

Lemma slength_zero (s : string) : slength s = 0 -> s = EmptyString.
Proof. destruct s; [reflexivity|]. unfold slength. cbn. lia. Qed.

Lemma normalize_documentHash_ok (h : StringOrBuffer) (d : Buffer) :
  normalize_documentHash h = Ok d ->
  valid_documentHash h /\ (blength d = 0 \/ blength d = 32).
Proof.
  intros H.
  assert (V : valid_documentHash h).
  { destruct h as [s|b]; cbn [normalize_documentHash valid_documentHash] in *.
    - bind_ok H as u1 H1. bind_ok H as u2 H2.
      apply throw_if_ok in H1, H2.
      destruct (Z.eqb_spec (slength s) 0) as [E0|E0];
        [left; now apply slength_zero|].
      destruct (Z.eqb_spec (slength s) 64) as [E64|E64]; [|discriminate H1].
      right. cbn in H2. now apply negb_false_iff in H2.
    - bind_ok H as u1 H1. apply throw_if_ok in H1.
      destruct (Z.eqb_spec (blength b) 0); [now left|].
      destruct (Z.eqb_spec (blength b) 32); [now right|discriminate H1]. }
  split; [exact V|].
  destruct (normalize_documentHash_valid h V) as (d' & E & L). congruence.
Qed.

(** X13: createOpReturnGenesis returns exactly when versionType is 0x01,
    0x41 or 0x81; documentHash is an empty text, 64 hex digits, or a buffer
    of 0 or 32 bytes; decimals passes its range check (it is neither below
    0 nor above 9) and mintBatonVout is absent or passes its own (neither
    below 2 nor above 255), which integers in the range, fractions between
    its ends and NaN do; for versionType 0x41 the quantity is 1, decimals
    is 0 and mintBatonVout absent; ticker, name and documentUrl are each
    below 4294967295 bytes; and the quantity is an integer of positive sign
    up to 2^64 - 1. *)
Theorem X13_genesis_domain
    (v : Z) (ticker name url hash : StringOrBuffer) (dec : Number)
    (m : option Number) (q : BN) :
  succeeds (createOpReturnGenesis v ticker name url hash dec m q) <->
  known_versionType v = true /\ valid_documentHash hash /\ valid_decimals dec /\
  valid_mintBatonVout m /\
  (v = 0x41 -> isEqualTo1 q = true /\ Num_neq_0 dec = false /\ m = None) /\
  pushable (Buffer_from ticker) /\ pushable (Buffer_from name) /\
  pushable (Buffer_from url) /\ uint64_BN q.
Proof.
  split.
  - intros [r H].
    destruct (genesis_layout _ _ _ _ _ _ _ _ _ H)
      as (Hv & Hd & Hm & Hc & d & p1 & p2 & p3 & p4 & qty
          & Hh & H1 & H2 & H3 & _ & Hq & _).
    apply normalize_documentHash_ok in Hh as [Hh _].
    apply pushdata_ok_pushable in H1, H2, H3.
    apply BNToInt64BE_ok in Hq as [Hq _]. tauto.
  - intros (Hv & Hh & Hd & Hm & Hc & H1 & H2 & H3 & Hq).
    now apply genesis_succeeds.
Qed.

Lemma X13_genesis_domain_witness :
  succeeds (createOpReturnGenesis 0x81 (Str "NFT") (Buf []) (Str "u")
                                  (Buf (zeros 32)) (NumFinite false 17 1)
                                  (Some NumNaN) (BN_of_Z 0)) /\
  uint64_BN (BN_of_Z 1000).
Proof.
  split.
  - apply (proj2 (X13_genesis_domain 0x81 (Str "NFT") (Buf []) (Str "u")
                                     (Buf (zeros 32)) (NumFinite false 17 1)
                                     (Some NumNaN) (BN_of_Z 0))).
    split; [reflexivity|]. split; [right; reflexivity|].
    split; [split; reflexivity|]. split; [split; reflexivity|].
    split; [discriminate|].
    unfold pushable, uint64_BN. vm_compute.
    repeat split; discriminate.
  - apply (proj1 (X13_genesis_domain 0x01 (Str "TOK") (Str "Token") (Str "")
                                     (Str "") (Int 2) (Some (Int 2))
                                     (BN_of_Z 1000))).
    exists scenario_script. vm_compute. reflexivity.
Defined.

Lemma not_marker_length_hash (d : Buffer) :
  blength d = 0 \/ blength d = 32 -> ~ marker_length (blength d).
Proof. unfold marker_length. lia. Qed.

(** X14: apart from text fields of 76 or 77 bytes, createOpReturnGenesis is
    injective on what it encodes: two calls that return the same script,
    neither with a ticker, name or documentUrl of 76 or 77 bytes, have the
    same versionType, the same bytes of ticker, name, documentUrl and
    documentHash, quantities of the same value, decimals with the same
    integer part, and a mintBatonVout that is absent in both or present in
    both with the same integer part (the integer part of NaN being taken as
    0, the byte stored for it, in both fields); so two integer decimals are
    equal, and so are two integer mintBatonVout, while decimals 2.5 gives
    the script of decimals 2. *)
Theorem X14_genesis_injective
    (v v' : Z) (ticker ticker' name name' url url' hash hash' : StringOrBuffer)
    (dec dec' : Number) (m m' : option Number) (q q' : BN) (r : Buffer) :
  createOpReturnGenesis v ticker name url hash dec m q = Ok r ->
  createOpReturnGenesis v' ticker' name' url' hash' dec' m' q' = Ok r ->
  ~ marker_length (blength (Buffer_from ticker)) ->
  ~ marker_length (blength (Buffer_from name)) ->
  ~ marker_length (blength (Buffer_from url)) ->
  ~ marker_length (blength (Buffer_from ticker')) ->
  ~ marker_length (blength (Buffer_from name')) ->
  ~ marker_length (blength (Buffer_from url')) ->
  v = v' /\
  Buffer_from ticker = Buffer_from ticker' /\
  Buffer_from name = Buffer_from name' /\
  Buffer_from url = Buffer_from url' /\
  normalize_documentHash hash = normalize_documentHash hash' /\
  integer_part dec = integer_part dec' /\
  (forall z z', dec = Int z -> dec' = Int z' -> z = z') /\
  option_map integer_part m = option_map integer_part m' /\
  (forall z z', m = Some (Int z) -> m' = Some (Int z') -> z = z') /\
  magnitude q = magnitude q'.
Proof.
  intros H H' M1 M2 M3 M1' M2' M3'.
  destruct (genesis_layout _ _ _ _ _ _ _ _ _ H)
    as (Hv & Hd & Hm & _ & d & p1 & p2 & p3 & p4 & qty
        & Hh & H1 & H2 & H3 & H4 & Hq & E).
  destruct (genesis_layout _ _ _ _ _ _ _ _ _ H')
    as (Hv' & Hd' & Hm' & _ & d' & p1' & p2' & p3' & p4' & qty'
        & Hh' & H1' & H2' & H3' & H4' & Hq' & E').
  rewrite E in E'. clear E.
  (* the fixed front: 16 bytes *)
  change (slp_prefix ++ [byte_of_Z v] ++ pushed_GENESIS ++ ?x)
    with ((slp_prefix ++ [byte_of_Z v] ++ pushed_GENESIS) ++ x) in E'.
  change (slp_prefix ++ [byte_of_Z v'] ++ pushed_GENESIS ++ ?x)
    with ((slp_prefix ++ [byte_of_Z v'] ++ pushed_GENESIS) ++ x) in E'.
  destruct (app_same_length
              (slp_prefix ++ [byte_of_Z v] ++ pushed_GENESIS)
              (slp_prefix ++ [byte_of_Z v'] ++ pushed_GENESIS) _ _ eq_refl E')
    as [EP ET].
  cbn [slp_prefix app] in EP.
  do 7 (apply cons_eq in EP as [_ EP]). apply cons_eq in EP as [EP _].
  assert (Ev : v = v').
  { rewrite <- (Z_of_byte_versionType v Hv), <- (Z_of_byte_versionType v' Hv').
    now rewrite EP. }
  (* the four pushed fields *)
  destruct (pushdata_read_once _ _ _ _ _ _ H1 H1' M1 M1' ET) as [T1 ET1].
  destruct (pushdata_read_once _ _ _ _ _ _ H2 H2' M2 M2' ET1) as [T2 ET2].
  destruct (pushdata_read_once _ _ _ _ _ _ H3 H3' M3 M3' ET2) as [T3 ET3].
  destruct (normalize_documentHash_ok _ _ Hh) as [_ Ld].
  destruct (normalize_documentHash_ok _ _ Hh') as [_ Ld'].
  destruct (pushdata_read_once _ _ _ _ _ _ H4 H4'
              (not_marker_length_hash d Ld) (not_marker_length_hash d' Ld') ET3)
    as [T4 ET4].
  (* decimals, mintBatonVout, quantity *)
  cbn [app] in ET4. apply cons_eq in ET4 as [_ ET4].
  apply cons_eq in ET4 as [Edec ET4].
  assert (Ed : integer_part dec = integer_part dec').
  { destruct (valid_decimals_stored dec Hd) as [S _].
    destruct (valid_decimals_stored dec' Hd') as [S' _].
    rewrite <- S, <- S'. now rewrite Edec. }
  destruct (app_same_length (baton_field m) (baton_field m') _ _
              ltac:(destruct m, m'; reflexivity) ET4) as [Em Eq].
  apply baton_field_inj in Em; [|assumption|assumption].
  apply cons_eq in Eq as [_ Eq].
  destruct (BNToInt64BE_ok _ _ Hq) as [U _].
  destruct (BNToInt64BE_ok _ _ Hq') as [U' _].
  destruct (BNToInt64BE_uint64 q U) as (x & Hx & _ & Vx).
  destruct (BNToInt64BE_uint64 q' U') as (x' & Hx' & _ & Vx').
  split; [exact Ev|]. split; [exact T1|]. split; [exact T2|].
  split; [exact T3|]. split; [congruence|]. split; [exact Ed|].
  split.
  { intros z z' -> ->. now rewrite !integer_part_Int in Ed. }
  split; [exact Em|].
  split; [intros z z'; exact (integer_part_Int_inj m m' z z' Em)|].
  congruence.
Qed.

Lemma X14_genesis_injective_witness :
  0x01 = 0x01 /\
  Buffer_from (Str "TOK") = Buffer_from (Buf [x54; x4f; x4b]) /\
  Buffer_from (Str "Token") = Buffer_from (Str "Token") /\
  Buffer_from (Str "") = Buffer_from (Buf []) /\
  normalize_documentHash (Str "") = normalize_documentHash (Buf []) /\
  integer_part (NumFinite false 5 1) = integer_part (Int 2) /\
  (forall z z', NumFinite false 5 1 = Int z -> Int 2 = Int z' -> z = z') /\
  option_map integer_part (Some (Int 2))
  = option_map integer_part (Some (NumFinite false 11 2)) /\
  (forall z z', Some (Int 2) = Some (Int z) ->
                Some (NumFinite false 11 2) = Some (Int z') -> z = z') /\
  magnitude (BN_of_Z 1000) = magnitude (BNFinite false 10000 1).
Proof.
  apply (X14_genesis_injective 0x01 0x01 (Str "TOK") (Buf [x54; x4f; x4b])
           (Str "Token") (Str "Token") (Str "") (Buf []) (Str "") (Buf [])
           (NumFinite false 5 1) (Int 2)
           (Some (Int 2)) (Some (NumFinite false 11 2))
           (BN_of_Z 1000) (BNFinite false 10000 1)
           scenario_script);
    try (vm_compute; reflexivity);
    unfold marker_length; vm_compute; intros [H|H]; discriminate H.
Defined.

(** X15: at 76 bytes the GENESIS script no longer tells its fields apart.
    For every 75 bytes X, 74 bytes Y and bytes c0, c1, the call with the 76
    byte ticker 4E X, the name c0 c1 and the 76 byte documentUrl 00 4A Y has
    the same result as the call with the 78 byte ticker X 02 c0 c1, the
    empty name and the documentUrl Y, whatever the other arguments are; and
    with the other arguments valid that result is a script. *)
Theorem X15_genesis_76_collision
    (v : Z) (X Y : Buffer) (c0 c1 : byte) (hash : StringOrBuffer)
    (dec : Number) (m : option Number) (q : BN) :
  blength X = 75 -> blength Y = 74 ->
  createOpReturnGenesis v (Buf (x4e :: X)) (Buf [c0; c1])
                        (Buf (x00 :: x4a :: Y)) hash dec m q
  = createOpReturnGenesis v (Buf (X ++ [x02; c0; c1])) (Buf [])
                          (Buf Y) hash dec m q /\
  Buffer_from (Buf (x4e :: X)) <> Buffer_from (Buf (X ++ [x02; c0; c1])) /\
  (known_versionType v = true -> valid_documentHash hash ->
   valid_decimals dec -> valid_mintBatonVout m ->
   (v = 0x41 -> isEqualTo1 q = true /\ Num_neq_0 dec = false /\ m = None) ->
   uint64_BN q ->
   succeeds (createOpReturnGenesis v (Buf (x4e :: X)) (Buf [c0; c1])
                                   (Buf (x00 :: x4a :: Y)) hash dec m q)).
Proof.
  intros LX LY. split; [|split].
  3:{ intros Hv Hh Hd Hm Hc Hq. apply genesis_succeeds; try assumption;
        unfold pushable; cbn [Buffer_from]; rewrite ?blength_cons, ?LX, ?LY;
        cbn; lia. }
  - unfold createOpReturnGenesis. cbn [Buffer_from].
    assert (P1 : pushdata (x4e :: X) = Ok (x4c :: x4e :: X)).
    { rewrite pushdata_direct; rewrite blength_cons, LX; [reflexivity|lia]. }
    assert (P3 : pushdata (x00 :: x4a :: Y) = Ok (x4c :: x00 :: x4a :: Y)).
    { rewrite pushdata_direct; rewrite !blength_cons, LY; [reflexivity|lia]. }
    assert (P1' : pushdata (X ++ [x02; c0; c1])
                  = Ok (x4c :: x4e :: X ++ [x02; c0; c1])).
    { rewrite pushdata_one_byte_length; rewrite blength_app, LX;
        [reflexivity|cbn; lia]. }
    assert (P3' : pushdata Y = Ok (x4a :: Y)).
    { rewrite pushdata_direct; rewrite LY; [reflexivity|lia]. }
    rewrite P1, P3, P1', P3', pushdata_SLP_tag, !pushdata_single,
      pushdata_GENESIS, pushdata_baton.
    change (pushdata [c0; c1]) with (Ok [x02; c0; c1]).
    change (pushdata []) with (Ok [x4c; x00]).
    destruct (throw_if (negb (known_versionType v)) UnknownVersionType);
      cbn [bind]; [|reflexivity].
    destruct (normalize_documentHash hash) as [d|]; cbn [bind]; [|reflexivity].
    destruct (throw_if (Num_lt dec 0 || Num_gt dec 9) DecimalsOutOfRange);
      cbn [bind]; [|reflexivity].
    destruct (check_mintBatonVout m); cbn [bind]; [|reflexivity].
    destruct (check_child_genesis v dec m q); cbn [bind]; [|reflexivity].
    destruct (pushdata d) as [p_hash|]; cbn [bind]; [|reflexivity].
    destruct (BNToInt64BE q) as [qty|]; cbn [bind]; [|reflexivity].
    destruct (pushdata qty) as [p_qty|]; cbn [bind]; [|reflexivity].
    f_equal. cbn [Buffer_concat List.concat app].
    rewrite <- !app_assoc. reflexivity.
  - cbn [Buffer_from]. intros E. apply (f_equal blength) in E.
    rewrite blength_cons, blength_app, LX in E. cbn in E. lia.
Qed.

Lemma X15_genesis_76_collision_witness :
  createOpReturnGenesis 0x01 (Buf (x4e :: zeros 75)) (Buf [x61; x62])
                        (Buf (x00 :: x4a :: zeros 74)) (Str "") (Int 0) None
                        (BN_of_Z 1)
  = createOpReturnGenesis 0x01 (Buf (zeros 75 ++ [x02; x61; x62])) (Buf [])
                          (Buf (zeros 74)) (Str "") (Int 0) None (BN_of_Z 1) /\
  Buffer_from (Buf (x4e :: zeros 75))
  <> Buffer_from (Buf (zeros 75 ++ [x02; x61; x62])) /\
  succeeds (createOpReturnGenesis 0x01 (Buf (x4e :: zeros 75)) (Buf [x61; x62])
                                  (Buf (x00 :: x4a :: zeros 74)) (Str "")
                                  (Int 0) None (BN_of_Z 1)).
Proof.
  destruct (X15_genesis_76_collision 0x01 (zeros 75) (zeros 74) x61 x62
              (Str "") (Int 0) None (BN_of_Z 1)) as (E & N & S);
    [reflexivity|reflexivity|].
  split; [exact E|]. split; [exact N|]. apply S.
  - reflexivity.
  - left. reflexivity.
  - split; reflexivity.
  - exact I.
  - discriminate.
  - unfold uint64_BN. vm_compute. repeat split. discriminate.
Defined.

(** X16: the errors of createOpReturnGenesis, in the order of its checks:
    an unknown versionType first; then documentHash (a text that is neither
    empty nor 64 characters, or a buffer of neither 0 nor 32 bytes, gives
    the length error; a text of 64 characters that are not all hex digits
    gives the hex error); then decimals below 0 or above 9; then a present
    mintBatonVout below 2 or above 255; then, for versionType 0x41, the
    quantity other than 1, before decimals other than 0, before a present
    mintBatonVout. *)
Theorem X16_genesis_errors
    (v : Z) (ticker name url hash : StringOrBuffer) (dec : Number)
    (m : option Number) (q : BN) :
  (known_versionType v = false ->
     createOpReturnGenesis v ticker name url hash dec m q
     = Throw UnknownVersionType) /\
  (known_versionType v = true ->
   forall s, hash = Str s -> slength s <> 0 -> slength s <> 64 ->
     createOpReturnGenesis v ticker name url hash dec m q
     = Throw DocumentHashLength) /\
  (known_versionType v = true ->
   forall s, hash = Str s -> slength s = 64 -> all_hex s = false ->
     createOpReturnGenesis v ticker name url hash dec m q
     = Throw DocumentHashNotHex) /\
  (known_versionType v = true ->
   forall b, hash = Buf b -> blength b <> 0 -> blength b <> 32 ->
     createOpReturnGenesis v ticker name url hash dec m q
     = Throw DocumentHashLength) /\
  (known_versionType v = true -> valid_documentHash hash ->
   ~ valid_decimals dec ->
     createOpReturnGenesis v ticker name url hash dec m q
     = Throw DecimalsOutOfRange) /\
  (known_versionType v = true -> valid_documentHash hash ->
   valid_decimals dec -> ~ valid_mintBatonVout m ->
     createOpReturnGenesis v ticker name url hash dec m q
     = Throw MintBatonVoutOutOfRange) /\
  (v = 0x41 -> valid_documentHash hash -> valid_decimals dec ->
   valid_mintBatonVout m -> isEqualTo1 q = false ->
     createOpReturnGenesis v ticker name url hash dec m q
     = Throw ChildQuantityNotOne) /\
  (v = 0x41 -> valid_documentHash hash -> valid_decimals dec ->
   valid_mintBatonVout m -> isEqualTo1 q = true -> Num_neq_0 dec = true ->
     createOpReturnGenesis v ticker name url hash dec m q
     = Throw ChildDecimalsNotZero) /\
  (v = 0x41 -> valid_documentHash hash -> valid_mintBatonVout m ->
   isEqualTo1 q = true -> Num_neq_0 dec = false -> m <> None ->
     createOpReturnGenesis v ticker name url hash dec m q
     = Throw ChildMintBatonPresent).
Proof.
  assert (Child : v = 0x41 -> valid_documentHash hash -> valid_decimals dec ->
                  valid_mintBatonVout m ->
                  forall e, check_child_genesis 0x41 dec m q = Throw e ->
                  createOpReturnGenesis v ticker name url hash dec m q = Throw e).
  { intros -> Hh Hd Hm e He. unfold createOpReturnGenesis.
    cbn [known_versionType Z.eqb Pos.eqb orb negb throw_if bind].
    destruct (normalize_documentHash_valid hash Hh) as (d & -> & _).
    cbn [bind].
    rewrite (decimals_guard_valid dec Hd). cbn [throw_if bind].
    rewrite (check_mintBatonVout_valid m Hm). cbn [bind]. now rewrite He. }
  split.
  { intros Hv. unfold createOpReturnGenesis. now rewrite Hv. }
  split.
  { intros Hv s -> H0 H64. unfold createOpReturnGenesis. rewrite Hv.
    cbn [negb throw_if bind normalize_documentHash].
    destruct (Z.eqb_spec (slength s) 0); [contradiction|].
    destruct (Z.eqb_spec (slength s) 64); [contradiction|]. reflexivity. }
  split.
  { intros Hv s -> H64 Hx. unfold createOpReturnGenesis. rewrite Hv.
    cbn [negb throw_if bind normalize_documentHash].
    unfold matches_hex64. rewrite H64, Hx. reflexivity. }
  split.
  { intros Hv b -> H0 H32. unfold createOpReturnGenesis. rewrite Hv.
    cbn [negb throw_if bind normalize_documentHash].
    destruct (Z.eqb_spec (blength b) 0); [contradiction|].
    destruct (Z.eqb_spec (blength b) 32); [contradiction|]. reflexivity. }
  split; [apply genesis_decimals_out_of_range|].
  split.
  { intros Hv Hh Hd Hm. destruct m as [b|]; [|exfalso; apply Hm; exact I].
    now apply genesis_baton_out_of_range. }
  split.
  { intros Hv Hh Hd Hm Hq. apply Child; try assumption.
    unfold check_child_genesis. cbn [Z.eqb Pos.eqb]. now rewrite Hq. }
  split.
  { intros Hv Hh Hd Hm Hq Hdec. apply Child; try assumption.
    unfold check_child_genesis. cbn [Z.eqb Pos.eqb]. rewrite Hq.
    cbn [negb throw_if bind]. now rewrite Hdec. }
  intros Hv Hh Hm Hq Hdec Hn. apply Child; try assumption;
    [now apply zero_valid_decimals|].
  unfold check_child_genesis. cbn [Z.eqb Pos.eqb]. rewrite Hq, Hdec.
  cbn [negb throw_if bind]. destruct m; [reflexivity|contradiction].
Qed.

Lemma X16_genesis_errors_witness :
  createOpReturnGenesis 0x00 (Str "") (Str "") (Str "") (Str "abc")
                        (Int 10) (Some (Int 1)) BNNaN
  = Throw UnknownVersionType /\
  createOpReturnGenesis 0x41 (Str "") (Str "") (Str "") (Str "abc")
                        (Int 10) (Some (Int 1)) BNNaN
  = Throw DocumentHashLength /\
  createOpReturnGenesis 0x41 (Str "") (Str "") (Str "") (Buf [x00])
                        (Int 10) (Some (Int 1)) BNNaN
  = Throw DocumentHashLength /\
  createOpReturnGenesis 0x41 (Str "") (Str "") (Str "") (Str "")
                        (Int 10) (Some (Int 1)) BNNaN
  = Throw DecimalsOutOfRange /\
  createOpReturnGenesis 0x41 (Str "") (Str "") (Str "") (Str "")
                        (Int 5) (Some (Int 1)) BNNaN
  = Throw MintBatonVoutOutOfRange /\
  createOpReturnGenesis 0x41 (Str "") (Str "") (Str "") (Str "")
                        (Int 5) (Some (Int 2)) BNNaN
  = Throw ChildQuantityNotOne /\
  createOpReturnGenesis 0x41 (Str "") (Str "") (Str "") (Str "")
                        NumNaN (Some NumNaN) (BN_of_Z 1)
  = Throw ChildDecimalsNotZero /\
  createOpReturnGenesis 0x41 (Str "") (Str "") (Str "") (Str "")
                        (Int 0) (Some (Int 2)) (BN_of_Z 1)
  = Throw ChildMintBatonPresent.
Proof.
  split; [|split; [|split; [|split; [|split; [|split; [|split]]]]]].
  - apply (proj1 (X16_genesis_errors 0x00 (Str "") (Str "") (Str "")
                    (Str "abc") (Int 10) (Some (Int 1)) BNNaN)).
    reflexivity.
  - apply (proj1 (proj2 (X16_genesis_errors 0x41 (Str "") (Str "") (Str "")
                           (Str "abc") (Int 10) (Some (Int 1)) BNNaN))
             eq_refl "abc"%string eq_refl); vm_compute; discriminate.
  - apply (proj1 (proj2 (proj2 (proj2 (X16_genesis_errors 0x41 (Str "")
                           (Str "") (Str "") (Buf [x00]) (Int 10)
                           (Some (Int 1)) BNNaN))))
             eq_refl [x00] eq_refl); vm_compute; discriminate.
  - apply (proj1 (proj2 (proj2 (proj2 (proj2 (X16_genesis_errors 0x41
                           (Str "") (Str "") (Str "") (Str "") (Int 10)
                           (Some (Int 1)) BNNaN)))))).
    + reflexivity.
    + left. reflexivity.
    + intros [_ F]. discriminate F.
  - apply (proj1 (proj2 (proj2 (proj2 (proj2 (proj2 (X16_genesis_errors 0x41
                           (Str "") (Str "") (Str "") (Str "") (Int 5)
                           (Some (Int 1)) BNNaN))))))).
    + reflexivity.
    + left. reflexivity.
    + split; reflexivity.
    + intros [F _]. discriminate F.
  - apply (proj1 (proj2 (proj2 (proj2 (proj2 (proj2 (proj2 (X16_genesis_errors
                           0x41 (Str "") (Str "") (Str "") (Str "") (Int 5)
                           (Some (Int 2)) BNNaN)))))))).
    + reflexivity.
    + left. reflexivity.
    + split; reflexivity.
    + split; reflexivity.
    + reflexivity.
  - apply (proj1 (proj2 (proj2 (proj2 (proj2 (proj2 (proj2 (proj2
             (X16_genesis_errors 0x41 (Str "") (Str "") (Str "") (Str "")
                                 NumNaN (Some NumNaN) (BN_of_Z 1)))))))))).
    + reflexivity.
    + left. reflexivity.
    + split; reflexivity.
    + split; reflexivity.
    + reflexivity.
    + reflexivity.
  - apply (proj2 (proj2 (proj2 (proj2 (proj2 (proj2 (proj2 (proj2
             (X16_genesis_errors 0x41 (Str "") (Str "") (Str "") (Str "")
                                 (Int 0) (Some (Int 2)) (BN_of_Z 1)))))))))).
    + reflexivity.
    + left. reflexivity.
    + split; reflexivity.
    + reflexivity.
    + reflexivity.
    + discriminate.
Defined.

(** ** A hash or token id as hex text and as bytes *)

Lemma hex_of_byte_digits (b : byte) : Forall hex_digit (hex_of_byte b).
Proof.
  pose proof (Z_of_byte_range b) as R. unfold hex_of_byte, hex_digit.
  repeat constructor.
  - apply Z.div_pos; lia.
  - apply Z.div_lt_upper_bound; lia.
  - apply Z.mod_pos_bound; lia.
  - apply Z.mod_pos_bound; lia.
Qed.

Lemma Buffer_from_hex_toString (buf : Buffer) :
  Buffer_from_hex (Buffer_toString_hex buf) = buf.
Proof.
  unfold Buffer_toString_hex, digits_text.
  induction buf as [|b buf IH]; [reflexivity|].
  pose proof (hex_of_byte_digits b) as D. unfold hex_of_byte in D.
  inversion D as [|? ? Dhi D']; subst. inversion D' as [|? ? Dlo _]; subst.
  cbn [flat_map hex_of_byte app map string_of_list_ascii Buffer_from_hex].
  rewrite !hex_val_hex_char by assumption. rewrite IH. f_equal.
  rewrite <- (byte_of_Z_of_byte b) at 3. f_equal.
  pose proof (Z.div_mod (Z_of_byte b) 16). lia.
Qed.

Lemma all_hex_digits_text (ds : list Z) :
  Forall hex_digit ds -> all_hex (digits_text ds) = true.
Proof.
  unfold digits_text. induction 1 as [|d ds Hd _ IH]; [reflexivity|].
  cbn [map string_of_list_ascii all_hex]. now rewrite hex_val_hex_char.
Qed.

Lemma matches_hex64_toString (buf : Buffer) :
  blength buf = 32 -> matches_hex64 (Buffer_toString_hex buf) = true.
Proof.
  intros L. unfold matches_hex64, Buffer_toString_hex.
  rewrite slength_digits_text, all_hex_digits_text.
  - rewrite andb_true_r. apply Z.eqb_eq.
    assert (E : List.length (flat_map hex_of_byte buf)
                = (2 * List.length buf)%nat).
    { clear L. induction buf as [|b buf IH]; [reflexivity|].
      cbn [flat_map hex_of_byte app List.length]. rewrite IH. lia. }
    rewrite E. unfold blength in L. lia.
  - clear L. induction buf as [|b buf IH]; [constructor|].
    cbn [flat_map]. apply Forall_app. split; [apply hex_of_byte_digits|exact IH].
Qed.

Lemma normalize_tokenId_hex (buf : Buffer) :
  blength buf = 32 ->
  normalize_tokenId (Str (Buffer_toString_hex buf)) = Ok buf.
Proof.
  intros L. pose proof (matches_hex64_toString buf L) as M.
  cbn [normalize_tokenId]. rewrite M. cbn [negb throw_if bind].
  unfold matches_hex64 in M. apply andb_true_iff in M as [M _]. rewrite M.
  cbn [negb throw_if bind]. now rewrite Buffer_from_hex_toString.
Qed.

Lemma normalize_documentHash_hex (buf : Buffer) :
  blength buf = 32 ->
  normalize_documentHash (Str (Buffer_toString_hex buf)) = Ok buf.
Proof.
  intros L. pose proof (matches_hex64_toString buf L) as M.
  cbn [normalize_documentHash]. rewrite M.
  unfold matches_hex64 in M. apply andb_true_iff in M as [M _]. rewrite M.
  cbn [negb]. rewrite andb_false_r. cbn [andb throw_if bind].
  now rewrite Buffer_from_hex_toString.
Qed.

(** X17: a 32 byte token id or document hash may be given as bytes or as
    its 64 hex digits, with the same result: the text is decoded to the
    very bytes, so MINT, SEND and GENESIS return the same script, or the
    same error, for either form. *)
Theorem X17_hex_text_or_bytes (buf : Buffer) :
  blength buf = 32 ->
  normalize_tokenId (Str (Buffer_toString_hex buf)) = Ok buf /\
  (forall v m q,
     createOpReturnMint v (Str (Buffer_toString_hex buf)) m q
     = createOpReturnMint v (Buf buf) m q) /\
  (forall v amounts,
     createOpReturnSend v (Str (Buffer_toString_hex buf)) amounts
     = createOpReturnSend v (Buf buf) amounts) /\
  (forall v ticker name url dec m q,
     createOpReturnGenesis v ticker name url (Str (Buffer_toString_hex buf))
                           dec m q
     = createOpReturnGenesis v ticker name url (Buf buf) dec m q).
Proof.
  intros L.
  assert (T : normalize_tokenId (Buf buf) = Ok buf).
  { cbn [normalize_tokenId]. now rewrite L. }
  assert (D : normalize_documentHash (Buf buf) = Ok buf).
  { cbn [normalize_documentHash]. now rewrite L. }
  split; [now apply normalize_tokenId_hex|].
  split; [|split].
  - intros v m q. unfold createOpReturnMint.
    now rewrite (normalize_tokenId_hex buf L), T.
  - intros v amounts. unfold createOpReturnSend.
    now rewrite (normalize_tokenId_hex buf L), T.
  - intros v ticker name url dec m q. unfold createOpReturnGenesis.
    now rewrite (normalize_documentHash_hex buf L), D.
Qed.

Lemma X17_hex_text_or_bytes_witness :
  normalize_tokenId (Str (Buffer_toString_hex (xab :: xcd :: zeros 30)))
  = Ok (xab :: xcd :: zeros 30) /\
  createOpReturnMint 0x01 (Str (Buffer_toString_hex (xab :: xcd :: zeros 30)))
                     None (BN_of_Z 9)
  = createOpReturnMint 0x01 (Buf (xab :: xcd :: zeros 30)) None (BN_of_Z 9).
Proof.
  destruct (X17_hex_text_or_bytes (xab :: xcd :: zeros 30) eq_refl)
    as (H1 & H2 & _).
  split; [exact H1|apply H2].
Defined.
